(** * Vibe-Scape: query resolution and enrichment pipeline

    A shallow embedding of the server-side pipeline of Vibe-Scape
    (review refiner, Reddit scraper, rule-based enrichment, intent
    classifier, place store and the cache-first fallback search), with
    the properties its specification states about it.

    Conventions.
    - A Python [str] is a [string]; a character is an [ascii].  Case
      mapping and whitespace follow Python on the ASCII range.
    - A Python [int] is a [Z]; [len] results are converted with [Z.of_nat].
    - A raised exception is [inl e]; every external system (language
      model, Reddit, place-search provider, document store, clock) is an
      oracle of the environment that sees the history of earlier calls. *)

From Stdlib Require Import String Ascii List ZArith Lia Bool Arith PeanoNat.
From Stdlib Require Import Permutation QArith_base Sorted.
Import ListNotations.

Local Close Scope Q_scope.
Local Open Scope string_scope.
Local Open Scope list_scope.

(** ** Python string and list primitives *)

Module PyStr.

(** A [string] is a sequence of 8-bit units.  For text of 7-bit
    characters the units are the code points of the Python [str], and
    the functions of this module are the [str] methods they are named
    after; for other text they work on the units of its encoding, where
    Python works on code points (its case mapping, its white space and
    its lengths differ there). *)
Definition is_ascii (s : string) : bool :=
  forallb (fun c => (nat_of_ascii c <? 128)%nat) (list_ascii_of_string s).

(** [c.isupper()] and [c.islower()] for a 7-bit character. *)
Definition is_upper (c : ascii) : bool :=
  let n := nat_of_ascii c in (65 <=? n)%nat && (n <=? 90)%nat.

Definition is_lower (c : ascii) : bool :=
  let n := nat_of_ascii c in (97 <=? n)%nat && (n <=? 122)%nat.

Definition lower_char (c : ascii) : ascii :=
  if is_upper c then ascii_of_nat (nat_of_ascii c + 32) else c.

Definition upper_char (c : ascii) : ascii :=
  if is_lower c then ascii_of_nat (nat_of_ascii c - 32) else c.

Fixpoint map_chars (f : ascii -> ascii) (s : string) : string :=
  match s with
  | EmptyString => EmptyString
  | String c r => String (f c) (map_chars f r)
  end.

(** [s.lower()] and [s.upper()] *)
Definition lower : string -> string := map_chars lower_char.
Definition upper : string -> string := map_chars upper_char.

(** [c.isspace()] on the ASCII range: tab, LF, VT, FF, CR, FS, GS, RS,
    US and space. *)
Definition is_space (c : ascii) : bool :=
  let n := nat_of_ascii c in
  ((9 <=? n)%nat && (n <=? 13)%nat) || ((28 <=? n)%nat && (n <=? 32)%nat).

Fixpoint lstrip (s : string) : string :=
  match s with
  | EmptyString => EmptyString
  | String c r => if is_space c then lstrip r else s
  end.

(** Right strip: a trailing run of whitespace is dropped. *)
Fixpoint rstrip (s : string) : string :=
  match s with
  | EmptyString => EmptyString
  | String c r =>
      match rstrip r with
      | EmptyString => if is_space c then EmptyString else String c EmptyString
      | r' => String c r'
      end
  end.

(** [s.strip()], for the white space of the 7-bit range *)
Definition strip (s : string) : string := rstrip (lstrip s).

(** [needle in hay] *)
Fixpoint contains (needle hay : string) : bool :=
  String.prefix needle hay ||
  match hay with
  | EmptyString => false
  | String _ r => contains needle r
  end.

(** [any(word in s for word in words)] *)
Definition any_in (words : list string) (s : string) : bool :=
  existsb (fun w => contains w s) words.

(** [s.find(c)] for a one-character needle: the first index, or -1. *)
Fixpoint find_char_from (c : ascii) (s : string) (i : Z) : Z :=
  match s with
  | EmptyString => (-1)%Z
  | String d r => if Ascii.eqb c d then i else find_char_from c r (i + 1)%Z
  end.
Definition find_char (c : ascii) (s : string) : Z := find_char_from c s 0%Z.

(** [s.rfind(c)]: the last index, or -1. *)
Fixpoint rfind_char_from (c : ascii) (s : string) (i : Z) (last : Z) : Z :=
  match s with
  | EmptyString => last
  | String d r =>
      rfind_char_from c r (i + 1)%Z (if Ascii.eqb c d then i else last)
  end.
Definition rfind_char (c : ascii) (s : string) : Z :=
  rfind_char_from c s 0%Z (-1)%Z.

(** Python slice bounds: a negative index counts from the end, and the
    result is clipped to [0, len]. *)
Definition clip (len : nat) (i : Z) : nat :=
  if (i <? 0)%Z then Z.to_nat (Z.max 0 (Z.of_nat len + i))
  else Nat.min len (Z.to_nat i).

(** [l[:n]] *)
Definition take {A} (n : Z) (l : list A) : list A :=
  firstn (clip (length l) n) l.

(** [l[a:b]] *)
Definition slice {A} (a b : Z) (l : list A) : list A :=
  let lo := clip (length l) a in
  let hi := clip (length l) b in
  firstn (hi - lo) (skipn lo l).

(** [s[:n]] and [s[a:b]] on strings *)
Definition stake (n : Z) (s : string) : string :=
  string_of_list_ascii (take n (list_ascii_of_string s)).
Definition sslice (a b : Z) (s : string) : string :=
  string_of_list_ascii (slice a b (list_ascii_of_string s)).

(** [sep.join(l)] *)
Definition join (sep : string) (l : list string) : string :=
  String.concat sep l.

(** [s.split(c)] for a one-character separator: always at least one
    field, empty fields kept. *)
Fixpoint split_on (sep : ascii) (s : string) : list string :=
  match s with
  | EmptyString => [EmptyString]
  | String c r =>
      if Ascii.eqb c sep then EmptyString :: split_on sep r
      else match split_on sep r with
           | [] => [String c EmptyString]
           | w :: ws => String c w :: ws
           end
  end.

(** [s.split()]: maximal runs of non-whitespace characters.  [cur] is
    the word being read, reversed. *)
Fixpoint split_ws_from (s : string) (cur : list ascii) : list string :=
  let flush rest :=
    match cur with
    | [] => rest
    | _ => string_of_list_ascii (rev cur) :: rest
    end in
  match s with
  | EmptyString => flush []
  | String c r =>
      if is_space c then flush (split_ws_from r [])
      else split_ws_from r (c :: cur)
  end.
Definition split_ws (s : string) : list string := split_ws_from s [].

(** [s.title()] on ASCII letters: a letter is upper-cased when it
    follows a non-letter, lower-cased otherwise. *)
Fixpoint title_from (s : string) (prev_cased : bool) : string :=
  match s with
  | EmptyString => EmptyString
  | String c r =>
      let cased := is_upper c || is_lower c in
      String (if prev_cased then lower_char c else upper_char c)
             (title_from r cased)
  end.
Definition title (s : string) : string := title_from s false.

(** Order-preserving removal of duplicates: the [seen]-set loop
    [for x in l: if x not in seen: seen.add(x); out.append(x)]. *)
Fixpoint unique_from (seen : list string) (l : list string) : list string :=
  match l with
  | [] => []
  | x :: r =>
      if existsb (String.eqb x) seen then unique_from seen r
      else x :: unique_from (x :: seen) r
  end.
Definition unique (l : list string) : list string := unique_from [] l.

End PyStr.

(** ** Values, events and the effect monad *)

Module Core.

(** JSON values, as [json.loads] returns them and as documents carry them. *)
#[warnings="-register-all"]
Inductive Json : Type :=
| JNull
| JBool (b : bool)
| JNum (q : Q)
| JStr (s : string)
| JArr (items : list Json)
| JObj (fields : list (string * Json)).

(** A raised exception, identified by [str(e)]. *)
Definition Exn : Type := string.

(** [d.get(k, default)] on a parsed JSON object. *)
Fixpoint jget (k : string) (fields : list (string * Json)) (default : Json) : Json :=
  match fields with
  | [] => default
  | (k', v) :: r => if String.eqb k k' then v else jget k r default
  end.

(** [len(v)]: defined on strings, lists and objects, a [TypeError] otherwise. *)
Definition py_len (v : Json) : Exn + Z :=
  match v with
  | JStr s => inr (Z.of_nat (String.length s))
  | JArr l => inr (Z.of_nat (length l))
  | JObj kv => inr (Z.of_nat (length kv))
  | _ => inl "object has no len()"
  end.

Definition jstrings (l : list string) : Json := JArr (map JStr l).

(** Python dictionaries keyed by strings, in insertion order:
    [d[k] = v] overwrites in place or appends. *)
Fixpoint dict_set {V} (k : string) (v : V) (d : list (string * V)) : list (string * V) :=
  match d with
  | [] => [(k, v)]
  | (k', v') :: r => if String.eqb k k' then (k, v) :: r else (k', v') :: dict_set k v r
  end.

Fixpoint dict_get {V} (k : string) (d : list (string * V)) : option V :=
  match d with
  | [] => None
  | (k', v) :: r => if String.eqb k k' then Some v else dict_get k r
  end.

(** A review dictionary as the scrapers build it. *)
Record Review : Type := {
  source : string;
  content : string;
  url : string;
  score : Z;
  created_utc : Z
}.

(** A Reddit post, after [post.get('data', {})] and the field defaults. *)
Record Post : Type := {
  post_title : string;
  post_selftext : string;
  post_url : string;
  post_score : Z;
  post_created_utc : Z
}.

(** GeoJSON point in fixed-point degrees; carried through unchanged. *)
Definition Coordinates : Type := option (Z * Z).

(** A candidate returned by the place-search provider.  [None] is an
    absent key. *)
Record RawPlace : Type := {
  rp_fsq_id : option string;
  rp_name : option string;
  rp_category : option string;
  rp_address : option string;
  rp_locality : option string;
  rp_city : option string;
  rp_country : option string;
  rp_photo_url : option string;
  rp_coordinates : Coordinates
}.

(** The [original] sub-document of a place.  [None] is Python's [None]. *)
Record Original : Type := {
  fsq_id : option string;
  name : option string;
  category : option string;
  address : option string;
  locality : option string;
  city : option string;
  country : option string;
  photo_url : option string;
  coordinates : Coordinates
}.

(** The [processed] sub-document: whatever the enrichment step produced. *)
Record Processed : Type := {
  vibe_tags : Json;
  emojis : Json;
  summary : Json;
  citations : list Json
}.

(** The [_id] of a document: an [ObjectId], or its [str] rendering. *)
Inductive DocId : Type :=
| ObjectId (oid : nat)
| OidString (oid : nat).

(** A place document.  [doc_id = None] is a dictionary without [_id]. *)
Record PlaceDoc : Type := {
  doc_id : option DocId;
  original : Original;
  processed : Processed;
  reviews : list Review;
  created_at : Z;
  updated_at : Z
}.

(** The dictionaries handed to [bulk_insert_places]. *)
Record PlaceData : Type := {
  pd_original : Original;
  pd_processed : Processed;
  pd_reviews : list Review
}.

(** The three-field result of the enrichment step. *)
Record Enrichment : Type := {
  e_summary : Json;
  e_vibe_tags : Json;
  e_emojis : Json
}.

(** Prompts sent to the language model: the holes of the fixed templates. *)
Inductive Prompt : Type :=
| BatchPrompt (place_name place_type : string) (numbered_reviews : list (Z * string))
| ProcessingPrompt (place_name place_category reviews_excerpt : string)
| IntentPrompt (user_query : string)
| JsonOnly (p : Prompt).

(** What the Reddit search endpoint did. *)
Inductive HttpOutcome : Type :=
| TransportError (e : Exn)
| HttpResponse (status : Z) (body : Exn + option (list Post)).

(** Every interaction with the outside world, in program order. *)
Inductive Event : Type :=
| DbFind (q_city q_category : string) (q_vibe_tags : list string)
| DbFindOne (q_fsq_id : string)
| DbInsertMany (n : nat)
| ProviderSearch (query location : string) (limit : Z)
| RedditGet (search_query : string) (limit : Z)
| Sleep (seconds : Z)
| LlmCall (p : Prompt) (temperature : Q)
| ClockRead.

(** The iteration order of a Python [set] built from a list: some
    duplicate-free enumeration of its elements, fixed for the process. *)
Record SetOrder : Type := {
  set_to_list : list string -> list string;
  set_to_list_nodup : forall l, NoDup (set_to_list l);
  set_to_list_elems : forall l x, In x (set_to_list l) <-> In x l
}.

(** The environment: one oracle per external collaborator.  Each oracle
    is given the history of events before the call. *)
Record Env : Type := {
  (** [OpenRouterClient.generate_content] *)
  llm_complete : list Event -> Prompt -> Q -> Exn + string;
  (** [json.loads]; [None] is a [JSONDecodeError] *)
  json_loads : string -> option Json;
  (** the message of the [JSONDecodeError] for a text that does not parse *)
  json_error : string -> string;
  (** [requests.get] on the Reddit search URL *)
  reddit_get : list Event -> string -> Z -> HttpOutcome;
  (** [TomTomService.search_places] *)
  provider_search : list Event -> string -> string -> Z -> Exn + option (list RawPlace);
  (** [self.mongo] and [self.mongo.db] are present *)
  db_available : bool;
  (** [mongo] itself is present; it matters only when [db_available] is
      false, for the attribute the [AttributeError] names *)
  mongo_present : bool;
  (** a store operation failing with an exception *)
  db_fault : list Event -> option Exn;
  (** the number of documents an ordered [insert_many] had written when
      it failed *)
  db_partial : list Event -> nat;
  (** the store's regular-expression search with option [i];
      [None] for a pattern the store rejects *)
  regex_i : string -> option (string -> bool);
  (** [datetime.now(timezone.utc)] *)
  clock : list Event -> Z;
  set_order : SetOrder
}.

(** The mutable world: the event history and the [places] collection. *)
Record World : Type := {
  trace : list Event;
  places_coll : list PlaceDoc;
  next_oid : nat
}.

(** Computations that may raise and that change the world. *)
Definition M (A : Type) : Type := World -> (Exn + A) * World.

Definition ret {A} (a : A) : M A := fun w => (inr a, w).

Definition raise {A} (e : Exn) : M A := fun w => (inl e, w).

Definition bind {A B} (m : M A) (f : A -> M B) : M B :=
  fun w => match m w with
           | (inr a, w') => f a w'
           | (inl e, w') => (inl e, w')
           end.

(** [try: m except Exception as e: h e] *)
Definition try_except {A} (m : M A) (h : Exn -> M A) : M A :=
  fun w => match m w with
           | (inl e, w') => h e w'
           | r => r
           end.

Definition lift {A} (r : Exn + A) : M A :=
  match r with inl e => raise e | inr a => ret a end.

(** Record an event and hand the history before it to the oracle. *)
Definition call {A} (ev : Event) (oracle : list Event -> A) : M A :=
  fun w => (inr (oracle (trace w)),
            {| trace := trace w ++ [ev];
               places_coll := places_coll w;
               next_oid := next_oid w |}).

(** A computation that returns from every world. *)
Definition never_raises {A} (m : M A) : Prop :=
  forall w, exists a w', m w = (inr a, w').

(** A computation that leaves the [places] collection and the counter of
    object identifiers as it found them, whatever it returns. *)
Definition keeps_store {A} (m : M A) : Prop :=
  forall w r w', m w = (r, w') ->
    places_coll w' = places_coll w /\ next_oid w' = next_oid w.

Declare Scope py_scope.
Delimit Scope py_scope with py.
Notation "x <- m ;; k" := (bind m (fun x => k))
  (at level 61, m at next level, right associativity) : py_scope.
Notation "m ;;; k" := (bind m (fun _ => k))
  (at level 61, right associativity) : py_scope.
Open Scope py_scope.

(** [for x in l: body x] *)
Fixpoint for_each {A} (l : list A) (body : A -> M unit) : M unit :=
  match l with
  | [] => ret tt
  | x :: r => body x ;;; for_each r body
  end.

(** A loop that threads an accumulator: [for x in l: acc = body acc x] *)
Fixpoint fold_m {A S} (l : list A) (body : S -> A -> M S) (acc : S) : M S :=
  match l with
  | [] => ret acc
  | x :: r => acc' <- body acc x ;; fold_m r body acc'
  end.

(** The language-model gateway, [OpenRouterClient]. *)
Section Gateway.
Variable env : Env.

Definition default_temperature : Q := (7 # 10)%Q.
Definition low_temperature : Q := (1 # 10)%Q.

(** [generate_content(prompt, temperature=...)]: the completion text, or
    the exception re-raised by the client. *)
Definition generate_content (p : Prompt) (temperature : Q) : M string :=
  r <- call (LlmCall p temperature) (fun h => llm_complete env h p temperature) ;;
  lift r.

(** [generate_json(prompt)]: the text between the first opening and the
    last closing brace when there is one, the whole text otherwise, parsed
    by [json.loads]. *)
Definition generate_json (p : Prompt) : M Json :=
  response_text <- generate_content (JsonOnly p) low_temperature ;;
  let start_idx := PyStr.find_char "{" response_text in
  let end_idx := (PyStr.rfind_char "}" response_text + 1)%Z in
  let json_str :=
    if negb (start_idx =? -1)%Z && (end_idx >? start_idx)%Z
    then PyStr.sslice start_idx end_idx response_text
    else response_text in
  match json_loads env json_str with
  | Some v => ret v
  | None =>
      raise ("Invalid JSON response from OpenRouter: " ++ json_error env json_str)%string
  end.

(** [time.sleep(seconds)] *)
Definition sleep (seconds : Z) : M unit :=
  call (Sleep seconds) (fun _ => tt).

(** [datetime.now(timezone.utc)] *)
Definition now : M Z :=
  call ClockRead (clock env).

End Gateway.

End Core.
Import Core.

(** ** Review relevance refiner ([scraper/review_refiner.py]) *)

Module ReviewRefiner.

(** The two constructor arguments of [ReviewRefiner]. *)
Record Config : Type := {
  max_iterations : Z;
  min_relevant_reviews : Z
}.

(** The line logged where [refine_reviews_with_llm] leaves its loop;
    [LoopExit] is the loop condition failing. *)
Inductive Stop : Type :=
| Sufficient (found : nat)
| NoMoreReviews
| FetchError (e : Exn)
| NoMoreIterations
| LoopExit.

(** The reviews accepted so far, after further rounds: what each round
    accepted is appended to the pool and duplicates are dropped, first
    occurrences kept. *)
Definition accepted_after (pool : list string) (rounds : list (list string))
    : list string :=
  fold_left (fun pool found => PyStr.unique (pool ++ found)) rounds pool.

(** The quota law, for a loop that stopped in [iteration] with the
    reason [stop], the list [l] and the world [w'], where [accepted] is
    the pool of accepted reviews at that point and [w_last] the world
    after the last run of the filter: either the quota was reached and
    [l] is the first [min_relevant] accepted reviews, or fewer were
    accepted, [l] is all of them, and the loop stopped because no fetch
    function was given or the last iteration was reached, because the
    fetch (run in [w_last]) returned nothing, or because it failed. *)
Definition quota_law (cfg : Config) (fetch_more : option (M (list Review)))
    (accepted : list string) (w_last : World)
    (stop : Stop) (iteration : Z) (l : list string) (w' : World) : Prop :=
  ((min_relevant_reviews cfg <= Z.of_nat (length accepted))%Z /\
   stop = Sufficient (length accepted) /\
   l = firstn (Z.to_nat (min_relevant_reviews cfg)) accepted /\
   Z.of_nat (length l) = min_relevant_reviews cfg /\
   w' = w_last)
  \/
  ((Z.of_nat (length accepted) < min_relevant_reviews cfg)%Z /\
   l = accepted /\
   ((stop = NoMoreIterations /\ w' = w_last /\
     (fetch_more = None \/ iteration = (max_iterations cfg - 1)%Z))
    \/ (exists fetch,
           fetch_more = Some fetch /\ stop = NoMoreReviews /\
           fetch w_last = (inr [], w'))
    \/ (exists fetch e,
           fetch_more = Some fetch /\ stop = FetchError e /\
           fetch w_last = (inl e, w')))).

Definition batch_size : nat := 15.

(** [enumerate(l, start)] *)
Fixpoint enumerate_from {A} (start : Z) (l : list A) : list (Z * A) :=
  match l with
  | [] => []
  | x :: r => (start, x) :: enumerate_from (start + 1)%Z r
  end.

Definition _build_batch_prompt (reviews : list string)
    (place_name place_type : string) : Prompt :=
  BatchPrompt place_name place_type (enumerate_from 1%Z reviews).

(** [reviews[i:i + batch_size] for i in range(0, len(reviews), batch_size)] *)
Fixpoint batches_fuel (fuel : nat) (reviews : list string) : list (list string) :=
  match fuel, reviews with
  | S fuel', _ :: _ =>
      firstn batch_size reviews :: batches_fuel fuel' (skipn batch_size reviews)
  | _, _ => []
  end.
Definition batches (reviews : list string) : list (list string) :=
  batches_fuel (length reviews) reviews.

(** The indices [j] of the response lines that read YES once stripped
    and upper-cased. *)
Fixpoint yes_indices_from (j : nat) (lines : list string) : list nat :=
  match lines with
  | [] => []
  | line :: r =>
      if String.eqb (PyStr.upper (PyStr.strip line)) "YES"
      then j :: yes_indices_from (S j) r
      else yes_indices_from (S j) r
  end.
Definition yes_indices (result : string) : list nat :=
  yes_indices_from 0 (PyStr.split_on "010"%char result).

(** [batch[idx]] for every index that is in range. *)
Definition pick (batch : list string) (indices : list nat) : list string :=
  flat_map (fun idx => match nth_error batch idx with
                       | Some r => [r]
                       | None => []
                       end) indices.

(** The model calls of a list of batches, one per batch. *)
Definition batch_calls (place_name place_type : string)
    (bs : list (list string)) : list Event :=
  map (fun b => LlmCall (_build_batch_prompt b place_name place_type)
                        default_temperature) bs.

Section WithEnv.
Variable env : Env.

(** One batch of [filter_relevant_reviews_batched]: the reviews the model
    marked YES; the whole batch when the call fails. *)
Definition filter_batch (place_name place_type : string)
    (batch : list string) : M (list string) :=
  try_except
    (response <- generate_content env
                   (_build_batch_prompt batch place_name place_type)
                   default_temperature ;;
     let result := PyStr.strip response in
     ret (pick batch (yes_indices result)))
    (fun _ => ret batch).

Definition filter_relevant_reviews_batched (reviews : list string)
    (place_name place_type : string) : M (list string) :=
  match reviews with
  | [] => ret []
  | _ =>
      relevant_reviews <-
        fold_m (batches reviews)
               (fun acc batch =>
                  r <- filter_batch place_name place_type batch ;;
                  ret (acc ++ r))
               [] ;;
      ret (PyStr.unique relevant_reviews)
  end.

(** [rounds_from current w rounds w']: the rounds of filtering that
    start from the list [current] in the world [w].  The batch filter
    runs on [current]; a further round runs on the texts of a non-empty
    list that the fetch function returned after it.  [rounds] lists
    what the filter accepted in each round, and [w'] is the world after
    its last run. *)
Inductive rounds_from (place_name place_type : string)
    (fetch_more : option (M (list Review)))
    : list string -> World -> list (list string) -> World -> Prop :=
| last_round current w found w1 :
    filter_relevant_reviews_batched current place_name place_type w
    = (inr found, w1) ->
    rounds_from place_name place_type fetch_more current w [found] w1
| further_round current w found w1 fetch r rs w2 rounds w3 :
    filter_relevant_reviews_batched current place_name place_type w
    = (inr found, w1) ->
    fetch_more = Some fetch ->
    fetch w1 = (inr (r :: rs), w2) ->
    rounds_from place_name place_type fetch_more
                (map Core.content (r :: rs)) w2 rounds w3 ->
    rounds_from place_name place_type fetch_more current w (found :: rounds) w3.

(** The loop of [refine_reviews_with_llm].  [fetch_more] is the call of
    [fetch_more_reviews_func] with the keyword arguments, when a function
    was given.  The result is [None] only when [fuel] runs out. *)
Fixpoint refine_loop (fuel : nat) (cfg : Config)
    (place_name place_type : string)
    (fetch_more : option (M (list Review)))
    (iteration : Z) (current_reviews relevant_reviews : list string)
    : M (option (Stop * Z * list string)) :=
  match fuel with
  | O => ret None
  | S fuel' =>
      if (iteration <? max_iterations cfg)%Z then
        iteration_relevant <-
          filter_relevant_reviews_batched current_reviews place_name place_type ;;
        let relevant_reviews := PyStr.unique (relevant_reviews ++ iteration_relevant) in
        if (Z.of_nat (length relevant_reviews) >=? min_relevant_reviews cfg)%Z then
          ret (Some (Sufficient (length relevant_reviews), iteration,
                     PyStr.take (min_relevant_reviews cfg) relevant_reviews))
        else
          match fetch_more with
          | Some fetch =>
              if (iteration <? max_iterations cfg - 1)%Z then
                fetched <- try_except (new_reviews <- fetch ;; ret (inr new_reviews))
                                      (fun e => ret (inl e)) ;;
                match fetched with
                | inl e => ret (Some (FetchError e, iteration, relevant_reviews))
                | inr [] => ret (Some (NoMoreReviews, iteration, relevant_reviews))
                | inr new_reviews =>
                    refine_loop fuel' cfg place_name place_type fetch_more
                                (iteration + 1)%Z
                                (map Core.content new_reviews) relevant_reviews
                end
              else ret (Some (NoMoreIterations, iteration, relevant_reviews))
          | None => ret (Some (NoMoreIterations, iteration, relevant_reviews))
          end
      else ret (Some (LoopExit, iteration, relevant_reviews))
  end.

(** Enough fuel for every loop the configuration allows. *)
Definition loop_fuel (cfg : Config) : nat := S (Z.to_nat (max_iterations cfg)).

(** [refine_reviews_with_llm] together with the reason it stopped and the
    iteration it stopped in. *)
Definition refine_outcome (cfg : Config) (initial_reviews : list string)
    (place_name place_type : string)
    (fetch_more : option (M (list Review)))
    : M (option (Stop * Z * list string)) :=
  refine_loop (loop_fuel cfg) cfg place_name place_type fetch_more
              0%Z initial_reviews [].

Definition refine_reviews_with_llm (cfg : Config) (initial_reviews : list string)
    (place_name place_type : string)
    (fetch_more : option (M (list Review))) : M (list string) :=
  r <- refine_outcome cfg initial_reviews place_name place_type fetch_more ;;
  ret (match r with Some (_, l) => l | None => [] end).

End WithEnv.

End ReviewRefiner.

(** ** Reddit scraper ([scraper/reddit_scraper.py]) *)

Module RedditScraper.

(** The constructor arguments; [review_refiner] exists exactly when
    [use_llm_refinement] is set. *)
Record Config : Type := {
  use_llm_refinement : bool;
  refiner : ReviewRefiner.Config
}.

(** [RedditScraper()] *)
Definition default_config : Config :=
  {| use_llm_refinement := false;
     refiner := {| ReviewRefiner.max_iterations := 2;
                   ReviewRefiner.min_relevant_reviews := 3 |} |}.

Definition dquote : string := String "034"%char EmptyString.
Definition newline : string := String "010"%char EmptyString.

Definition mock_content_1 (place_name city : string) : string :=
  "Just visited " ++ place_name ++ " in " ++ city ++
  " and it was amazing! The atmosphere is perfect for studying and the coffee is top-notch. Highly recommend for anyone looking for a cozy spot.".

Definition mock_content_2 (place_name city : string) : string :=
  "Been to " ++ place_name ++
  " multiple times now. The staff is super friendly and the food quality is consistently good. Great place to hang out with friends in " ++
  city ++ ".".

Definition mock_content_3 (place_name city : string) : string :=
  "Honest review of " ++ place_name ++
  ": The location is convenient and the prices are reasonable for " ++ city ++
  ". However, it can get quite crowded during peak hours.".

Definition mock_reviews (place_name city : string) : list Review :=
  [ {| source := "reddit";
       content := mock_content_1 place_name city;
       url := "https://reddit.com/r/delhi/comments/mock1";
       score := 45; created_utc := 1640995200 |};
    {| source := "reddit";
       content := mock_content_2 place_name city;
       url := "https://reddit.com/r/delhi/comments/mock2";
       score := 32; created_utc := 1640995200 |};
    {| source := "reddit";
       content := mock_content_3 place_name city;
       url := "https://reddit.com/r/delhi/comments/mock3";
       score := 28; created_utc := 1640995200 |} ].

Definition _get_mock_reviews (place_name city : string) (max_results : Z)
    : list Review :=
  PyStr.take max_results (mock_reviews place_name city).

(** The review built from one post, when its text is substantial.  The
    length test and the cut count 8-bit units, which are the characters
    of a 7-bit text. *)
Definition review_of_post (p : Post) : list Review :=
  let content :=
    PyStr.strip (post_title p ++ newline ++ newline ++ post_selftext p)%string in
  if negb (String.eqb content "") && (50 <? String.length content)%nat
  then [ {| source := "reddit";
            content := PyStr.stake 1000 content;
            url := post_url p;
            score := post_score p;
            created_utc := post_created_utc p |} ]
  else [].

(** [reviews.sort(key=score, reverse=True)]: stable, highest score first. *)
Fixpoint insert_by_score (r : Review) (sorted : list Review) : list Review :=
  match sorted with
  | [] => [r]
  | x :: rest =>
      if (score r <? score x)%Z then x :: insert_by_score r rest
      else r :: sorted
  end.
Definition sort_by_score (l : list Review) : list Review :=
  fold_right insert_by_score [] l.

(** [place.get('name', '')] *)
Definition named (place : RawPlace) : string :=
  match rp_name place with Some n => n | None => "" end.

(** The usable reviews of a response: those of a 200 response whose
    body decodes and lists posts with substantial text. *)
Definition usable_reviews (response : HttpOutcome) : list Review :=
  match response with
  | HttpResponse status (inr (Some children)) =>
      if (status =? 200)%Z then flat_map review_of_post children else []
  | _ => []
  end.

(** A response whose posts, if any, have titles and texts of 7-bit
    characters: the case in which [review_of_post] measures and cuts
    the text as the code does. *)
Definition ascii_posts (response : HttpOutcome) : bool :=
  match response with
  | HttpResponse _ (inr (Some children)) =>
      forallb (fun p => PyStr.is_ascii (post_title p) &&
                        PyStr.is_ascii (post_selftext p)) children
  | _ => true
  end.

Definition search_query_of (place_name city : string) : string :=
  dquote ++ place_name ++ dquote ++ " " ++ dquote ++ city ++ dquote ++ " review".

Section WithEnv.
Variable env : Env.

(** [_refine_reviews_with_llm]: the refiner is handed
    [self._fetch_more_reviews] with the single keyword argument [city];
    that call lacks the required [place_name] and raises a [TypeError]. *)
Definition fetch_more_call : M (list Review) :=
  raise "_fetch_more_reviews() missing 1 required positional argument: 'place_name'".

Definition _refine_reviews_with_llm (cfg : Config) (reviews : list Review)
    (place_name city : string) : M (list Review) :=
  if negb (use_llm_refinement cfg) then ret reviews
  else
    let review_contents := map Core.content reviews in
    relevant_contents <-
      ReviewRefiner.refine_reviews_with_llm env (refiner cfg) review_contents
        place_name "place" (Some fetch_more_call) ;;
    ret (flat_map
           (fun c => match find (fun r => String.eqb (Core.content r) c) reviews with
                     | Some r => [r]
                     | None => []
                     end)
           relevant_contents).

Definition search_place_reviews (cfg : Config) (place_name city : string)
    (max_results : Z) : M (list Review) :=
  try_except
    (let search_query :=
       (dquote ++ place_name ++ dquote ++ " " ++ dquote ++ city ++ dquote ++ " review")%string in
     response <- call (RedditGet search_query max_results)
                      (fun h => reddit_get env h search_query max_results) ;;
     match response with
     | TransportError e => raise e
     | HttpResponse status body =>
         if negb (status =? 200)%Z then
           ret (_get_mock_reviews place_name city max_results)
         else
           data <- lift body ;;
           let reviews :=
             match data with
             | Some children => flat_map review_of_post children
             | None => []
             end in
           match reviews with
           | [] => ret (_get_mock_reviews place_name city max_results)
           | _ =>
               let reviews := PyStr.take max_results (sort_by_score reviews) in
               match use_llm_refinement cfg, reviews with
               | true, _ :: _ => _refine_reviews_with_llm cfg reviews place_name city
               | _, _ => ret reviews
               end
           end
     end)
    (fun _ => ret (_get_mock_reviews place_name city max_results)).

(** [scrape_multiple_places]: a dictionary from place name to reviews. *)
Definition scrape_multiple_places (cfg : Config) (places : list RawPlace)
    (city : string) : M (list (string * list Review)) :=
  fold_m places
    (fun results place =>
       let place_name := match rp_name place with Some n => n | None => "" end in
       if String.eqb place_name "" then ret results
       else
         reviews <- search_place_reviews cfg place_name city 5 ;;
         sleep 1 ;;;
         ret (dict_set place_name reviews results))
    [].

(** The four search strings of [_fetch_more_reviews]. *)
Definition search_variations (place_name city : string) : list string :=
  [ (dquote ++ place_name ++ dquote ++ " review")%string;
    (dquote ++ place_name ++ dquote ++ " " ++ city)%string;
    (place_name ++ " experience")%string;
    (place_name ++ " visit")%string ].

(** The text of a post: title, blank line, body, stripped. *)
Definition post_text (p : Post) : string :=
  PyStr.strip (post_title p ++ newline ++ newline ++ post_selftext p)%string.

(** One post in [_fetch_more_reviews]: a substantial text is turned into
    a review, cut to 1000 characters, and appended unless a review
    already collected has the uncut text as its content. *)
Definition add_post (all_reviews : list Review) (p : Post) : list Review :=
  let content := post_text p in
  if negb (String.eqb content "") && (50 <? String.length content)%nat then
    if existsb (fun r => String.eqb (Core.content r) content) all_reviews
    then all_reviews
    else all_reviews ++
         [ {| source := "reddit";
              content := PyStr.stake 1000 content;
              url := post_url p;
              score := post_score p;
              created_utc := post_created_utc p |} ]
  else all_reviews.

(** [_fetch_more_reviews]: one request per search string, a pause after
    each; any exception gives the empty list. *)
Definition _fetch_more_reviews (place_name city : string) (max_results : Z)
    : M (list Review) :=
  try_except
    (fold_m (search_variations place_name city)
       (fun all_reviews search_query =>
          response <- call (RedditGet search_query max_results)
                           (fun h => reddit_get env h search_query max_results) ;;
          collected <-
            match response with
            | TransportError e => raise e
            | HttpResponse status body =>
                if (status =? 200)%Z then
                  data <- lift body ;;
                  ret (match data with
                       | Some children => fold_left add_post children all_reviews
                       | None => all_reviews
                       end)
                else ret all_reviews
            end ;;
          sleep 1 ;;;
          ret collected)
       [])
    (fun _ => ret []).

End WithEnv.

End RedditScraper.

(** ** Enrichment ([RAG/llm_processor.py]) *)

Module LLMProcessor.

(** The dictionary [_get_default_processing] returns. *)
Record RuleBased : Type := {
  rb_summary : string;
  rb_vibe_tags : list string;
  rb_emojis : list string
}.

Definition to_enrichment (r : RuleBased) : Enrichment :=
  {| e_summary := JStr (rb_summary r);
     e_vibe_tags := jstrings (rb_vibe_tags r);
     e_emojis := jstrings (rb_emojis r) |}.

(** The tags collected from the name keywords, then from the category,
    before duplicates are removed. *)
Definition collected_tags (place_name place_category : string) : list string :=
  let name_lower := PyStr.lower place_name in
  let category_lower := PyStr.lower place_category in
  (if PyStr.any_in ["coffee"; "cafe"; "brew"] name_lower
   then ["cozy"; "caffeinated"] else []) ++
  (if PyStr.any_in ["restaurant"; "dining"; "bistro"] name_lower
   then ["dining"; "culinary"] else []) ++
  (if PyStr.any_in ["bar"; "pub"; "tavern"] name_lower
   then ["social"; "nightlife"] else []) ++
  (if PyStr.any_in ["park"; "garden"] name_lower
   then ["outdoor"; "nature"] else []) ++
  (if String.eqb category_lower "cafe" then ["cozy"; "caffeinated"; "social"]
   else if String.eqb category_lower "restaurant"
        then ["dining"; "culinary"; "social"; "aesthetic"]
   else if String.eqb category_lower "bar" then ["nightlife"; "social"; "vibrant"]
   else ["local"; "accessible"]).

Definition category_emojis (place_category : string) : list string :=
  let category_lower := PyStr.lower place_category in
  if String.eqb category_lower "cafe" then ["☕"; "🪑"]
  else if String.eqb category_lower "restaurant" then ["🍽️"; "👨‍🍳"]
  else if String.eqb category_lower "bar" then ["🍺"; "🎉"]
  else ["📍"; "🏪"].

Definition default_summary (place_name place_category : string) : string :=
  "A " ++ place_category ++ " in the area. " ++ place_name ++
  " offers a local experience with mixed reviews from visitors.".

(** [_get_default_processing]; [so] is the interpreter's set order, used
    by [list(set(vibe_tags))]. *)
Definition _get_default_processing (so : SetOrder)
    (place_name place_category : string) : RuleBased :=
  {| rb_summary := default_summary place_name place_category;
     rb_vibe_tags :=
       PyStr.take 5 (set_to_list so (collected_tags place_name place_category));
     rb_emojis := PyStr.take 3 (category_emojis place_category) |}.

Definition _infer_category_from_name (place_name : string) : string :=
  let name_lower := PyStr.lower place_name in
  if PyStr.any_in ["cafe"; "coffee"; "brew"] name_lower then "cafe"
  else if PyStr.any_in ["restaurant"; "dining"; "bistro"] name_lower then "restaurant"
  else if PyStr.any_in ["bar"; "pub"; "tavern"] name_lower then "bar"
  else if PyStr.any_in ["park"; "garden"] name_lower then "park"
  else "place".

Section WithEnv.
Variable env : Env.

(** The body of the [try] of [_parse_llm_response]: [None] where it
    raises (no braces, [json.loads] fails, or the value is no object). *)
Definition parse_json_object (response_text : string) : option Enrichment :=
  let start_idx := PyStr.find_char "{" response_text in
  let end_idx := (PyStr.rfind_char "}" response_text + 1)%Z in
  if negb (start_idx =? -1)%Z && negb (end_idx =? 0)%Z then
    match json_loads env (PyStr.sslice start_idx end_idx response_text) with
    | Some (JObj data) =>
        Some {| e_summary := jget "summary" data (JStr "");
                e_vibe_tags := jget "vibe_tags" data (JArr []);
                e_emojis := jget "emojis" data (JArr []) |}
    | _ => None
    end
  else None.

(** [_parse_llm_response]: on any failure, the rule-based result for an
    empty name and an empty category. *)
Definition _parse_llm_response (response_text : string) : Enrichment :=
  match parse_json_object response_text with
  | Some result => result
  | None => to_enrichment (_get_default_processing (set_order env) "" "")
  end.

Definition _create_processing_prompt (place_name place_category reviews : string)
    : Prompt :=
  ProcessingPrompt place_name place_category (PyStr.stake 2000 reviews).

(** All review texts, joined by blank lines. *)
Definition combined (reviews : list Review) : string :=
  PyStr.join (RedditScraper.newline ++ RedditScraper.newline)
             (map Core.content reviews).

Definition is_transient (e : Exn) : bool :=
  PyStr.contains "timeout" (PyStr.lower e) ||
  PyStr.contains "connection" (PyStr.lower e).

Definition process_place_reviews (place_name place_category : string)
    (reviews : list Review) : M Enrichment :=
  let combined_reviews := combined reviews in
  let prompt := _create_processing_prompt place_name place_category combined_reviews in
  let rule_based :=
    to_enrichment (_get_default_processing (set_order env) place_name place_category) in
  try_except
    (if String.eqb (PyStr.strip combined_reviews) "" then ret rule_based
     else
       response <- generate_content env prompt default_temperature ;;
       let processed_data := _parse_llm_response response in
       lift (py_len (e_vibe_tags processed_data)) ;;;
       lift (py_len (e_emojis processed_data)) ;;;
       ret processed_data)
    (fun e =>
       retried <-
         (if is_transient e then
            try_except
              (response <- generate_content env prompt low_temperature ;;
               ret (Some (_parse_llm_response response)))
              (fun _ => ret None)
          else ret None) ;;
       match retried with
       | Some processed_data => ret processed_data
       | None => ret rule_based
       end).

(** [process_multiple_places]: a dictionary from place name to enrichment. *)
Definition process_multiple_places
    (places_with_reviews : list (string * list Review)) (city : string)
    : M (list (string * Enrichment)) :=
  fold_m places_with_reviews
    (fun results item =>
       let place_name := fst item in
       let category := _infer_category_from_name place_name in
       processed_data <- process_place_reviews place_name category (snd item) ;;
       ret (dict_set place_name processed_data results))
    [].

End WithEnv.

End LLMProcessor.

(** ** Intent classifier ([RAG/intent_classifier.py]) *)

Module IntentClassifier.

Definition simple_keywords : list string :=
  ["hello"; "hi"; "hey"; "how are you"; "what can you do"; "help"; "thanks"; "thank you"].

Definition detail_keywords : list string :=
  ["tell me about"; "what is"; "what's at"; "info about"; "details of"; "about"].

Definition _generate_simple_response (query : string) : string :=
  let query_lower := PyStr.lower query in
  if PyStr.any_in ["hello"; "hi"; "hey"] query_lower then
    "Hello! How can I help you find places today?"
  else if PyStr.any_in ["how are you"] query_lower then
    "I'm doing great! Ready to help you discover amazing places. What are you looking for?"
  else if PyStr.any_in ["what can you do"; "help"] query_lower then
    "I can help you search for places and get details about specific locations! Try asking me to find coffee shops in Delhi or tell me about a specific place."
  else if PyStr.any_in ["thanks"; "thank you"] query_lower then
    "You're welcome! Let me know if you need help finding more places."
  else
    "I'm here to help you discover places! You can ask me to search for places or get details about specific locations.".

(** [word[0]]: an [IndexError] on the empty string. *)
Definition first_char (word : string) : Exn + ascii :=
  match word with
  | EmptyString => inl "string index out of range"
  | String c _ => inr c
  end.

(** The loop of [_extract_place_name]: the first word, other than the
    leading one, that starts with an upper-case letter. *)
Fixpoint first_capitalized (i : nat) (words : list string) : Exn + option string :=
  match words with
  | [] => inr None
  | word :: r =>
      match first_char word with
      | inl e => inl e
      | inr c =>
          if PyStr.is_upper c && (0 <? i)%nat then inr (Some word)
          else first_capitalized (S i) r
      end
  end.

Definition _extract_place_name (query : string) : Exn + option string :=
  let words := PyStr.split_ws query in
  if (3 <=? length words)%nat then first_capitalized 0 words
  else inr None.

Definition cities : list string :=
  ["delhi"; "mumbai"; "bangalore"; "chennai"; "kolkata"; "hyderabad"; "pune"; "ahmedabad"].

Definition _extract_city (query : string) : option string :=
  option_map PyStr.title
    (find (fun city => PyStr.contains city (PyStr.lower query)) cities).

Definition categories : list (string * list string) :=
  [ ("coffee", ["coffee"; "cafe"; "starbucks"]);
    ("restaurant", ["restaurant"; "food"; "dining"; "eat"]);
    ("park", ["park"; "garden"; "outdoor"]);
    ("bar", ["bar"; "pub"; "nightlife"]);
    ("shopping", ["mall"; "shop"; "store"; "shopping"]) ].

Definition _extract_category (query : string) : option string :=
  option_map fst
    (find (fun entry => PyStr.any_in (snd entry) (PyStr.lower query)) categories).

Definition opt_str (o : option string) : Json :=
  match o with Some s => JStr s | None => JNull end.

(** [_fallback_classification]: keyword matching on the lower-cased query. *)
Definition _fallback_classification (user_query : string) : Exn + Json :=
  let query_lower := PyStr.lower user_query in
  if PyStr.any_in simple_keywords query_lower then
    inr (JObj [ ("intent", JStr "simple_response");
                ("confidence", JNum (8 # 10)%Q);
                ("extracted_data",
                  JObj [ ("place_name", JNull); ("city", JNull); ("category", JNull);
                         ("vibe_tags", JArr []); ("search_terms", JArr []);
                         ("response_text", JStr (_generate_simple_response user_query)) ]) ])
  else if PyStr.any_in detail_keywords query_lower then
    match _extract_place_name user_query with
    | inl e => inl e
    | inr place_name =>
        inr (JObj [ ("intent", JStr "place_detail");
                    ("confidence", JNum (7 # 10)%Q);
                    ("extracted_data",
                      JObj [ ("place_name", opt_str place_name); ("city", JNull);
                             ("category", JNull); ("vibe_tags", JArr []);
                             ("search_terms", JArr []) ]) ])
    end
  else
    inr (JObj [ ("intent", JStr "place_search");
                ("confidence", JNum (6 # 10)%Q);
                ("extracted_data",
                  JObj [ ("place_name", JNull);
                         ("city", opt_str (_extract_city user_query));
                         ("category", opt_str (_extract_category user_query));
                         ("vibe_tags", JArr []);
                         ("search_terms", jstrings (PyStr.split_ws user_query)) ]) ]).

(** An intent classification: an object with one of the three intent
    tags, a numeric confidence and an object of extracted fields. *)
Definition well_formed_intent (v : Json) : bool :=
  match v with
  | JObj fields =>
      match jget "intent" fields JNull with
      | JStr tag =>
          existsb (String.eqb tag) ["place_search"; "place_detail"; "simple_response"]
      | _ => false
      end &&
      match jget "confidence" fields JNull with
      | JNum _ => true
      | _ => false
      end &&
      match jget "extracted_data" fields JNull with
      | JObj _ => true
      | _ => false
      end
  | _ => false
  end.

Section WithEnv.
Variable env : Env.

(** [classify_intent]: the object the model returned, as it is; the
    keyword classification when the call raises or the value has no
    [get] (it is not an object). *)
Definition classify_intent (user_query : string) : M Json :=
  try_except
    (response <- generate_json env (IntentPrompt user_query) ;;
     match response with
     | JObj _ => ret response
     | _ => lift (_fallback_classification user_query)
     end)
    (fun _ => lift (_fallback_classification user_query)).

End WithEnv.

End IntentClassifier.

(** ** Place store ([controllers/place_controller.py]) *)

Module PlaceController.

(** The external identifiers carried by a list of documents. *)
Definition doc_ids (docs : list PlaceDoc) : list string :=
  flat_map (fun d => match fsq_id (original d) with
                     | Some f => [f]
                     | None => []
                     end) docs.

(** The number of documents of a collection that carry the external
    identifier [f]. *)
Definition count_fsq (f : string) (docs : list PlaceDoc) : nat :=
  length (filter (fun d => match fsq_id (original d) with
                           | Some g => String.eqb g f
                           | None => false
                           end) docs).

(** A document that [bulk_insert_places] may add to the collection
    [coll]: its identifier is a non-empty string that [coll] lacks. *)
Definition fresh_for (coll : list PlaceDoc) (d : PlaceDoc) : Prop :=
  exists f, fsq_id (original d) = Some f /\ f <> "" /\ count_fsq f coll = 0.

Section WithEnv.
Variable env : Env.

(** The [AttributeError] of [mongo.db.places] without a database. *)
Definition no_handle_error : Exn :=
  if mongo_present env then "'NoneType' object has no attribute 'places'"
  else "'NoneType' object has no attribute 'db'".

Definition record_event (ev : Event) (w : World) : World :=
  {| trace := trace w ++ [ev];
     places_coll := places_coll w;
     next_oid := next_oid w |}.

(** A read of the [places] collection: fails when the database handle
    is missing or when the store reports a fault. *)
Definition db_read {A} (ev : Event) (read : list PlaceDoc -> Exn + A) : M A :=
  fun w =>
    if negb (db_available env) then (inl no_handle_error, w)
    else
      match db_fault env (trace w) with
      | Some e => (inl e, record_event ev w)
      | None => (read (places_coll w), record_event ev w)
      end.

(** [places.find_one({"original.fsq_id": fsq_id})] *)
Definition find_one_by_fsq_id (q : string) : M (option PlaceDoc) :=
  db_read (DbFindOne q)
    (fun docs =>
       inr (find (fun d => match fsq_id (original d) with
                           | Some f => String.eqb f q
                           | None => false
                           end) docs)).

(** The documents of a batch with fresh consecutive [ObjectId]s. *)
Fixpoint assign_ids (oid : nat) (docs : list PlaceDoc) : list PlaceDoc :=
  match docs with
  | [] => []
  | d :: r =>
      {| doc_id := Some (ObjectId oid);
         original := original d;
         processed := processed d;
         reviews := reviews d;
         created_at := created_at d;
         updated_at := updated_at d |} :: assign_ids (S oid) r
  end.

(** [places.insert_many(docs)], an ordered insert: every document is
    appended; when the store fails, the documents written before the
    failure stay in the collection and the exception is raised. *)
Definition insert_many (docs : list PlaceDoc) : M (list DocId) :=
  fun w =>
    if negb (db_available env) then (inl no_handle_error, w)
    else
      match db_fault env (trace w) with
      | Some e =>
          (inl e,
           {| trace := trace w ++ [DbInsertMany (length docs)];
              places_coll :=
                places_coll w ++
                firstn (db_partial env (trace w)) (assign_ids (next_oid w) docs);
              next_oid := next_oid w + length docs |})
      | None =>
          (inr (map ObjectId (seq (next_oid w) (length docs))),
           {| trace := trace w ++ [DbInsertMany (length docs)];
              places_coll := places_coll w ++ assign_ids (next_oid w) docs;
              next_oid := next_oid w + length docs |})
      end.

(** [if not fsq_id]: [None] and the empty string are falsy. *)
Definition truthy (o : option string) : option string :=
  match o with
  | Some EmptyString => None
  | Some s => Some s
  | None => None
  end.

(** The usable external identifiers a batch names, in order. *)
Definition batch_ids (places_data : list PlaceData) : list string :=
  flat_map (fun pd => match truthy (fsq_id (pd_original pd)) with
                      | Some f => [f]
                      | None => []
                      end) places_data.

Definition str_id (i : DocId) : DocId :=
  match i with
  | ObjectId n => OidString n
  | OidString n => OidString n
  end.

(** One round of the loop of [bulk_insert_places]: a place without
    identifier or with a stored identifier is skipped, any other is
    turned into a document and appended to [place_docs]. *)
Definition collect_step (place_docs : list PlaceDoc) (place_data : PlaceData)
    : M (list PlaceDoc) :=
  match truthy (fsq_id (pd_original place_data)) with
  | None => ret place_docs
  | Some f =>
      existing <- find_one_by_fsq_id f ;;
      match existing with
      | Some _ => ret place_docs
      | None =>
          created <- now env ;;
          updated <- now env ;;
          ret (place_docs ++
               [ {| doc_id := None;
                    original :=
                      {| fsq_id := Some f;
                         name := name (pd_original place_data);
                         category := category (pd_original place_data);
                         address := address (pd_original place_data);
                         locality := locality (pd_original place_data);
                         city := city (pd_original place_data);
                         country := country (pd_original place_data);
                         photo_url := photo_url (pd_original place_data);
                         coordinates := coordinates (pd_original place_data) |};
                    processed := pd_processed place_data;
                    reviews := pd_reviews place_data;
                    created_at := created;
                    updated_at := updated |} ])
      end
  end.

(** The loop of [bulk_insert_places]: the documents to insert. *)
Definition collect_docs (places_data : list PlaceData) : M (list PlaceDoc) :=
  fold_m places_data collect_step [].

(** [bulk_insert_places]: the identifiers of the inserted documents. *)
Definition bulk_insert_places (places_data : list PlaceData) : M (list DocId) :=
  place_docs <- collect_docs places_data ;;
  match place_docs with
  | [] => ret []
  | _ =>
      inserted_ids <- insert_many place_docs ;;
      ret (map str_id inserted_ids)
  end.

(** The document [add_place] builds for a place with identifier [f]. *)
Definition place_doc_for (f : string) (place_data : PlaceData)
    (created updated : Z) : PlaceDoc :=
  {| doc_id := None;
     original :=
       {| fsq_id := Some f;
          name := name (pd_original place_data);
          category := category (pd_original place_data);
          address := address (pd_original place_data);
          locality := locality (pd_original place_data);
          city := city (pd_original place_data);
          country := country (pd_original place_data);
          photo_url := photo_url (pd_original place_data);
          coordinates := coordinates (pd_original place_data) |};
     processed := pd_processed place_data;
     reviews := pd_reviews place_data;
     created_at := created;
     updated_at := updated |}.

(** [places.insert_one(doc)]: an insertion of a single document. *)
Definition insert_one (doc : PlaceDoc) : M (option DocId) :=
  inserted <- insert_many [doc] ;;
  ret (hd_error inserted).

(** [add_place]: the identifier of the inserted document, [None] when
    the place has no identifier or the identifier is stored already. *)
Definition add_place (place_data : PlaceData) : M (option DocId) :=
  match truthy (fsq_id (pd_original place_data)) with
  | None => ret None
  | Some f =>
      existing <- find_one_by_fsq_id f ;;
      match existing with
      | Some _ => ret None
      | None =>
          created <- now env ;;
          updated <- now env ;;
          insert_one (place_doc_for f place_data created updated)
      end
  end.

End WithEnv.

End PlaceController.

(** ** Cache-first fallback search ([services/fallback_service.py]) *)

Module FallbackService.

(** The dictionary [search_places_with_fallback] returns; [None] is an
    absent key. *)
Record SearchResult : Type := {
  success : bool;
  result_source : option string;
  result_places : list PlaceDoc;
  count : Z;
  fallback_used : option bool;
  error : option string;
  tomtom_fetched : option Z;
  reddit_reviews_scraped : option Z;
  tripadvisor_reviews_scraped : option Z
}.

Definition category_mapping : list (string * string) :=
  [ ("cafe", "cafe coffee"); ("restaurant", "restaurant food"); ("park", "park");
    ("bar", "bar pub"); ("museum", "museum"); ("shopping", "shopping mall");
    ("gym", "gym fitness"); ("library", "library"); ("theater", "theater cinema") ].

Definition _map_category_to_query (category : string) : string :=
  match dict_get (PyStr.lower category) category_mapping with
  | Some q => q
  | None => category
  end.

(** [{"$in": tags}] on a field: an array field matches when one of its
    elements is listed, a string field when it is listed itself. *)
Definition in_tags (tags : list string) (v : Json) : bool :=
  match v with
  | JStr s => existsb (String.eqb s) tags
  | _ => false
  end.
Definition tags_overlap (field : Json) (tags : list string) : bool :=
  match field with
  | JArr items => existsb (in_tags tags) items
  | v => in_tags tags v
  end.

(** The filter of [_search_existing_places], for a compiled category
    pattern [m]: the city is equal, the category matches, and a tag is
    shared when tags were given. *)
Definition matches_query (q_city : string) (m : string -> bool)
    (q_vibe_tags : list string) (d : PlaceDoc) : bool :=
  match Core.city (original d) with
  | Some c => String.eqb c q_city
  | None => false
  end &&
  match Core.category (original d) with
  | Some c => m c
  | None => false
  end &&
  match q_vibe_tags with
  | [] => true
  | _ => tags_overlap (vibe_tags (processed d)) q_vibe_tags
  end.

(** [place['_id'] = str(place['_id'])] *)
Definition stringify_id (d : PlaceDoc) : PlaceDoc :=
  {| doc_id := option_map PlaceController.str_id (doc_id d);
     original := original d;
     processed := processed d;
     reviews := reviews d;
     created_at := created_at d;
     updated_at := updated_at d |}.

Definition or_empty (o : option string) : option string :=
  match o with Some s => Some s | None => Some "" end.

Section WithEnv.
Variable env : Env.

Definition _search_existing_places (city category : string)
    (vibe_tags : list string) : M (list PlaceDoc) :=
  if negb (db_available env) then ret []
  else
    places <- PlaceController.db_read env (DbFind city category vibe_tags)
                (fun docs =>
                   match regex_i env category with
                   | Some m => inr (filter (matches_query city m vibe_tags) docs)
                   | None => inl "Regular expression is invalid"
                   end) ;;
    ret (map stringify_id places).

Definition _fetch_tomtom_places (city category : string) (limit : Z)
    : M (list RawPlace) :=
  try_except
    (let search_query := _map_category_to_query category in
     r <- call (ProviderSearch search_query city limit)
               (fun h => provider_search env h search_query city limit) ;;
     places <- lift r ;;
     ret (match places with Some l => l | None => [] end))
    (fun _ => ret []).

(** The document built for one provider candidate. *)
Definition place_doc_of (place : RawPlace)
    (reddit_reviews : list (string * list Review))
    (processed_data : list (string * Enrichment))
    (created updated : Z) : PlaceDoc :=
  let place_name := match rp_name place with Some n => n | None => "" end in
  let llm_data := dict_get place_name processed_data in
  {| doc_id := None;
     original :=
       {| fsq_id := or_empty (rp_fsq_id place);
          name := Some place_name;
          category := or_empty (rp_category place);
          address := or_empty (rp_address place);
          locality := or_empty (rp_locality place);
          city := or_empty (rp_city place);
          country := or_empty (rp_country place);
          photo_url := or_empty (rp_photo_url place);
          coordinates := rp_coordinates place |};
     processed :=
       {| vibe_tags := match llm_data with Some e => e_vibe_tags e | None => JArr [] end;
          emojis := match llm_data with Some e => e_emojis e | None => JArr [] end;
          summary := match llm_data with Some e => e_summary e | None => JStr "" end;
          citations := [] |};
     reviews := match dict_get place_name reddit_reviews with
                | Some r => r
                | None => []
                end;
     created_at := created;
     updated_at := updated |}.

Definition to_place_data (d : PlaceDoc) : PlaceData :=
  {| pd_original := original d;
     pd_processed := processed d;
     pd_reviews := reviews d |}.

Definition _transform_and_store_places_with_llm (tomtom_places : list RawPlace)
    (reddit_reviews : list (string * list Review))
    (processed_data : list (string * Enrichment)) : M (list PlaceDoc) :=
  places_to_insert <-
    fold_m tomtom_places
      (fun acc place =>
         created <- now env ;;
         updated <- now env ;;
         ret (acc ++ [place_doc_of place reddit_reviews processed_data created updated]))
      [] ;;
  match places_to_insert with
  | [] => ret []
  | _ =>
      PlaceController.bulk_insert_places env (map to_place_data places_to_insert) ;;;
      ret places_to_insert
  end.

Definition len {A} (l : list A) : Z := Z.of_nat (length l).

(** The logging loop over [processed_data.items()], which takes the
    length of both lists of every entry. *)
Definition log_processed (processed_data : list (string * Enrichment)) : M unit :=
  for_each processed_data
    (fun item =>
       lift (py_len (e_vibe_tags (snd item))) ;;;
       lift (py_len (e_emojis (snd item))) ;;;
       ret tt).

Definition search_places_with_fallback (city category : string)
    (vibe_tags : list string) (min_results : Z) : M SearchResult :=
  try_except
    (existing_places <- _search_existing_places city category vibe_tags ;;
     if (len existing_places >=? min_results)%Z then
       ret {| success := true;
              result_source := Some "database";
              result_places := existing_places;
              count := len existing_places;
              fallback_used := Some false;
              error := None;
              tomtom_fetched := None;
              reddit_reviews_scraped := None;
              tripadvisor_reviews_scraped := None |}
     else
       tomtom_places <-
         _fetch_tomtom_places city category (min_results - len existing_places)%Z ;;
       match tomtom_places with
       | [] =>
           ret {| success := true;
                  result_source := Some "database_only";
                  result_places := existing_places;
                  count := len existing_places;
                  fallback_used := Some false;
                  error := None;
                  tomtom_fetched := None;
                  reddit_reviews_scraped := None;
                  tripadvisor_reviews_scraped := None |}
       | _ =>
           reddit_reviews <-
             RedditScraper.scrape_multiple_places env RedditScraper.default_config
               tomtom_places city ;;
           processed_data <-
             LLMProcessor.process_multiple_places env reddit_reviews city ;;
           log_processed processed_data ;;;
           places_with_reviews <-
             _transform_and_store_places_with_llm tomtom_places reddit_reviews
               processed_data ;;
           let all_places := existing_places ++ places_with_reviews in
           ret {| success := true;
                  result_source := Some "database_and_tomtom";
                  result_places := all_places;
                  count := len all_places;
                  fallback_used := Some true;
                  error := None;
                  tomtom_fetched := Some (len tomtom_places);
                  reddit_reviews_scraped := Some (len reddit_reviews);
                  tripadvisor_reviews_scraped := Some 0%Z |}
       end)
    (fun e =>
       ret {| success := false;
              result_source := None;
              result_places := [];
              count := 0;
              fallback_used := None;
              error := Some e;
              tomtom_fetched := None;
              reddit_reviews_scraped := None;
              tripadvisor_reviews_scraped := None |}).

(** [_combine_reviews]: for every place name of either dictionary, its
    Reddit reviews followed by its TripAdvisor reviews.  The names are
    visited in the iteration order of the set of all keys. *)
Definition _combine_reviews (reddit_reviews tripadvisor_reviews : list (string * list Review))
    : list (string * list Review) :=
  let all_places :=
    set_to_list (set_order env)
                (map fst reddit_reviews ++ map fst tripadvisor_reviews) in
  fold_left
    (fun combined_reviews place_name =>
       dict_set place_name
         ((match dict_get place_name reddit_reviews with Some r => r | None => [] end) ++
          (match dict_get place_name tripadvisor_reviews with Some r => r | None => [] end))
         combined_reviews)
    all_places [].

(** The document the legacy [_transform_and_store_places] builds. *)
Definition legacy_place_doc_of (place : RawPlace)
    (reddit_reviews : list (string * list Review)) (created updated : Z) : PlaceDoc :=
  let place_name := match rp_name place with Some n => n | None => "" end in
  {| doc_id := None;
     original :=
       {| fsq_id := or_empty (rp_fsq_id place);
          name := Some place_name;
          category := or_empty (rp_category place);
          address := or_empty (rp_address place);
          locality := or_empty (rp_locality place);
          city := or_empty (rp_city place);
          country := or_empty (rp_country place);
          photo_url := or_empty (rp_photo_url place);
          coordinates := rp_coordinates place |};
     processed :=
       {| vibe_tags := JArr []; emojis := JArr []; summary := JStr ""; citations := [] |};
     reviews := match dict_get place_name reddit_reviews with
                | Some r => r
                | None => []
                end;
     created_at := created;
     updated_at := updated |}.

(** [_transform_and_store_places], the variant without enrichment. *)
Definition _transform_and_store_places (tomtom_places : list RawPlace)
    (reddit_reviews : list (string * list Review)) : M (list PlaceDoc) :=
  places_to_insert <-
    fold_m tomtom_places
      (fun acc place =>
         created <- now env ;;
         updated <- now env ;;
         ret (acc ++ [legacy_place_doc_of place reddit_reviews created updated]))
      [] ;;
  match places_to_insert with
  | [] => ret []
  | _ =>
      PlaceController.bulk_insert_places env (map to_place_data places_to_insert) ;;;
      ret places_to_insert
  end.

End WithEnv.

End FallbackService.

(** ** Concrete environments *)

Module Scenario.

(** A set order: every element at its last occurrence. *)
Definition scan_order : SetOrder :=
  {| set_to_list := nodup string_dec;
     set_to_list_nodup := NoDup_nodup string_dec;
     set_to_list_elems := fun l x => nodup_In string_dec l x |}.

(** Another set order: the reverse of [scan_order]. *)
Definition reverse_order : SetOrder :=
  {| set_to_list := fun l => rev (nodup string_dec l);
     set_to_list_nodup := fun l => NoDup_rev (NoDup_nodup string_dec l);
     set_to_list_elems := fun l x =>
       iff_trans (iff_sym (in_rev (nodup string_dec l) x))
                 (nodup_In string_dec l x) |}.

(** Matching of a pattern made of ordinary characters and [.], which
    stands for any character but a line feed, at the head of a subject. *)
Fixpoint match_here (pattern subject : list ascii) : bool :=
  match pattern, subject with
  | [], _ => true
  | _ :: _, [] => false
  | p :: ps, c :: cs =>
      (if Ascii.eqb p "."%char then negb (Ascii.eqb c "010"%char)
       else Ascii.eqb (PyStr.lower_char p) (PyStr.lower_char c))
      && match_here ps cs
  end.

Fixpoint search_from (pattern subject : list ascii) : bool :=
  match_here pattern subject ||
  match subject with
  | [] => false
  | _ :: cs => search_from pattern cs
  end.

Definition is_operator (c : ascii) : bool :=
  existsb (Ascii.eqb c) (list_ascii_of_string "\^$|?*+()[]{}").

(** A regular-expression engine for the patterns without operators
    other than [.]; it gives no meaning to the others. *)
Definition dot_regex (pattern : string) : option (string -> bool) :=
  if existsb is_operator (list_ascii_of_string pattern) then None
  else Some (fun subject =>
               search_from (list_ascii_of_string pattern)
                           (list_ascii_of_string subject)).

(** [json.loads] on the two texts the scenarios use. *)
Definition tiny_json_loads (s : string) : option Json :=
  if String.eqb s "{}" then Some (JObj [])
  else if String.eqb s "42" then Some (JNum (42 # 1)%Q)
  else None.

(** An environment with a working store and the given outside world. *)
Definition make_env
    (llm : list Event -> Prompt -> Q -> Exn + string)
    (reddit : list Event -> string -> Z -> HttpOutcome)
    (provider : list Event -> string -> string -> Z -> Exn + option (list RawPlace))
    : Env :=
  {| llm_complete := llm;
     json_loads := tiny_json_loads;
     reddit_get := reddit;
     provider_search := provider;
     json_error := fun _ => "Expecting value: line 1 column 1 (char 0)";
     db_available := true;
     mongo_present := true;
     db_fault := fun _ => None;
     db_partial := fun _ => 0;
     regex_i := dot_regex;
     clock := fun h => Z.of_nat (length h);
     set_order := scan_order |}.

Definition llm_says (text : string) : list Event -> Prompt -> Q -> Exn + string :=
  fun _ _ _ => inr text.
Definition llm_down : list Event -> Prompt -> Q -> Exn + string :=
  fun _ _ _ => inl "OpenRouter API error: 503".
Definition reddit_down : list Event -> string -> Z -> HttpOutcome :=
  fun _ _ _ => TransportError "Connection refused".
Definition provider_none
    : list Event -> string -> string -> Z -> Exn + option (list RawPlace) :=
  fun _ _ _ _ => inr None.

Definition offline_env : Env := make_env llm_down reddit_down provider_none.

Definition empty_world : World :=
  {| trace := []; places_coll := []; next_oid := 0 |}.

Definition lines (l : list string) : string :=
  PyStr.join RedditScraper.newline l.

(** A place name of 840 characters. *)
Definition long_name : string := string_of_list_ascii (repeat "a"%char 840).

(** A post whose text has more than fifty characters. *)
Definition long_post : Post :=
  {| post_title := "Blue Tokai in Delhi: an honest review after five visits";
     post_selftext := "Good coffee, slow service.";
     post_url := "https://reddit.com/r/delhi/comments/1";
     post_score := 12;
     post_created_utc := 1700000000 |}.

Definition reddit_one_post : list Event -> string -> Z -> HttpOutcome :=
  fun _ _ _ => HttpResponse 200 (inr (Some [long_post])).

(** Two more posts, with higher and lower scores than [long_post]. *)
Definition popular_post : Post :=
  {| post_title := "Best cafes in Delhi, ranked after a month of tasting";
     post_selftext := "Blue Tokai comes first.";
     post_url := "https://reddit.com/r/delhi/comments/2";
     post_score := 40;
     post_created_utc := 1700000100 |}.
Definition ignored_post : Post :=
  {| post_title := "Is Blue Tokai in Delhi worth the price these days?";
     post_selftext := "Asking before a visit.";
     post_url := "https://reddit.com/r/delhi/comments/3";
     post_score := 3;
     post_created_utc := 1700000200 |}.

(** A response that lists the three posts out of score order. *)
Definition reddit_three_posts : list Event -> string -> Z -> HttpOutcome :=
  fun _ _ _ => HttpResponse 200 (inr (Some [long_post; popular_post; ignored_post])).

Definition no_processing : Processed :=
  {| vibe_tags := JArr []; emojis := JArr []; summary := JStr ""; citations := [] |}.

Definition place_in (id place_name place_category place_city : string) : Original :=
  {| fsq_id := Some id; name := Some place_name; category := Some place_category;
     address := None; locality := None; city := Some place_city;
     country := Some "India"; photo_url := None; coordinates := None |}.

(** One entry of a bulk request. *)
Definition cafe_data : PlaceData :=
  {| pd_original := place_in "tomtom_cafe_0" "Blue Tokai" "cafe" "Delhi";
     pd_processed := no_processing;
     pd_reviews := [] |}.

(** The filter of the cache check in the words of the specification:
    the city is equal, the category occurs in the stored category as a
    substring, letter case ignored, and a tag is shared when tags were
    given. *)
Definition ci_substring (needle hay : string) : bool :=
  PyStr.contains (PyStr.lower needle) (PyStr.lower hay).

Definition claimed_match (q_city q_category : string) (q_vibe_tags : list string)
    (d : PlaceDoc) : bool :=
  FallbackService.matches_query q_city (ci_substring q_category) q_vibe_tags d.

Definition stored (oid : nat) (o : Original) (tags : list string) : PlaceDoc :=
  {| doc_id := Some (ObjectId oid);
     original := o;
     processed := {| vibe_tags := jstrings tags; emojis := JArr [];
                     summary := JStr ""; citations := [] |};
     reviews := [];
     created_at := 0;
     updated_at := 0 |}.

(** A language model that answers the first relevance batch with two
    YES out of five and every later one with YES, YES, NO, NO, NO. *)
Definition llm_two_of_five : list Event -> Prompt -> Q -> Exn + string :=
  fun h _ _ =>
    match h with
    | [] => inr (lines ["YES"; "no"; " yes "; "NO"; "maybe"])
    | _ => inr (lines ["YES"; "YES"; "NO"; "NO"; "NO"])
    end.

Definition refiner_env : Env := make_env llm_two_of_five reddit_down provider_none.

Definition refiner_cfg : ReviewRefiner.Config :=
  {| ReviewRefiner.max_iterations := 2; ReviewRefiner.min_relevant_reviews := 3 |}.

Definition review_with (text : string) : Review :=
  {| source := "reddit"; content := text; url := ""; score := 0; created_utc := 0 |}.

(** A fetch function that returns five further reviews. *)
Definition five_more : M (list Review) :=
  ret (map review_with ["f"; "g"; "h"; "i"; "j"]).

Definition cafe_bar_dot : PlaceDoc :=
  stored 0 (place_in "p0" "Dot" "cafe.bar" "Delhi") ["cozy"].
Definition cafe_bar_space : PlaceDoc :=
  stored 1 (place_in "p1" "Space" "cafe bar" "Delhi") ["lively"].

(** A store with two places in Delhi. *)
Definition two_places : World :=
  {| trace := []; places_coll := [cafe_bar_dot; cafe_bar_space]; next_oid := 2 |}.

Definition candidate (id place_name : string) : RawPlace :=
  {| rp_fsq_id := Some id; rp_name := Some place_name; rp_category := Some "cafe";
     rp_address := None; rp_locality := None; rp_city := Some "Delhi";
     rp_country := Some "India"; rp_photo_url := None; rp_coordinates := None |}.

(** A second place to insert. *)
Definition bar_data : PlaceData :=
  {| pd_original := place_in "tomtom_bar_3" "Social" "bar" "Delhi";
     pd_processed := no_processing;
     pd_reviews := [] |}.

(** A store that rejects the second document of the insert it is asked
    for after six events (two lookups and four clock reads): the ordered
    insert has written one document when it raises. *)
Definition partial_insert_env : Env :=
  {| llm_complete := llm_down;
     json_loads := tiny_json_loads;
     json_error := fun _ => "Expecting value: line 1 column 1 (char 0)";
     reddit_get := reddit_down;
     provider_search := provider_none;
     db_available := true;
     mongo_present := true;
     db_fault := fun h => if (length h =? 6)%nat
                          then Some "batch op errors occurred" else None;
     db_partial := fun _ => 1;
     regex_i := dot_regex;
     clock := fun h => Z.of_nat (length h);
     set_order := scan_order |}.


(** A provider that returns one candidate. *)
Definition provider_one
    : list Event -> string -> string -> Z -> Exn + option (list RawPlace) :=
  fun _ _ _ _ => inr (Some [candidate "tomtom_cafe_7" "Third Wave Coffee"]).

End Scenario.

(** * Properties *)

(** ** Python primitives on concrete values *)

Example lower_upper_ex :
  PyStr.lower "Blue Tokai Cafe" = "blue tokai cafe" /\ PyStr.upper " yes" = " YES".
Proof. split; reflexivity. Qed.

Example strip_ex : PyStr.strip "  two words  " = "two words" /\ PyStr.strip "   " = "".
Proof. split; reflexivity. Qed.

Example split_on_ex : PyStr.split_on "-" "a--b-" = ["a"; ""; "b"; ""].
Proof. reflexivity. Qed.

Example split_ws_ex :
  PyStr.split_ws "  tell me   about Starbucks " = ["tell"; "me"; "about"; "Starbucks"].
Proof. reflexivity. Qed.

Example contains_ex :
  PyStr.contains "hi" "delhi" = true /\ PyStr.contains "" "" = true /\
  PyStr.contains "cafe" "caf" = false.
Proof. repeat split. Qed.

Example find_rfind_ex :
  PyStr.find_char "{" "say {a} {b}" = 4%Z /\ PyStr.rfind_char "}" "say {a} {b}" = 10%Z /\
  PyStr.find_char "{" "none" = (-1)%Z.
Proof. repeat split. Qed.

Example slice_ex :
  PyStr.sslice 4 11 "say {a} {b}" = "{a} {b}" /\
  PyStr.take (-1) [1; 2; 3] = [1; 2] /\ PyStr.take 5 [1; 2; 3] = [1; 2; 3] /\
  PyStr.take 0 [1; 2; 3] = [].
Proof. repeat split. Qed.

Example title_ex : PyStr.title "delhi" = "Delhi".
Proof. reflexivity. Qed.

Example unique_ex : PyStr.unique ["a"; "b"; "a"; "c"; "b"] = ["a"; "b"; "c"].
Proof. reflexivity. Qed.

Example batches_ex :
  map (@length string) (ReviewRefiner.batches (repeat "r" 32)) = [15; 15; 2].
Proof. reflexivity. Qed.

(** The sort by score is stable: equal scores keep their order. *)
Example sort_by_score_ex :
  map Core.url
    (RedditScraper.sort_by_score
       [ {| source := "reddit"; content := ""; url := "a"; score := 3; created_utc := 0 |};
         {| source := "reddit"; content := ""; url := "b"; score := 7; created_utc := 0 |};
         {| source := "reddit"; content := ""; url := "c"; score := 3; created_utc := 0 |} ])
  = ["b"; "a"; "c"].
Proof. reflexivity. Qed.

(** ** The effect monad *)

Lemma never_raises_ret {A} (a : A) : never_raises (ret a).
Proof. intros w. exists a, w. reflexivity. Qed.

Lemma never_raises_bind {A B} (m : M A) (f : A -> M B) :
  never_raises m -> (forall a, never_raises (f a)) -> never_raises (bind m f).
Proof.
  intros Hm Hf w. destruct (Hm w) as (a & w1 & E).
  destruct (Hf a w1) as (b & w2 & E2).
  exists b, w2. unfold bind. rewrite E. exact E2.
Qed.

Lemma never_raises_try {A} (m : M A) (h : Exn -> M A) :
  (forall e, never_raises (h e)) -> never_raises (try_except m h).
Proof.
  intros Hh w. unfold try_except.
  destruct (m w) as [[e | a] w1] eqn:E.
  - apply Hh.
  - exists a, w1. reflexivity.
Qed.

Lemma never_raises_call {A} (ev : Event) (oracle : list Event -> A) :
  never_raises (call ev oracle).
Proof. intros w. eexists; eexists. reflexivity. Qed.

Lemma never_raises_fold {A S} (l : list A) (body : S -> A -> M S) :
  (forall acc x, never_raises (body acc x)) ->
  forall acc, never_raises (fold_m l body acc).
Proof.
  intros Hb. induction l as [| x r IH]; intros acc; simpl.
  - apply never_raises_ret.
  - apply never_raises_bind; [apply Hb | intros; apply IH].
Qed.

(** ** Python slices *)

Lemma clip_le (n : nat) (i : Z) : (PyStr.clip n i <= n)%nat.
Proof. unfold PyStr.clip. destruct (i <? 0)%Z eqn:E; lia. Qed.

Lemma clip_nonneg (n : nat) (i : Z) :
  (0 <= i)%Z -> PyStr.clip n i = Nat.min n (Z.to_nat i).
Proof.
  intros H. unfold PyStr.clip.
  destruct (i <? 0)%Z eqn:E; [apply Z.ltb_lt in E; lia | reflexivity].
Qed.

Lemma take_length_le {A} (n : Z) (l : list A) :
  (0 <= n)%Z -> (Z.of_nat (length (PyStr.take n l)) <= n)%Z.
Proof.
  intros H. unfold PyStr.take. rewrite length_firstn, clip_nonneg by exact H. lia.
Qed.

Lemma take_length_list {A} (n : Z) (l : list A) :
  (length (PyStr.take n l) <= length l)%nat.
Proof. unfold PyStr.take. rewrite length_firstn. lia. Qed.

Lemma take_exact {A} (n : Z) (l : list A) :
  (0 <= n <= Z.of_nat (length l))%Z ->
  PyStr.take n l = firstn (Z.to_nat n) l /\
  Z.of_nat (length (PyStr.take n l)) = n.
Proof.
  intros H. unfold PyStr.take. rewrite clip_nonneg by lia.
  replace (Nat.min (length l) (Z.to_nat n)) with (Z.to_nat n) by lia.
  split; [reflexivity |]. rewrite length_firstn. lia.
Qed.

Lemma take_incl {A} (n : Z) (l : list A) : incl (PyStr.take n l) l.
Proof.
  unfold PyStr.take. intros x Hx.
  rewrite <- (firstn_skipn (PyStr.clip (length l) n) l).
  apply in_or_app. left. exact Hx.
Qed.

(** ** Review relevance refiner *)

Module RefinerProps.
Import ReviewRefiner.

Section WithEnv.
Variable env : Env.

Lemma filter_batch_never_raises place_name place_type batch :
  never_raises (filter_batch env place_name place_type batch).
Proof. apply never_raises_try. intros e. apply never_raises_ret. Qed.

Lemma filter_relevant_reviews_batched_never_raises reviews place_name place_type :
  never_raises (filter_relevant_reviews_batched env reviews place_name place_type).
Proof.
  unfold filter_relevant_reviews_batched. destruct reviews as [| r rs].
  - apply never_raises_ret.
  - apply never_raises_bind.
    + apply never_raises_fold. intros acc x.
      apply never_raises_bind; [apply filter_batch_never_raises |].
      intros a. apply never_raises_ret.
    + intros a. apply never_raises_ret.
Qed.

Lemma refine_loop_spec (cfg : Config) place_name place_type fetch_more :
  (1 <= min_relevant_reviews cfg)%Z ->
  forall fuel iteration current relevant w,
    (0 <= iteration < max_iterations cfg)%Z ->
    (Z.to_nat (max_iterations cfg - iteration) <= fuel)%nat ->
    exists stop it l w' rounds w_last,
      refine_loop env fuel cfg place_name place_type fetch_more
                  iteration current relevant w
      = (inr (Some (stop, it, l)), w') /\
      (iteration <= it < max_iterations cfg)%Z /\
      rounds_from env place_name place_type fetch_more current w rounds w_last /\
      Z.of_nat (length rounds) = (it - iteration + 1)%Z /\
      (forall k, (1 <= k < length rounds)%nat ->
         (Z.of_nat (length (accepted_after relevant (firstn k rounds)))
          < min_relevant_reviews cfg)%Z) /\
      quota_law cfg fetch_more (accepted_after relevant rounds) w_last stop it l w'.
Proof.
  intros Hmin. induction fuel as [| fuel IH]; intros iteration current relevant w Hit Hfuel.
  - lia.
  - simpl. destruct (iteration <? max_iterations cfg)%Z eqn:Elt;
      [| apply Z.ltb_ge in Elt; lia].
    destruct (filter_relevant_reviews_batched_never_raises
                current place_name place_type w) as (found & w1 & Ef).
    unfold bind at 1. rewrite Ef.
    set (acc := PyStr.unique (relevant ++ found)).
    assert (Hone : rounds_from env place_name place_type fetch_more current w [found] w1)
      by (apply last_round; exact Ef).
    assert (Hvac : forall k, (1 <= k < length [found])%nat ->
                     (Z.of_nat (length (accepted_after relevant (firstn k [found])))
                      < min_relevant_reviews cfg)%Z)
      by (intros k Hk; cbn [length] in Hk; lia).
    destruct (Z.of_nat (length acc) >=? min_relevant_reviews cfg)%Z eqn:Eq.
    + apply Z.geb_le in Eq.
      destruct (take_exact (min_relevant_reviews cfg) acc) as [Et El]; [lia |].
      exists (Sufficient (length acc)), iteration,
        (PyStr.take (min_relevant_reviews cfg) acc), w1, [found], w1.
      split; [reflexivity |]. split; [lia |]. split; [exact Hone |].
      split; [cbn [length]; lia |]. split; [exact Hvac |].
      left. cbn [accepted_after fold_left]. fold acc. rewrite <- Et. auto.
    + assert (Hshort : (Z.of_nat (length acc) < min_relevant_reviews cfg)%Z).
      { destruct (Z.geb_spec (Z.of_nat (length acc)) (min_relevant_reviews cfg));
          [discriminate | lia]. }
      destruct fetch_more as [fetch |].
      * destruct (iteration <? max_iterations cfg - 1)%Z eqn:Elast.
        -- apply Z.ltb_lt in Elast.
           unfold bind at 1, try_except, bind at 1.
           destruct (fetch w1) as [[e | new_reviews] w2] eqn:Efetch; simpl.
           ++ exists (FetchError e), iteration, acc, w2, [found], w1.
              split; [reflexivity |]. split; [lia |]. split; [exact Hone |].
              split; [cbn [length]; lia |]. split; [exact Hvac |].
              right. split; [exact Hshort |]. split; [reflexivity |].
              right. right. exists fetch, e. auto.
           ++ destruct new_reviews as [| r rs].
              ** exists NoMoreReviews, iteration, acc, w2, [found], w1.
                 split; [reflexivity |]. split; [lia |]. split; [exact Hone |].
                 split; [cbn [length]; lia |]. split; [exact Hvac |].
                 right. split; [exact Hshort |]. split; [reflexivity |].
                 right. left. exists fetch. auto.
              ** destruct (IH (iteration + 1)%Z (map Core.content (r :: rs)) acc w2)
                   as (stop & it & l & w3 & rounds & w_last &
                       Erun & Hrange & Hrounds & Hlen & Hbelow & Hlaw); [lia | lia |].
                 exists stop, it, l, w3, (found :: rounds), w_last.
                 split; [exact Erun |]. split; [lia |].
                 split; [eapply further_round; eauto |].
                 split; [cbn [length]; lia |].
                 split; [| exact Hlaw].
                 intros k Hk. destruct k as [| k]; [lia |].
                 cbn [firstn accepted_after fold_left]. fold acc.
                 destruct k as [| k]; [exact Hshort |].
                 apply (Hbelow (S k)). cbn [length] in Hk. lia.
        -- apply Z.ltb_ge in Elast.
           exists NoMoreIterations, iteration, acc, w1, [found], w1.
           split; [reflexivity |]. split; [lia |]. split; [exact Hone |].
           split; [cbn [length]; lia |]. split; [exact Hvac |].
           right. split; [exact Hshort |]. split; [reflexivity |].
           left. split; [reflexivity |]. split; [reflexivity |]. right. lia.
      * exists NoMoreIterations, iteration, acc, w1, [found], w1.
        split; [reflexivity |]. split; [lia |]. split; [exact Hone |].
        split; [cbn [length]; lia |]. split; [exact Hvac |].
        right. split; [exact Hshort |]. split; [reflexivity |].
        left. split; [reflexivity |]. split; [reflexivity |]. left. reflexivity.
Qed.

Lemma refine_loop_never_raises cfg place_name place_type fetch_more :
  forall fuel iteration current relevant,
    never_raises (refine_loop env fuel cfg place_name place_type fetch_more
                              iteration current relevant).
Proof.
  induction fuel as [| fuel IH]; intros iteration current relevant; simpl.
  - apply never_raises_ret.
  - destruct (iteration <? max_iterations cfg)%Z; [| apply never_raises_ret].
    apply never_raises_bind;
      [apply filter_relevant_reviews_batched_never_raises |].
    intros found.
    destruct (_ >=? _)%Z; [apply never_raises_ret |].
    destruct fetch_more as [fetch |]; [| apply never_raises_ret].
    destruct (iteration <? max_iterations cfg - 1)%Z; [| apply never_raises_ret].
    apply never_raises_bind.
    + apply never_raises_try. intros e. apply never_raises_ret.
    + intros [e | [| r rs]]; try apply never_raises_ret. apply IH.
Qed.

Lemma refine_reviews_with_llm_never_raises cfg initial place_name place_type fetch_more :
  never_raises (refine_reviews_with_llm env cfg initial place_name place_type fetch_more).
Proof.
  apply never_raises_bind; [apply refine_loop_never_raises |].
  intros r. apply never_raises_ret.
Qed.

End WithEnv.

End RefinerProps.

(** C2.  Refiner quota law: with [max_iterations >= 1] and
    [min_relevant >= 1], [refine_reviews_with_llm] returns a list [l] of
    at most [min_relevant] reviews.  The loop runs the batch filter in
    rounds, first on the initial reviews and then on each non-empty
    list the fetch function returned, and stops in an iteration below
    [max_iterations]; the accepted reviews are what the rounds accepted,
    appended in order with duplicates dropped.  No round before the
    last reached the quota.  Either the accepted reviews reached it in
    the last round and [l] is exactly the first [min_relevant] of them,
    or fewer were accepted, [l] is all of them, and the loop stopped
    because no fetch function was given or the last iteration was
    reached, because the fetch returned nothing, or because the fetch
    failed. *)
Theorem refiner_quota_law (env : Env) (cfg : ReviewRefiner.Config)
    (initial_reviews : list string) (place_name place_type : string)
    (fetch_more : option (M (list Review))) (w : World) :
  (1 <= ReviewRefiner.max_iterations cfg)%Z ->
  (1 <= ReviewRefiner.min_relevant_reviews cfg)%Z ->
  exists stop it l w' rounds w_last,
    ReviewRefiner.refine_outcome env cfg initial_reviews place_name place_type
      fetch_more w = (inr (Some (stop, it, l)), w') /\
    ReviewRefiner.refine_reviews_with_llm env cfg initial_reviews place_name
      place_type fetch_more w = (inr l, w') /\
    (Z.of_nat (length l) <= ReviewRefiner.min_relevant_reviews cfg)%Z /\
    (0 <= it < ReviewRefiner.max_iterations cfg)%Z /\
    ReviewRefiner.rounds_from env place_name place_type fetch_more
      initial_reviews w rounds w_last /\
    Z.of_nat (length rounds) = (it + 1)%Z /\
    (forall k, (1 <= k < length rounds)%nat ->
       (Z.of_nat (length (ReviewRefiner.accepted_after [] (firstn k rounds)))
        < ReviewRefiner.min_relevant_reviews cfg)%Z) /\
    ReviewRefiner.quota_law cfg fetch_more (ReviewRefiner.accepted_after [] rounds)
      w_last stop it l w'.
Proof.
  intros Hmax Hmin.
  destruct (RefinerProps.refine_loop_spec env cfg place_name place_type fetch_more
              Hmin (ReviewRefiner.loop_fuel cfg) 0%Z initial_reviews [] w)
    as (stop & it & l & w' & rounds & w_last &
        Erun & Hrange & Hrounds & Hlen & Hbelow & Hlaw).
  - lia.
  - unfold ReviewRefiner.loop_fuel. lia.
  - exists stop, it, l, w', rounds, w_last.
    assert (Eout : ReviewRefiner.refine_outcome env cfg initial_reviews place_name
                     place_type fetch_more w = (inr (Some (stop, it, l)), w'))
      by exact Erun.
    split; [exact Eout |]. split.
    + unfold ReviewRefiner.refine_reviews_with_llm, bind. rewrite Eout. reflexivity.
    + split; [| split; [lia | split; [exact Hrounds | split; [lia | split;
                [exact Hbelow | exact Hlaw]]]]].
      destruct Hlaw as [(_ & _ & _ & Hl & _) | (Hl & -> & _)]; lia.
Qed.

Lemma refiner_quota_law_witness :
  exists stop it l w' rounds w_last,
    ReviewRefiner.refine_outcome Scenario.refiner_env Scenario.refiner_cfg
      ["a"; "b"; "c"; "d"; "e"] "Blue Tokai" "cafe" (Some Scenario.five_more)
      Scenario.empty_world = (inr (Some (stop, it, l)), w') /\
    ReviewRefiner.refine_reviews_with_llm Scenario.refiner_env Scenario.refiner_cfg
      ["a"; "b"; "c"; "d"; "e"] "Blue Tokai" "cafe" (Some Scenario.five_more)
      Scenario.empty_world = (inr l, w') /\
    (Z.of_nat (length l) <= 3)%Z /\
    (0 <= it < 2)%Z /\
    ReviewRefiner.rounds_from Scenario.refiner_env "Blue Tokai" "cafe"
      (Some Scenario.five_more) ["a"; "b"; "c"; "d"; "e"] Scenario.empty_world
      rounds w_last /\
    Z.of_nat (length rounds) = (it + 1)%Z /\
    (forall k, (1 <= k < length rounds)%nat ->
       (Z.of_nat (length (ReviewRefiner.accepted_after [] (firstn k rounds))) < 3)%Z) /\
    ReviewRefiner.quota_law Scenario.refiner_cfg (Some Scenario.five_more)
      (ReviewRefiner.accepted_after [] rounds) w_last stop it l w'.
Proof.
  apply (refiner_quota_law Scenario.refiner_env Scenario.refiner_cfg
           ["a"; "b"; "c"; "d"; "e"] "Blue Tokai" "cafe" (Some Scenario.five_more)
           Scenario.empty_world); simpl; lia.
Defined.

(** The rounds of that run: "a" and "c" are accepted of the initial
    five, "f" and "g" of the five fetched; the quota of three is reached
    in the second round, and the first three accepted are returned. *)
Example refine_two_rounds_accepted :
  exists w1 w2 w3,
    ReviewRefiner.filter_relevant_reviews_batched Scenario.refiner_env
      ["a"; "b"; "c"; "d"; "e"] "Blue Tokai" "cafe" Scenario.empty_world
    = (inr ["a"; "c"], w1) /\
    Scenario.five_more w1
    = (inr (map Scenario.review_with ["f"; "g"; "h"; "i"; "j"]), w2) /\
    ReviewRefiner.filter_relevant_reviews_batched Scenario.refiner_env
      ["f"; "g"; "h"; "i"; "j"] "Blue Tokai" "cafe" w2
    = (inr ["f"; "g"], w3) /\
    ReviewRefiner.accepted_after [] [["a"; "c"]; ["f"; "g"]] = ["a"; "c"; "f"; "g"] /\
    ReviewRefiner.refine_reviews_with_llm Scenario.refiner_env Scenario.refiner_cfg
      ["a"; "b"; "c"; "d"; "e"] "Blue Tokai" "cafe" (Some Scenario.five_more)
      Scenario.empty_world = (inr ["a"; "c"; "f"], w3).
Proof. do 3 eexists. vm_compute. repeat split. Qed.

(** Two of five reviews are accepted at first, five more are fetched,
    two of those are accepted: the first three accepted are returned. *)
Example refine_two_rounds :
  fst (ReviewRefiner.refine_outcome Scenario.refiner_env Scenario.refiner_cfg
         ["a"; "b"; "c"; "d"; "e"] "Blue Tokai" "cafe" (Some Scenario.five_more)
         Scenario.empty_world)
  = inr (Some (ReviewRefiner.Sufficient 4, 1%Z, ["a"; "c"; "f"])).
Proof. vm_compute. reflexivity. Qed.

(** Without a fetch function the two accepted reviews are all there is. *)
Example refine_no_fetch :
  fst (ReviewRefiner.refine_outcome Scenario.refiner_env Scenario.refiner_cfg
         ["a"; "b"; "c"; "d"; "e"] "Blue Tokai" "cafe" None Scenario.empty_world)
  = inr (Some (ReviewRefiner.NoMoreIterations, 0%Z, ["a"; "c"])).
Proof. vm_compute. reflexivity. Qed.

(** A failed model call keeps the whole batch. *)
Example refine_llm_down :
  fst (ReviewRefiner.refine_reviews_with_llm Scenario.offline_env Scenario.refiner_cfg
         ["a"; "b"; "a"] "Blue Tokai" "cafe" None Scenario.empty_world)
  = inr ["a"; "b"].
Proof. vm_compute. reflexivity. Qed.

(** ** Place store *)

Module StoreProps.
Import PlaceController.

Lemma find_none_count (f : string) (coll : list PlaceDoc) :
  find (fun d => match fsq_id (original d) with
                 | Some g => String.eqb g f
                 | None => false
                 end) coll = None ->
  count_fsq f coll = 0.
Proof.
  unfold count_fsq. induction coll as [| d r IH]; simpl; [reflexivity |].
  destruct (match fsq_id (original d) with
            | Some g => String.eqb g f
            | None => false
            end); [discriminate | exact IH].
Qed.

Lemma truthy_some (o : option string) (f : string) :
  truthy o = Some f -> o = Some f /\ f <> "".
Proof.
  destruct o as [[| c s] |]; simpl; intros H; inversion H; subst.
  split; [reflexivity | discriminate].
Qed.

Lemma count_fsq_app (f : string) (a b : list PlaceDoc) :
  count_fsq f (a ++ b) = count_fsq f a + count_fsq f b.
Proof. unfold count_fsq. rewrite filter_app, length_app. reflexivity. Qed.

Lemma count_fsq_assign_ids (f : string) (docs : list PlaceDoc) (oid : nat) :
  count_fsq f (assign_ids oid docs) = count_fsq f docs.
Proof.
  unfold count_fsq. revert oid. induction docs as [| d r IH]; intros oid; simpl.
  - reflexivity.
  - destruct (match fsq_id (original d) with
              | Some g => String.eqb g f
              | None => false
              end); simpl; rewrite IH; reflexivity.
Qed.

Section WithEnv.
Variable env : Env.

(** One round reads the collection and the clock only, and a document
    it appends is fresh for the collection. *)
Lemma collect_step_spec (acc : list PlaceDoc) (pd : PlaceData) (w : World) r w' :
  collect_step env acc pd w = (r, w') ->
  places_coll w' = places_coll w /\
  next_oid w' = next_oid w /\
  forall docs, r = inr docs ->
    docs = acc \/ exists d, docs = acc ++ [d] /\ fresh_for (places_coll w) d.
Proof.
  unfold collect_step, bind, find_one_by_fsq_id, db_read, now, call, ret.
  destruct (truthy (fsq_id (pd_original pd))) as [f |] eqn:Ef.
  - destruct (db_available env); simpl.
    + destruct (db_fault env (trace w)) as [e |]; simpl.
      * intros H; inversion H; subst; simpl.
        repeat split. intros docs Hd; discriminate.
      * destruct (find _ (places_coll w)) as [found |] eqn:Efind; simpl;
          intros H; inversion H; subst; simpl.
        -- repeat split. intros docs Hd. inversion Hd. auto.
        -- split; [reflexivity |]. split; [reflexivity |].
           intros docs Hd. inversion Hd. right.
           eexists. split; [reflexivity |].
           exists f. simpl. apply truthy_some in Ef. destruct Ef as [_ Hne].
           repeat split; try assumption. apply find_none_count. exact Efind.
    + intros H; inversion H; subst. repeat split. intros docs Hd; discriminate.
  - intros H; inversion H; subst. repeat split. intros docs Hd. inversion Hd. auto.
Qed.

(** The loop of [bulk_insert_places] reads the collection and the clock
    only, and every document it collects is fresh for the collection. *)
Lemma collect_docs_spec (places_data : list PlaceData) :
  forall acc w r w',
    fold_m places_data (collect_step env) acc w = (r, w') ->
    places_coll w' = places_coll w /\
    next_oid w' = next_oid w /\
    forall docs, r = inr docs ->
      forall d, In d docs -> In d acc \/ fresh_for (places_coll w) d.
Proof.
  induction places_data as [| pd rest IH]; intros acc w r w' Hrun.
  - simpl in Hrun. inversion Hrun; subst. repeat split.
    intros docs Hd d Hin. inversion Hd; subst. left. exact Hin.
  - simpl in Hrun. unfold bind in Hrun.
    destruct (collect_step env acc pd w) as [[e | acc'] w1] eqn:Estep;
      apply collect_step_spec in Estep; destruct Estep as (Hc & Hn & Hstep).
    + inversion Hrun; subst. repeat split; try assumption.
      intros docs Hd; discriminate.
    + apply IH in Hrun. destruct Hrun as (Hc' & Hn' & Hdocs).
      rewrite Hc', Hn', Hc, Hn. repeat split.
      intros docs Hd d Hin. rewrite Hc in Hdocs.
      destruct (Hdocs docs Hd d Hin) as [Hacc | Hfresh]; [| right; exact Hfresh].
      destruct (Hstep acc' eq_refl) as [-> | (d' & -> & Hd')]; [left; exact Hacc |].
      apply in_app_or in Hacc. destruct Hacc as [Hacc | [<- | []]]; auto.
Qed.

Lemma in_firstn {A} (k : nat) (l : list A) (x : A) : In x (firstn k l) -> In x l.
Proof.
  intros H. rewrite <- (firstn_skipn k l). apply in_or_app. left. exact H.
Qed.

Lemma assign_ids_original (n : nat) (l : list PlaceDoc) (d : PlaceDoc) :
  In d (assign_ids n l) -> exists d', In d' l /\ original d = original d'.
Proof.
  revert n. induction l as [| x r IH]; intros n Hin; simpl in Hin; [destruct Hin |].
  destruct Hin as [Hd | Hin].
  - exists x. subst d. simpl. auto.
  - destruct (IH _ Hin) as (d' & Hd' & Ho). exists d'. simpl. auto.
Qed.

(** Whatever [bulk_insert_places] does, the stored documents stay as
    they are, in place, and every added document carries an identifier
    the collection did not have before the call. *)
Lemma bulk_insert_places_keeps_stored (places_data : list PlaceData)
    (w : World) r w' :
  bulk_insert_places env places_data w = (r, w') ->
  exists added,
    places_coll w' = places_coll w ++ added /\
    forall d, In d added -> fresh_for (places_coll w) d.
Proof.
  unfold bulk_insert_places, bind, collect_docs.
  destruct (fold_m places_data (collect_step env) [] w) as [[e | docs] w1] eqn:Erun;
    apply collect_docs_spec in Erun; destruct Erun as (Hc & Hn & Hdocs).
  - intros H; inversion H; subst.
    exists []. rewrite app_nil_r. split; [exact Hc | intros d []].
  - destruct docs as [| d0 ds].
    + intros H; inversion H; subst.
      exists []. rewrite app_nil_r. split; [exact Hc | intros d []].
    + assert (Hfresh : forall d, In d (assign_ids (next_oid w1) (d0 :: ds)) ->
                                 fresh_for (places_coll w) d).
      { intros d Hin. apply assign_ids_original in Hin.
        destruct Hin as (d' & Hd' & Ho).
        destruct (Hdocs _ eq_refl d' Hd') as [[] | (f & Hf & Hne & Hcnt)].
        exists f. rewrite Ho. auto. }
      unfold insert_many.
      destruct (db_available env); cbn [negb].
      * destruct (db_fault env (trace w1)); intros H; inversion H; subst;
          cbn [places_coll]; rewrite Hc.
        -- eexists. split; [reflexivity |].
           intros d Hin. apply Hfresh. exact (in_firstn _ _ _ Hin).
        -- eexists. split; [reflexivity |]. exact Hfresh.
      * intros H; inversion H; subst.
        exists []. rewrite app_nil_r. split; [exact Hc | intros d []].
Qed.

(** One round appends nothing, or a document with the identifier of
    the entry it read. *)
Lemma collect_step_ids (acc : list PlaceDoc) (pd : PlaceData) (w : World) docs w' :
  collect_step env acc pd w = (inr docs, w') ->
  docs = acc \/
  exists d f, docs = acc ++ [d] /\ fsq_id (original d) = Some f /\
              truthy (fsq_id (pd_original pd)) = Some f.
Proof.
  unfold collect_step, bind, find_one_by_fsq_id, db_read, now, call, ret.
  destruct (truthy (fsq_id (pd_original pd))) as [f |] eqn:Ef.
  - destruct (db_available env); simpl; [| discriminate].
    destruct (db_fault env (trace w)) as [e |]; simpl; [discriminate |].
    destruct (find _ (places_coll w)) as [found |]; simpl;
      intros H; inversion H; subst; [left; reflexivity |].
    right. eexists. exists f. repeat split.
  - intros H; inversion H. left. reflexivity.
Qed.

(** The identifiers of the collected documents repeat only where the
    batch repeats them. *)
Lemma collect_docs_nodup (places_data : list PlaceData) :
  forall acc w docs w',
    fold_m places_data (collect_step env) acc w = (inr docs, w') ->
    NoDup (doc_ids acc ++ batch_ids places_data) ->
    NoDup (doc_ids docs).
Proof.
  induction places_data as [| pd rest IH]; intros acc w docs w' Hrun Hnd.
  - simpl in Hrun. inversion Hrun; subst. simpl in Hnd. rewrite app_nil_r in Hnd.
    exact Hnd.
  - simpl in Hrun. unfold bind in Hrun.
    destruct (collect_step env acc pd w) as [[e | acc'] w1] eqn:Estep;
      [discriminate |].
    apply (IH acc' w1 docs w' Hrun).
    unfold batch_ids in Hnd. cbn [flat_map] in Hnd. fold (batch_ids rest) in Hnd.
    destruct (collect_step_ids acc pd w acc' w1 Estep)
      as [-> | (d & f & -> & Hd & Hf)].
    + destruct (truthy (fsq_id (pd_original pd))) as [f |]; [| exact Hnd].
      simpl in Hnd. apply NoDup_remove_1 in Hnd. exact Hnd.
    + rewrite Hf in Hnd. unfold doc_ids. rewrite flat_map_app. cbn [flat_map].
      rewrite Hd. rewrite app_nil_r, <- app_assoc. exact Hnd.
Qed.

Lemma doc_ids_assign_ids (docs : list PlaceDoc) (oid : nat) :
  doc_ids (assign_ids oid docs) = doc_ids docs.
Proof.
  revert oid. induction docs as [| d r IH]; intros oid; [reflexivity |].
  unfold doc_ids in *. cbn [assign_ids flat_map original]. rewrite IH. reflexivity.
Qed.

End WithEnv.

Lemma count_fsq_not_in (f : string) (docs : list PlaceDoc) :
  ~ In f (doc_ids docs) -> count_fsq f docs = 0.
Proof.
  unfold count_fsq, doc_ids. induction docs as [| d r IH]; intros Hnin; [reflexivity |].
  cbn [flat_map filter] in *.
  destruct (fsq_id (original d)) as [g |].
  - destruct (String.eqb_spec g f) as [-> | Hne].
    + exfalso. apply Hnin. left. reflexivity.
    + apply IH. intros Hin. apply Hnin. right. exact Hin.
  - apply IH. exact Hnin.
Qed.

Lemma count_fsq_nodup (f : string) (docs : list PlaceDoc) :
  NoDup (doc_ids docs) -> count_fsq f docs <= 1.
Proof.
  induction docs as [| d r IH]; intros Hnd; [unfold count_fsq; simpl; lia |].
  unfold doc_ids in Hnd. cbn [flat_map] in Hnd. fold (doc_ids r) in Hnd.
  unfold count_fsq. cbn [filter]. fold (count_fsq f r).
  destruct (fsq_id (original d)) as [g |].
  - simpl in Hnd. inversion Hnd as [| x l Hnin Hnd']; subst.
    destruct (String.eqb_spec g f) as [-> | Hne].
    + simpl. fold (count_fsq f r). rewrite (count_fsq_not_in f r Hnin). lia.
    + fold (count_fsq f r). apply IH. exact Hnd'.
  - fold (count_fsq f r). apply IH. exact Hnd.
Qed.

Lemma count_fsq_firstn (f : string) (k : nat) (docs : list PlaceDoc) :
  count_fsq f (firstn k docs) <= count_fsq f docs.
Proof.
  rewrite <- (firstn_skipn k docs) at 2. rewrite count_fsq_app. lia.
Qed.

End StoreProps.

(** An identifier that is stored before [bulk_insert_places] is stored
    exactly as often after it: no second copy is created, and the stored
    documents are not touched. *)
Lemma bulk_insert_places_no_second_copy (env : Env) (places_data : list PlaceData)
    (w : World) r w' (f : string) :
  PlaceController.bulk_insert_places env places_data w = (r, w') ->
  (0 < PlaceController.count_fsq f (places_coll w))%nat ->
  PlaceController.count_fsq f (places_coll w') = PlaceController.count_fsq f (places_coll w) /\
  firstn (length (places_coll w)) (places_coll w') = places_coll w.
Proof.
  intros Hrun Hstored.
  destruct (StoreProps.bulk_insert_places_keeps_stored env places_data w r w' Hrun)
    as (added & Hcoll & Hfresh).
  rewrite Hcoll. split.
  - rewrite StoreProps.count_fsq_app.
    assert (Hzero : PlaceController.count_fsq f added = 0%nat).
    { clear Hcoll. induction added as [| d r' IH]; [reflexivity |].
      unfold PlaceController.count_fsq in *. simpl.
      destruct (Hfresh d (or_introl eq_refl)) as (g & Hg & _ & Hcnt).
      rewrite Hg. destruct (String.eqb_spec g f) as [-> | Hne].
      - unfold PlaceController.count_fsq in Hcnt. lia.
      - apply IH. intros d' Hd'. apply Hfresh. right. exact Hd'. }
    lia.
  - rewrite firstn_app, Nat.sub_diag, firstn_all. simpl. apply app_nil_r.
Qed.

(** When the batch names every usable identifier once, a store with at
    most one place per identifier keeps that property. *)
Lemma bulk_insert_places_unique_when_batch_distinct (env : Env)
    (places_data : list PlaceData) (w : World) r w' :
  PlaceController.bulk_insert_places env places_data w = (r, w') ->
  NoDup (PlaceController.batch_ids places_data) ->
  (forall f, PlaceController.count_fsq f (places_coll w) <= 1) ->
  forall f, PlaceController.count_fsq f (places_coll w') <= 1.
Proof.
  intros Hrun Hnd Huniq f.
  destruct (Nat.eq_dec (PlaceController.count_fsq f (places_coll w)) 0) as [Hzero | Hpos].
  - revert Hrun.
    unfold PlaceController.bulk_insert_places, bind, PlaceController.collect_docs.
    destruct (fold_m places_data (PlaceController.collect_step env) [] w)
      as [[e | docs] w1] eqn:Erun.
    + apply StoreProps.collect_docs_spec in Erun. destruct Erun as (Hc & _).
      intros H; inversion H; subst. rewrite Hc. apply Huniq.
    + pose proof (StoreProps.collect_docs_nodup env places_data [] w docs w1 Erun Hnd)
        as Hdocs.
      apply StoreProps.collect_docs_spec in Erun. destruct Erun as (Hc & _).
      destruct docs as [| d0 ds];
        [intros H; inversion H; subst; rewrite Hc; apply Huniq |].
      unfold PlaceController.insert_many.
      destruct (db_available env); cbn [negb];
        [| intros H; inversion H; subst; rewrite Hc; apply Huniq].
      assert (Hnew : PlaceController.count_fsq f
                       (PlaceController.assign_ids (next_oid w1) (d0 :: ds)) <= 1).
      { apply StoreProps.count_fsq_nodup.
        rewrite (StoreProps.doc_ids_assign_ids (d0 :: ds)). exact Hdocs. }
      destruct (db_fault env (trace w1)); intros H; inversion H; subst;
        cbn [places_coll]; rewrite Hc, StoreProps.count_fsq_app, Hzero;
        cbn [Nat.add]; [| exact Hnew].
      eapply Nat.le_trans; [apply StoreProps.count_fsq_firstn | exact Hnew].
  - destruct (bulk_insert_places_no_second_copy env places_data w r w' f Hrun)
      as [Hsame _]; [lia |].
    rewrite Hsame. apply Huniq.
Qed.

(** C3.  Insert-or-skip uniqueness, at a batch that names the same new
    external identifier twice: the store is empty, both entries pass the
    "already exists" check, and [bulk_insert_places] stores both. *)
Theorem bulk_insert_places_duplicate_in_batch :
  let run := PlaceController.bulk_insert_places Scenario.offline_env
               [Scenario.cafe_data; Scenario.cafe_data] Scenario.empty_world in
  fst run = inr [OidString 0; OidString 1] /\
  PlaceController.count_fsq "tomtom_cafe_0" (places_coll Scenario.empty_world) = 0%nat /\
  PlaceController.count_fsq "tomtom_cafe_0" (places_coll (snd run)) = 2%nat.
Proof. vm_compute. repeat split. Qed.

(** Inserting the same entry in two successive calls stores it once. *)
Example bulk_insert_places_twice :
  let w1 := snd (PlaceController.bulk_insert_places Scenario.offline_env
                   [Scenario.cafe_data] Scenario.empty_world) in
  let run := PlaceController.bulk_insert_places Scenario.offline_env
               [Scenario.cafe_data] w1 in
  fst run = inr [] /\ places_coll (snd run) = places_coll w1 /\
  PlaceController.count_fsq "tomtom_cafe_0" (places_coll (snd run)) = 1%nat.
Proof. vm_compute. repeat split. Qed.

(** ** Reddit scraper *)

Module ScraperProps.
Import RedditScraper.

Lemma length_string_of_list (l : list ascii) :
  String.length (string_of_list_ascii l) = length l.
Proof. induction l as [| c r IH]; simpl; [reflexivity | rewrite IH; reflexivity]. Qed.

Lemma stake_length (n : Z) (s : string) :
  (0 <= n)%Z -> (Z.of_nat (String.length (PyStr.stake n s)) <= n)%Z.
Proof.
  intros H. unfold PyStr.stake. rewrite length_string_of_list.
  apply take_length_le. exact H.
Qed.

Lemma length_append (a b : string) :
  String.length (a ++ b) = String.length a + String.length b.
Proof. induction a as [| c r IH]; simpl; [reflexivity | rewrite IH; reflexivity]. Qed.

(** On the live path the text of a review is cut to 1000 characters. *)
Lemma review_of_post_cap (p : Post) (r : Review) :
  In r (review_of_post p) -> String.length (content r) <= 1000.
Proof.
  unfold review_of_post.
  destruct (negb _ && _); simpl; [| intros []].
  intros [<- | []]. cbn [content].
  match goal with
  | |- String.length (PyStr.stake 1000 ?x) <= _ =>
      pose proof (stake_length 1000 x ltac:(lia))
  end.
  lia.
Qed.

Lemma insert_by_score_in (r x : Review) (l : list Review) :
  In x (insert_by_score r l) -> x = r \/ In x l.
Proof.
  induction l as [| y rest IH]; simpl.
  - intros [<- | []]. auto.
  - destruct (score r <? score y)%Z; simpl.
    + intros [<- | H]; [auto |]. destruct (IH H); auto.
    + intros [<- | [<- | H]]; auto.
Qed.

Lemma sort_by_score_incl (l : list Review) : incl (sort_by_score l) l.
Proof.
  unfold sort_by_score. induction l as [| r rest IH]; simpl; intros x Hx.
  - exact Hx.
  - apply insert_by_score_in in Hx. destruct Hx as [-> | Hx]; [left; reflexivity |].
    right. apply IH. exact Hx.
Qed.

Lemma mock_in (place_name city : string) (max_results : Z) (r : Review) :
  In r (_get_mock_reviews place_name city max_results) ->
  In r (mock_reviews place_name city).
Proof. apply take_incl. Qed.

Section WithEnv.
Variable env : Env.

(** The refinement step returns reviews of the list it was given. *)
Lemma _refine_reviews_with_llm_incl cfg reviews place_name city w l w' :
  _refine_reviews_with_llm env cfg reviews place_name city w = (inr l, w') ->
  incl l reviews.
Proof.
  unfold _refine_reviews_with_llm.
  destruct (use_llm_refinement cfg); simpl.
  - unfold bind.
    destruct (ReviewRefiner.refine_reviews_with_llm _ _ _ _ _ _ w) as [[e | cs] w1];
      intros H; inversion H; subst.
    intros x Hx. apply in_flat_map in Hx. destruct Hx as (c & _ & Hx).
    destruct (find _ reviews) as [r |] eqn:Ef; [| destruct Hx].
    destruct Hx as [<- | []]. apply find_some in Ef. apply Ef.
  - intros H; inversion H; subst. apply incl_refl.
Qed.

(** [search_place_reviews] returns from every world: every exception
    of its body is replaced by the placeholder reviews. *)
Lemma search_place_reviews_never_raises cfg place_name city max_results :
  never_raises (search_place_reviews env cfg place_name city max_results).
Proof. apply never_raises_try. intros e. apply never_raises_ret. Qed.

(** Every returned review comes from a usable post of the response, or
    is one of the three placeholders. *)
Lemma search_place_reviews_origin cfg place_name city max_results w l w' :
  search_place_reviews env cfg place_name city max_results w = (inr l, w') ->
  forall r, In r l ->
    In r (usable_reviews (reddit_get env (trace w)
                            (search_query_of place_name city) max_results))
    \/ In r (mock_reviews place_name city).
Proof.
  unfold search_place_reviews, try_except, bind, call, lift, raise, ret.
  fold (search_query_of place_name city).
  destruct (reddit_get env (trace w) (search_query_of place_name city) max_results)
    as [e | status body]; cbn [usable_reviews].
  - intros H; inversion H; subst. intros r Hr. right. exact (mock_in _ _ _ _ Hr).
  - destruct (status =? 200)%Z eqn:Es; cbn [negb].
    + destruct body as [e | data].
      * intros H; inversion H; subst. intros r Hr. right. exact (mock_in _ _ _ _ Hr).
      * assert (Hfound : match data with
                         | Some children => flat_map review_of_post children
                         | None => []
                         end = match data with
                               | Some children => flat_map review_of_post children
                               | None => []
                               end) by reflexivity.
        revert Hfound.
        generalize (match data with
                    | Some children => flat_map review_of_post children
                    | None => []
                    end) at 1 3 4 5 6 as found.
        intros found Hfound.
        destruct found as [| r0 rs].
        -- intros H; inversion H; subst. intros r Hr. right. exact (mock_in _ _ _ _ Hr).
        -- rewrite <- Hfound.
           assert (Hlive : forall x,
                      In x (PyStr.take max_results (sort_by_score (r0 :: rs))) ->
                      In x (r0 :: rs)).
           { intros x Hx. apply sort_by_score_incl. exact (take_incl _ _ x Hx). }
           destruct (use_llm_refinement cfg) eqn:Eu.
           ++ destruct (PyStr.take max_results (sort_by_score (r0 :: rs)))
                as [| t0 ts] eqn:Et.
              ** intros H; inversion H; subst. intros r [].
              ** destruct (_refine_reviews_with_llm env cfg (t0 :: ts) place_name city _)
                   as [[e | l'] w1] eqn:Er.
                 --- intros H; inversion H; subst. intros r Hr. right.
                     exact (mock_in _ _ _ _ Hr).
                 --- intros H; inversion H; subst. intros r Hr. left.
                     apply Hlive. eapply _refine_reviews_with_llm_incl; eauto.
           ++ intros H.
              assert (Hl : l = PyStr.take max_results (sort_by_score (r0 :: rs))).
              { destruct (PyStr.take max_results (sort_by_score (r0 :: rs)));
                  inversion H; reflexivity. }
              subst l. intros r Hr. left. apply Hlive. exact Hr.
    + intros H; inversion H; subst. intros r Hr. right. exact (mock_in _ _ _ _ Hr).
Qed.

Lemma _refine_reviews_with_llm_never_raises cfg reviews place_name city :
  never_raises (_refine_reviews_with_llm env cfg reviews place_name city).
Proof.
  unfold _refine_reviews_with_llm.
  destruct (use_llm_refinement cfg); simpl; [| apply never_raises_ret].
  apply never_raises_bind;
    [apply RefinerProps.refine_reviews_with_llm_never_raises |].
  intros cs. apply never_raises_ret.
Qed.

(** When the response has usable posts, only reviews built from them
    are returned: no placeholder is mixed in. *)
Lemma search_place_reviews_live cfg place_name city max_results w :
  usable_reviews (reddit_get env (trace w)
                    (search_query_of place_name city) max_results) <> [] ->
  exists l,
    fst (search_place_reviews env cfg place_name city max_results w) = inr l /\
    incl l (usable_reviews (reddit_get env (trace w)
                              (search_query_of place_name city) max_results)).
Proof.
  unfold search_place_reviews, try_except, bind, call, lift, raise, ret.
  fold (search_query_of place_name city).
  destruct (reddit_get env (trace w) (search_query_of place_name city) max_results)
    as [e | status [e | [children |]]]; cbn [usable_reviews];
    try (intros H; exfalso; apply H; reflexivity).
  - destruct (status =? 200)%Z; cbn [negb];
      try (intros H; exfalso; apply H; reflexivity).
    destruct (flat_map review_of_post children) as [| r0 rs] eqn:Efound;
      [intros H; exfalso; apply H; reflexivity |].
    intros _.
    assert (Hlive : incl (PyStr.take max_results (sort_by_score (r0 :: rs))) (r0 :: rs)).
    { intros x Hx. apply sort_by_score_incl. exact (take_incl _ _ x Hx). }
    destruct (use_llm_refinement cfg).
    + destruct (PyStr.take max_results (sort_by_score (r0 :: rs))) as [| t0 ts] eqn:Et.
      * exists []. split; [reflexivity | intros x []].
      * match goal with
        | |- context [_refine_reviews_with_llm env cfg (t0 :: ts) place_name city ?w1] =>
            destruct (_refine_reviews_with_llm_never_raises cfg (t0 :: ts)
                        place_name city w1) as (l & w2 & Er); rewrite Er
        end.
        exists l. split; [reflexivity |].
        intros x Hx. apply Hlive.
        eapply _refine_reviews_with_llm_incl; eauto.
    + exists (PyStr.take max_results (sort_by_score (r0 :: rs))).
      split; [| exact Hlive].
      reflexivity.
Qed.

End WithEnv.

End ScraperProps.




(** A usable post is returned as a review, without placeholders. *)
Example search_place_reviews_one_post :
  fst (RedditScraper.search_place_reviews
         (Scenario.make_env Scenario.llm_down Scenario.reddit_one_post
            Scenario.provider_none)
         RedditScraper.default_config "Blue Tokai" "Delhi" 5 Scenario.empty_world)
  = inr (RedditScraper.review_of_post Scenario.long_post).
Proof. vm_compute. reflexivity. Qed.

(** On the live path every returned text has at most 1000 characters;
    a longer text can only be a placeholder. *)
Lemma search_place_reviews_content_cap (env : Env) (cfg : RedditScraper.Config)
    (place_name city : string) (max_results : Z) (w : World) l w' :
  RedditScraper.search_place_reviews env cfg place_name city max_results w
  = (inr l, w') ->
  forall r, In r l ->
    String.length (content r) <= 1000 \/
    In r (RedditScraper.mock_reviews place_name city).
Proof.
  intros Hrun r Hr.
  destruct (ScraperProps.search_place_reviews_origin env cfg place_name city
              max_results w l w' Hrun r Hr) as [Hlive | Hmock]; [left | right; exact Hmock].
  unfold RedditScraper.usable_reviews in Hlive.
  destruct (reddit_get env (trace w) _ max_results) as [e | status [e | [children |]]];
    try destruct Hlive.
  destruct (status =? 200)%Z; [| destruct Hlive].
  apply in_flat_map in Hlive. destruct Hlive as (p & _ & Hp).
  eapply ScraperProps.review_of_post_cap. exact Hp.
Qed.

(** The placeholders stay within 1000 characters as long as the place
    name and the city together have at most 842. *)
Lemma mock_reviews_cap (place_name city : string) (r : Review) :
  String.length place_name + String.length city <= 842 ->
  In r (RedditScraper.mock_reviews place_name city) ->
  String.length (content r) <= 1000.
Proof.
  intros Hlen [<- | [<- | [<- | []]]]; cbn [content];
    unfold RedditScraper.mock_content_1, RedditScraper.mock_content_2,
      RedditScraper.mock_content_3;
    repeat rewrite ScraperProps.length_append; simpl String.length; lia.
Qed.

(** C9.  Review content cap, on the placeholder path with a place name
    of 840 characters: Reddit is unreachable, the three placeholders are
    returned, and the text of the first has 1003 characters. *)
Theorem search_place_reviews_placeholder_exceeds_cap :
  let out := fst (RedditScraper.search_place_reviews Scenario.offline_env
                    RedditScraper.default_config Scenario.long_name "Delhi" 5
                    Scenario.empty_world) in
  out = inr (RedditScraper.mock_reviews Scenario.long_name "Delhi") /\
  map (fun r => String.length (content r))
      (RedditScraper.mock_reviews Scenario.long_name "Delhi")
  = [1003; 986; 979].
Proof. vm_compute. split; reflexivity. Qed.

(** ** Enrichment *)

Module EnrichProps.
Import LLMProcessor.

Lemma NoDup_take {A} (n : Z) (l : list A) : NoDup l -> NoDup (PyStr.take n l).
Proof.
  intros H. unfold PyStr.take.
  rewrite <- (firstn_skipn (PyStr.clip (length l) n) l) in H.
  apply NoDup_app_remove_r in H. exact H.
Qed.

Lemma take_all {A} (n : Z) (l : list A) :
  (Z.of_nat (length l) <= n)%Z -> PyStr.take n l = l.
Proof.
  intros H. unfold PyStr.take. rewrite clip_nonneg by lia.
  apply firstn_all2. lia.
Qed.






(** The rule-based result, as a JSON-valued enrichment, has two sized
    lists. *)
Lemma py_len_rule_based (r : RuleBased) :
  exists n m,
    py_len (e_vibe_tags (to_enrichment r)) = inr n /\
    py_len (e_emojis (to_enrichment r)) = inr m.
Proof. eexists; eexists; split; reflexivity. Qed.

Section WithEnv.
Variable env : Env.

(** A response that does not parse is answered with the rule-based
    result for the empty name and the empty category, after a single
    model call. *)
Lemma process_place_reviews_unparsable place_name place_category reviews w text :
  PyStr.strip (combined reviews) <> "" ->
  llm_complete env (trace w)
    (_create_processing_prompt place_name place_category (combined reviews))
    default_temperature = inr text ->
  parse_json_object env text = None ->
  process_place_reviews env place_name place_category reviews w
  = (inr (to_enrichment (_get_default_processing (set_order env) "" "")),
     {| trace := trace w ++
                 [LlmCall (_create_processing_prompt place_name place_category
                                                     (combined reviews))
                          default_temperature];
        places_coll := places_coll w;
        next_oid := next_oid w |}).
Proof.
  intros Hblank Hllm Hparse.
  unfold process_place_reviews.
  destruct (String.eqb_spec (PyStr.strip (combined reviews)) "") as [E | _];
    [contradiction |].
  unfold try_except, generate_content, bind, call, lift, _parse_llm_response.
  rewrite Hllm. unfold ret. rewrite Hparse. reflexivity.
Qed.


End WithEnv.

End EnrichProps.






(** Across set orders the summary and the emojis are the same, and the
    vibe tags are the same up to their order as long as no more than
    five distinct tags match. *)
Lemma default_processing_set_order (so so' : SetOrder)
    (place_name place_category : string) :
  let r := LLMProcessor._get_default_processing so place_name place_category in
  let r' := LLMProcessor._get_default_processing so' place_name place_category in
  LLMProcessor.rb_summary r = LLMProcessor.rb_summary r' /\
  LLMProcessor.rb_emojis r = LLMProcessor.rb_emojis r' /\
  (length (set_to_list so (LLMProcessor.collected_tags place_name place_category)) <= 5 ->
   Permutation (LLMProcessor.rb_vibe_tags r) (LLMProcessor.rb_vibe_tags r')).
Proof.
  cbn zeta. unfold LLMProcessor._get_default_processing.
  cbn [LLMProcessor.rb_summary LLMProcessor.rb_vibe_tags LLMProcessor.rb_emojis].
  split; [reflexivity |]. split; [reflexivity |].
  set (matches := LLMProcessor.collected_tags place_name place_category).
  intros Hfew.
  assert (Hperm : Permutation (set_to_list so matches) (set_to_list so' matches)).
  { apply NoDup_Permutation; try apply set_to_list_nodup.
    intros x. rewrite !set_to_list_elems. reflexivity. }
  pose proof (Permutation_length Hperm) as Hlen.
  rewrite !EnrichProps.take_all by lia. exact Hperm.
Qed.

(** The order of the vibe tags follows the set order. *)
Example default_processing_order_varies :
  LLMProcessor.rb_vibe_tags
    (LLMProcessor._get_default_processing Scenario.scan_order "Joe's" "bar")
  = ["nightlife"; "social"; "vibrant"] /\
  LLMProcessor.rb_vibe_tags
    (LLMProcessor._get_default_processing Scenario.reverse_order "Joe's" "bar")
  = ["vibrant"; "social"; "nightlife"].
Proof. split; reflexivity. Qed.

(** C5.  Parse failures, at a response without any JSON object: the
    single model call is not retried, and the result is the rule-based
    enrichment of the empty name and the empty category, which differs
    from the one of the place in its summary, tags and emojis. *)
Theorem process_place_reviews_parse_failure :
  let env := Scenario.make_env (Scenario.llm_says "Sorry, I cannot summarise this.")
               Scenario.reddit_down Scenario.provider_none in
  let reviews := [Scenario.review_with "Great coffee and a quiet corner to read."] in
  let out := LLMProcessor.process_place_reviews env "Blue Tokai Coffee" "cafe"
               reviews Scenario.empty_world in
  LLMProcessor.parse_json_object env "Sorry, I cannot summarise this." = None /\
  fst out = inr (LLMProcessor.to_enrichment
                   (LLMProcessor._get_default_processing Scenario.scan_order "" "")) /\
  trace (snd out)
  = [LlmCall (ProcessingPrompt "Blue Tokai Coffee" "cafe"
                "Great coffee and a quiet corner to read.")
             default_temperature] /\
  LLMProcessor._get_default_processing Scenario.scan_order "" ""
  = {| LLMProcessor.rb_summary :=
         "A  in the area.  offers a local experience with mixed reviews from visitors.";
       LLMProcessor.rb_vibe_tags := ["local"; "accessible"];
       LLMProcessor.rb_emojis := ["📍"; "🏪"] |} /\
  LLMProcessor._get_default_processing Scenario.scan_order "Blue Tokai Coffee" "cafe"
  = {| LLMProcessor.rb_summary :=
         "A cafe in the area. Blue Tokai Coffee offers a local experience with mixed reviews from visitors.";
       LLMProcessor.rb_vibe_tags := ["cozy"; "caffeinated"; "social"];
       LLMProcessor.rb_emojis := ["☕"; "🪑"] |}.
Proof. vm_compute. repeat split. Qed.

(** When the model call itself fails, the rule-based enrichment of the
    place is used. *)
Example process_place_reviews_llm_down :
  fst (LLMProcessor.process_place_reviews Scenario.offline_env "Blue Tokai Coffee" "cafe"
         [Scenario.review_with "Great coffee and a quiet corner to read."]
         Scenario.empty_world)
  = inr (LLMProcessor.to_enrichment
           (LLMProcessor._get_default_processing Scenario.scan_order
              "Blue Tokai Coffee" "cafe")).
Proof. vm_compute. reflexivity. Qed.

(** ** Intent classifier *)

Module IntentProps.
Import IntentClassifier.

Lemma string_of_rev_nonempty (c : ascii) (cur : list ascii) :
  string_of_list_ascii (rev (c :: cur)) <> "".
Proof.
  simpl. destruct (rev cur) as [| d r]; simpl; discriminate.
Qed.

(** [split()] never yields an empty word. *)
Lemma split_ws_from_nonempty (s : string) :
  forall cur, Forall (fun word => word <> "") (PyStr.split_ws_from s cur).
Proof.
  induction s as [| c r IH]; intros cur; simpl.
  - destruct cur as [| d cur']; [constructor |].
    constructor; [apply string_of_rev_nonempty | constructor].
  - destruct (PyStr.is_space c); [| apply IH].
    destruct cur as [| d cur']; [apply IH |].
    constructor; [apply string_of_rev_nonempty | apply IH].
Qed.

Lemma first_capitalized_total (words : list string) :
  Forall (fun word => word <> "") words ->
  forall i, exists o, first_capitalized i words = inr o.
Proof.
  induction 1 as [| word r Hword _ IH]; intros i; simpl.
  - eexists; reflexivity.
  - destruct word as [| c rest]; [contradiction |]. simpl.
    destruct (PyStr.is_upper c && (0 <? i)%nat); [eexists; reflexivity | apply IH].
Qed.

(** [_extract_place_name] never indexes an empty word. *)
Lemma _extract_place_name_total (query : string) :
  exists o, _extract_place_name query = inr o.
Proof.
  unfold _extract_place_name.
  destruct (3 <=? length (PyStr.split_ws query))%nat; [| eexists; reflexivity].
  apply first_capitalized_total. apply split_ws_from_nonempty.
Qed.

(** The keyword classifier is total, and what it returns is an intent
    classification. *)
Lemma _fallback_classification_total (user_query : string) :
  exists v, _fallback_classification user_query = inr v /\
            well_formed_intent v = true.
Proof.
  unfold _fallback_classification.
  destruct (PyStr.any_in simple_keywords (PyStr.lower user_query)).
  - eexists. split; reflexivity.
  - destruct (PyStr.any_in detail_keywords (PyStr.lower user_query)).
    + destruct (_extract_place_name_total user_query) as (o & ->).
      eexists. split; reflexivity.
    + eexists. split; reflexivity.
Qed.

End IntentProps.

(** C8.  [classify_intent] returns from every world, for every query
    and every behaviour of the model.  What it returns is either the
    JSON object parsed from the model's answer, exactly as it is, or the
    keyword classification of the query, which is an intent
    classification (tag, confidence, extracted fields); the latter
    whenever the model call or the parsing raises or the parsed value is
    not an object. *)
Theorem classify_intent_total (env : Env) (user_query : string) (w : World) :
  exists v w',
    IntentClassifier.classify_intent env user_query w = (inr v, w') /\
    ((exists fields,
         v = JObj fields /\
         generate_json env (IntentPrompt user_query) w = (inr v, w'))
     \/
     (IntentClassifier._fallback_classification user_query = inr v /\
      IntentClassifier.well_formed_intent v = true /\
      forall fields,
        generate_json env (IntentPrompt user_query) w <> (inr (JObj fields), w'))).
Proof.
  destruct (IntentProps._fallback_classification_total user_query) as (fb & Hfb & Hwf).
  unfold IntentClassifier.classify_intent, try_except, bind.
  destruct (generate_json env (IntentPrompt user_query) w) as [[e | response] w1] eqn:Eg.
  - rewrite Hfb. exists fb, w1. split; [reflexivity |]. right.
    repeat split; try assumption. intros fields H; discriminate.
  - destruct response as [| b | q | s | items | fields];
      try (rewrite Hfb; exists fb, w1; split; [reflexivity |]; right;
           repeat split; try assumption; intros fields H; discriminate).
    exists (JObj fields), w1. split; [reflexivity |]. left.
    exists fields. split; reflexivity.
Qed.

(** C8, as stated, fails where the model answers with the empty JSON
    object: [classify_intent] returns that object, which has no intent
    tag, no confidence and no extracted fields. *)
Lemma classify_intent_unvalidated_object :
  let env := Scenario.make_env (Scenario.llm_says "{}") Scenario.reddit_down
               Scenario.provider_none in
  fst (IntentClassifier.classify_intent env "coffee shops in Delhi"
         Scenario.empty_world) = inr (JObj []) /\
  IntentClassifier.well_formed_intent (JObj []) = false.
Proof. split; reflexivity. Qed.

(** A failing model call is absorbed by the keyword classifier. *)
Example classify_intent_llm_down :
  fst (IntentClassifier.classify_intent Scenario.offline_env
         "find a quiet park around pune" Scenario.empty_world)
  = inr (JObj [ ("intent", JStr "place_search");
                ("confidence", JNum (6 # 10)%Q);
                ("extracted_data",
                  JObj [ ("place_name", JNull); ("city", JStr "Pune");
                         ("category", JStr "park"); ("vibe_tags", JArr []);
                         ("search_terms",
                           jstrings ["find"; "a"; "quiet"; "park"; "around"; "pune"]) ]) ]).
Proof. vm_compute. reflexivity. Qed.

(** A parsed value that is not an object is absorbed too. *)
Example classify_intent_not_an_object :
  let env := Scenario.make_env (Scenario.llm_says "42") Scenario.reddit_down
               Scenario.provider_none in
  fst (IntentClassifier.classify_intent env "tell me about Starbucks"
         Scenario.empty_world)
  = IntentClassifier._fallback_classification "tell me about Starbucks".
Proof. vm_compute. reflexivity. Qed.

(** ** Cache-first fallback search *)

Module FallbackProps.
Import FallbackService.

Section WithEnv.
Variable env : Env.

(** The cache check on a working store whose engine accepts the
    category pattern: the matching places, and one [DbFind] event. *)
Lemma _search_existing_places_run city category vibe_tags w m :
  db_available env = true ->
  db_fault env (trace w) = None ->
  regex_i env category = Some m ->
  _search_existing_places env city category vibe_tags w
  = (inr (map stringify_id
            (filter (matches_query city m vibe_tags) (places_coll w))),
     {| trace := trace w ++ [DbFind city category vibe_tags];
        places_coll := places_coll w;
        next_oid := next_oid w |}).
Proof.
  intros Hdb Hfault Hre.
  unfold _search_existing_places, PlaceController.db_read, bind.
  rewrite Hdb. cbn [negb]. rewrite Hfault, Hre. reflexivity.
Qed.

(** In every branch that returns a result, its count is the length of
    its list of places. *)
Lemma count_consistent_body city category vibe_tags min_results w r w' :
  search_places_with_fallback env city category vibe_tags min_results w
  = (inr r, w') ->
  count r = len (result_places r).
Proof.
  unfold search_places_with_fallback, try_except, bind.
  destruct (_search_existing_places env city category vibe_tags w)
    as [[e | existing] w1]; [intros H; inversion H; reflexivity |].
  destruct (len existing >=? min_results)%Z;
    [intros H; inversion H; reflexivity |].
  destruct (_fetch_tomtom_places env city category _ w1)
    as [[e | tomtom_places] w2]; [intros H; inversion H; reflexivity |].
  destruct tomtom_places as [| p ps]; [intros H; inversion H; reflexivity |].
  destruct (RedditScraper.scrape_multiple_places env _ _ city w2)
    as [[e | reddit_reviews] w3]; [intros H; inversion H; reflexivity |].
  destruct (LLMProcessor.process_multiple_places env reddit_reviews city w3)
    as [[e | processed_data] w4]; [intros H; inversion H; reflexivity |].
  destruct (log_processed processed_data w4)
    as [[e | []] w5]; [intros H; inversion H; reflexivity |].
  destruct (_transform_and_store_places_with_llm env _ _ _ w5)
    as [[e | places_with_reviews] w6]; intros H; inversion H; reflexivity.
Qed.

(** The run of a cache hit: the result and the single store query. *)
Lemma cache_hit_run city category vibe_tags min_results w m :
  db_available env = true ->
  db_fault env (trace w) = None ->
  regex_i env category = Some m ->
  (min_results <=
   len (filter (matches_query city m vibe_tags) (places_coll w)))%Z ->
  search_places_with_fallback env city category vibe_tags min_results w
  = (inr {| success := true;
            result_source := Some "database";
            result_places :=
              map stringify_id
                  (filter (matches_query city m vibe_tags) (places_coll w));
            count := len (filter (matches_query city m vibe_tags) (places_coll w));
            fallback_used := Some false;
            error := None;
            tomtom_fetched := None;
            reddit_reviews_scraped := None;
            tripadvisor_reviews_scraped := None |},
     {| trace := trace w ++ [DbFind city category vibe_tags];
        places_coll := places_coll w;
        next_oid := next_oid w |}).
Proof.
  intros Hdb Hfault Hre Hcount.
  unfold search_places_with_fallback, try_except, bind.
  rewrite (_search_existing_places_run city category vibe_tags w m Hdb Hfault Hre).
  set (matched := filter (matches_query city m vibe_tags) (places_coll w)) in *.
  assert (Hlen : len (map stringify_id matched) = len matched).
  { unfold len. rewrite length_map. reflexivity. }
  rewrite Hlen.
  destruct (Z.geb_spec (len matched) min_results) as [_ | Hlt];
    [reflexivity | lia].
Qed.

Lemma search_places_with_fallback_never_raises city category vibe_tags min_results :
  never_raises (search_places_with_fallback env city category vibe_tags min_results).
Proof. apply never_raises_try. intros e. apply never_raises_ret. Qed.

End WithEnv.

End FallbackProps.

(** C1.  Cache-first short-circuit, with the category matched the way
    the store does it: when the store works, its engine compiles the
    category as a case-insensitive pattern [m], and the stored places
    whose city is equal, whose category matches [m] and which share a
    tag (when tags are given) number at least [min_results], then
    [search_places_with_fallback] returns success, source "database",
    [fallback_used] false and exactly those places (their [_id]
    rendered as a string), and the only event is the one store query:
    no provider, scraper, model or insert call. *)
Theorem cache_first_short_circuit (env : Env) (city category : string)
    (vibe_tags : list string) (min_results : Z) (w : World) (m : string -> bool) :
  db_available env = true ->
  db_fault env (trace w) = None ->
  regex_i env category = Some m ->
  (min_results <=
   FallbackService.len
     (filter (FallbackService.matches_query city m vibe_tags) (places_coll w)))%Z ->
  let matched :=
    filter (FallbackService.matches_query city m vibe_tags) (places_coll w) in
  FallbackService.search_places_with_fallback env city category vibe_tags
    min_results w
  = (inr {| FallbackService.success := true;
            FallbackService.result_source := Some "database";
            FallbackService.result_places := map FallbackService.stringify_id matched;
            FallbackService.count := FallbackService.len matched;
            FallbackService.fallback_used := Some false;
            FallbackService.error := None;
            FallbackService.tomtom_fetched := None;
            FallbackService.reddit_reviews_scraped := None;
            FallbackService.tripadvisor_reviews_scraped := None |},
     {| trace := trace w ++ [DbFind city category vibe_tags];
        places_coll := places_coll w;
        next_oid := next_oid w |}).
Proof.
  intros Hdb Hfault Hre Hcount matched.
  apply FallbackProps.cache_hit_run; assumption.
Qed.

Lemma cache_first_short_circuit_witness :
  FallbackService.search_places_with_fallback Scenario.offline_env "Delhi" "cafe"
    ["cozy"; "quiet"] 1 Scenario.two_places
  = (inr {| FallbackService.success := true;
            FallbackService.result_source := Some "database";
            FallbackService.result_places :=
              [FallbackService.stringify_id Scenario.cafe_bar_dot];
            FallbackService.count := 1;
            FallbackService.fallback_used := Some false;
            FallbackService.error := None;
            FallbackService.tomtom_fetched := None;
            FallbackService.reddit_reviews_scraped := None;
            FallbackService.tripadvisor_reviews_scraped := None |},
     {| trace := [DbFind "Delhi" "cafe" ["cozy"; "quiet"]];
        places_coll := [Scenario.cafe_bar_dot; Scenario.cafe_bar_space];
        next_oid := 2 |}).
Proof.
  apply (cache_first_short_circuit Scenario.offline_env "Delhi" "cafe"
           ["cozy"; "quiet"] 1 Scenario.two_places
           (fun subject =>
              Scenario.search_from (list_ascii_of_string "cafe")
                                   (list_ascii_of_string subject)));
    try reflexivity.
Defined.

(** C1, as stated, fails for a category with a pattern character: one
    stored place has the category as a substring, so the claimed match
    count reaches [min_results = 1]; the store matches the category as
    a pattern, in which the dot stands for any character, and the
    result holds a second place that is no substring match. *)
Lemma cache_hit_is_pattern_match_not_substring :
  let claimed := filter (Scenario.claimed_match "Delhi" "cafe.bar" [])
                        (places_coll Scenario.two_places) in
  let out := fst (FallbackService.search_places_with_fallback Scenario.offline_env
                    "Delhi" "cafe.bar" [] 1 Scenario.two_places) in
  claimed = [Scenario.cafe_bar_dot] /\
  (1 <= FallbackService.len claimed)%Z /\
  (exists r,
      out = inr r /\
      FallbackService.result_source r = Some "database" /\
      FallbackService.result_places r
      = map FallbackService.stringify_id [Scenario.cafe_bar_dot; Scenario.cafe_bar_space] /\
      FallbackService.result_places r <> map FallbackService.stringify_id claimed).
Proof.
  cbn zeta. split; [reflexivity |]. split; [vm_compute; discriminate |].
  eexists. split; [vm_compute; reflexivity |].
  split; [reflexivity |]. split; [reflexivity |]. discriminate.
Qed.

(** C10.  Count consistency: [search_places_with_fallback] returns a
    result from every world, and in each of its branches (database hit,
    database only, database and provider, error) the count of the
    result is the length of its list of places. *)
Theorem count_is_number_of_places (env : Env) (city category : string)
    (vibe_tags : list string) (min_results : Z) (w : World) :
  exists r w',
    FallbackService.search_places_with_fallback env city category vibe_tags
      min_results w = (inr r, w') /\
    FallbackService.count r = FallbackService.len (FallbackService.result_places r).
Proof.
  destruct (FallbackProps.search_places_with_fallback_never_raises env city category
              vibe_tags min_results w) as (r & w' & Hrun).
  exists r, w'. split; [exact Hrun |].
  eapply FallbackProps.count_consistent_body. exact Hrun.
Qed.

(** For a category the engine treats as plain text, the cache hit is
    exactly the set of substring matches. *)
Lemma literal_category_cache_hit (env : Env) (city category : string)
    (vibe_tags : list string) (min_results : Z) (w : World) (m : string -> bool) :
  db_available env = true ->
  db_fault env (trace w) = None ->
  regex_i env category = Some m ->
  (forall subject, m subject = Scenario.ci_substring category subject) ->
  (min_results <=
   FallbackService.len
     (filter (Scenario.claimed_match city category vibe_tags) (places_coll w)))%Z ->
  exists r,
    FallbackService.search_places_with_fallback env city category vibe_tags
      min_results w
    = (inr r, {| trace := trace w ++ [DbFind city category vibe_tags];
                 places_coll := places_coll w;
                 next_oid := next_oid w |}) /\
    FallbackService.success r = true /\
    FallbackService.result_source r = Some "database" /\
    FallbackService.fallback_used r = Some false /\
    FallbackService.result_places r
    = map FallbackService.stringify_id
        (filter (Scenario.claimed_match city category vibe_tags) (places_coll w)).
Proof.
  intros Hdb Hfault Hre Hlit Hcount.
  assert (Hsame : filter (FallbackService.matches_query city m vibe_tags) (places_coll w)
                  = filter (Scenario.claimed_match city category vibe_tags)
                           (places_coll w)).
  { apply filter_ext. intros d.
    unfold Scenario.claimed_match, FallbackService.matches_query.
    destruct (Core.category (original d)); [rewrite Hlit |]; reflexivity. }
  eexists. split.
  - apply (FallbackProps.cache_hit_run env city category vibe_tags min_results w m);
      try assumption.
    rewrite Hsame. exact Hcount.
  - cbn. rewrite Hsame. repeat split.
Qed.

(** The pattern engine of the scenarios reads a category without a dot
    and without operators as plain text. *)
Lemma match_here_literal (p s : string) :
  existsb (Ascii.eqb "."%char) (list_ascii_of_string p) = false ->
  Scenario.match_here (list_ascii_of_string p) (list_ascii_of_string s)
  = String.prefix (PyStr.lower p) (PyStr.lower s).
Proof.
  revert s. induction p as [| c p IH]; intros s Hdot; [destruct s; reflexivity |].
  cbn [list_ascii_of_string existsb] in Hdot.
  apply orb_false_iff in Hdot. destruct Hdot as [Hc Hp].
  destruct s as [| d s]; [reflexivity |].
  unfold PyStr.lower in *.
  cbn [list_ascii_of_string Scenario.match_here PyStr.map_chars String.prefix].
  rewrite Ascii.eqb_sym in Hc. rewrite Hc, (IH s Hp).
  destruct (Ascii.eqb_spec (PyStr.lower_char c) (PyStr.lower_char d)) as [E | Hne];
    destruct (ascii_dec (PyStr.lower_char c) (PyStr.lower_char d));
    try contradiction; reflexivity.
Qed.

Lemma dot_regex_literal (p : string) :
  existsb Scenario.is_operator (list_ascii_of_string p) = false ->
  existsb (Ascii.eqb "."%char) (list_ascii_of_string p) = false ->
  exists m, Scenario.dot_regex p = Some m /\
            forall s, m s = Scenario.ci_substring p s.
Proof.
  intros Hop Hdot. unfold Scenario.dot_regex. rewrite Hop.
  eexists. split; [reflexivity |].
  intros s. unfold Scenario.ci_substring.
  induction s as [| d s IH].
  - pose proof (match_here_literal p "" Hdot) as H0.
    cbn [list_ascii_of_string] in H0.
    cbn [list_ascii_of_string Scenario.search_from]. rewrite H0. reflexivity.
  - pose proof (match_here_literal p (String d s) Hdot) as H0.
    cbn [list_ascii_of_string] in H0.
    cbn [list_ascii_of_string Scenario.search_from]. rewrite H0, IH.
    unfold PyStr.lower. cbn [PyStr.map_chars PyStr.contains]. reflexivity.
Qed.

(** The other branches of the search, on concrete worlds. *)
Example search_database_only :
  let out := FallbackService.search_places_with_fallback Scenario.offline_env
               "Delhi" "cafe" [] 3 Scenario.two_places in
  option_map FallbackService.result_source
    (match fst out with inr r => Some r | inl _ => None end)
  = Some (Some "database_only") /\
  trace (snd out) = [DbFind "Delhi" "cafe" []; ProviderSearch "cafe coffee" "Delhi" 1].
Proof. vm_compute. split; reflexivity. Qed.

Example search_database_and_tomtom :
  let env := Scenario.make_env Scenario.llm_down Scenario.reddit_down
               Scenario.provider_one in
  let out := FallbackService.search_places_with_fallback env "Delhi" "cafe" [] 3
               Scenario.two_places in
  match fst out with
  | inr r =>
      FallbackService.result_source r = Some "database_and_tomtom" /\
      FallbackService.count r = 3%Z /\
      FallbackService.fallback_used r = Some true /\
      FallbackService.tomtom_fetched r = Some 1%Z
  | inl _ => False
  end /\
  length (places_coll (snd out)) = 3.
Proof. vm_compute. repeat split. Qed.

(** A category the store rejects as a pattern ends in the error branch. *)
Example search_rejected_pattern :
  fst (FallbackService.search_places_with_fallback Scenario.offline_env
         "Delhi" "cafe(" [] 0 Scenario.two_places)
  = inr {| FallbackService.success := false;
           FallbackService.result_source := None;
           FallbackService.result_places := [];
           FallbackService.count := 0;
           FallbackService.fallback_used := None;
           FallbackService.error := Some "Regular expression is invalid";
           FallbackService.tomtom_fetched := None;
           FallbackService.reddit_reviews_scraped := None;
           FallbackService.tripadvisor_reviews_scraped := None |}.
Proof. vm_compute. reflexivity. Qed.

(** * Further properties *)

(** ** Review relevance refiner: batches, duplicates, origin *)

Module RefinerFacts.
Import ReviewRefiner.

Lemma existsb_eqb_in (x : string) (seen : list string) :
  existsb (String.eqb x) seen = true <-> In x seen.
Proof.
  rewrite existsb_exists. split.
  - intros (y & Hy & E). apply String.eqb_eq in E. subst. exact Hy.
  - intros H. exists x. split; [exact H | apply String.eqb_refl].
Qed.

Lemma unique_from_in (l : list string) :
  forall seen x, In x (PyStr.unique_from seen l) <-> In x l /\ ~ In x seen.
Proof.
  induction l as [| y r IH]; intros seen x; simpl.
  - tauto.
  - destruct (existsb (String.eqb y) seen) eqn:E.
    + apply existsb_eqb_in in E. rewrite IH. split.
      * intros [H1 H2]. auto.
      * intros [[-> | H1] H2]; [contradiction | auto].
    + assert (Hy : ~ In y seen).
      { intros H. apply existsb_eqb_in in H. congruence. }
      simpl. rewrite IH. simpl. split.
      * intros [<- | [H1 H2]]; [auto |]. split; [auto | tauto].
      * intros [[<- | H1] H2]; [auto |].
        destruct (string_dec y x) as [-> | Hne]; [auto |]. right. tauto.
Qed.

Lemma unique_from_nodup (l : list string) :
  forall seen, NoDup (PyStr.unique_from seen l).
Proof.
  induction l as [| y r IH]; intros seen; simpl; [constructor |].
  destruct (existsb (String.eqb y) seen); [apply IH |].
  constructor; [| apply IH].
  rewrite unique_from_in. simpl. tauto.
Qed.

Lemma unique_in (l : list string) (x : string) : In x (PyStr.unique l) <-> In x l.
Proof. unfold PyStr.unique. rewrite unique_from_in. simpl. tauto. Qed.

Lemma unique_nodup (l : list string) : NoDup (PyStr.unique l).
Proof. apply unique_from_nodup. Qed.

Lemma pick_incl (batch : list string) (indices : list nat) :
  incl (pick batch indices) batch.
Proof.
  intros x Hx. unfold pick in Hx. apply in_flat_map in Hx.
  destruct Hx as (idx & _ & Hx).
  destruct (nth_error batch idx) as [r |] eqn:E; [| destruct Hx].
  destruct Hx as [<- | []]. eapply nth_error_In. exact E.
Qed.

(** Cutting into batches loses nothing and repeats nothing, and every
    batch has between one and fifteen reviews. *)
Lemma batches_fuel_spec (fuel : nat) :
  forall reviews, length reviews <= fuel ->
    concat (batches_fuel fuel reviews) = reviews /\
    Forall (fun b => 1 <= length b <= batch_size) (batches_fuel fuel reviews).
Proof.
  induction fuel as [| fuel IH]; intros reviews Hlen.
  - destruct reviews; [split; [reflexivity | constructor] | simpl in Hlen; lia].
  - destruct reviews as [| x r]; [split; [reflexivity | constructor] |].
    cbn [batches_fuel].
    destruct (IH (skipn batch_size (x :: r))) as [Hc Hf].
    { rewrite length_skipn. unfold batch_size. simpl length in *. lia. }
    split.
    + cbn [concat]. rewrite Hc. apply firstn_skipn.
    + constructor; [| exact Hf].
      rewrite length_firstn. unfold batch_size. simpl length. lia.
Qed.

Lemma batches_incl (reviews b : list string) :
  In b (batches reviews) -> incl b reviews.
Proof.
  intros Hb x Hx.
  destruct (batches_fuel_spec (length reviews) reviews (le_n _)) as [Hc _].
  fold (batches reviews) in Hc. rewrite <- Hc.
  apply in_concat. exists b. auto.
Qed.

Section WithEnv.
Variable env : Env.

(** One batch: one model call, and the reviews kept are reviews of the
    batch. *)
Lemma filter_batch_run place_name place_type batch w r w' :
  filter_batch env place_name place_type batch w = (r, w') ->
  exists l,
    r = inr l /\ incl l batch /\
    (forall e, llm_complete env (trace w)
                 (_build_batch_prompt batch place_name place_type)
                 default_temperature = inl e -> l = batch) /\
    w' = {| trace := trace w ++
                     [LlmCall (_build_batch_prompt batch place_name place_type)
                              default_temperature];
            places_coll := places_coll w;
            next_oid := next_oid w |}.
Proof.
  unfold filter_batch, try_except, generate_content, bind, call, lift, raise, ret.
  destruct (llm_complete env (trace w) _ default_temperature) as [e | text];
    intros H; inversion H; subst.
  - exists batch. split; [reflexivity |]. split; [apply incl_refl |].
    split; [reflexivity | reflexivity].
  - eexists. split; [reflexivity |]. split; [apply pick_incl |].
    split; [intros e He; discriminate | reflexivity].
Qed.

Lemma filter_batches_run place_name place_type (bs : list (list string)) :
  forall acc w r w',
    fold_m bs (fun acc batch =>
                 r <- filter_batch env place_name place_type batch ;;
                 ret (acc ++ r)) acc w = (r, w') ->
    exists kept,
      r = inr (acc ++ kept) /\ incl kept (concat bs) /\
      ((forall h p t, exists e, llm_complete env h p t = inl e) -> kept = concat bs) /\
      trace w' = trace w ++ batch_calls place_name place_type bs /\
      places_coll w' = places_coll w /\ next_oid w' = next_oid w.
Proof.
  induction bs as [| b rest IH]; intros acc w r w' Hrun.
  - simpl in Hrun. inversion Hrun; subst. exists []. rewrite !app_nil_r.
    repeat split; auto. intros x [].
  - cbn [fold_m] in Hrun. unfold bind at 1 2 in Hrun.
    destruct (filter_batch env place_name place_type b w) as [r1 w1] eqn:Eb.
    destruct (filter_batch_run _ _ _ _ _ _ Eb) as (l & -> & Hl & Hfail & ->).
    unfold ret at 1 in Hrun.
    destruct (IH _ _ _ _ Hrun) as (kept & -> & Hk & Hall & Ht & Hc & Hn).
    exists (l ++ kept). rewrite app_assoc. split; [reflexivity |].
    cbn [trace places_coll next_oid] in Ht, Hc, Hn.
    split; [| split; [| split; [| split]]].
    + cbn [concat]. intros x Hx. apply in_app_or in Hx. apply in_or_app.
      destruct Hx as [Hx | Hx]; [left; apply Hl | right; apply Hk]; exact Hx.
    + intros Hdown. cbn [concat]. rewrite (Hall Hdown).
      destruct (Hdown (trace w) (_build_batch_prompt b place_name place_type)
                      default_temperature) as (e & He).
      rewrite (Hfail e He). reflexivity.
    + rewrite Ht. unfold batch_calls. cbn [map]. rewrite <- app_assoc. reflexivity.
    + exact Hc.
    + exact Hn.
Qed.

(** The batch filter as a whole. *)
Lemma filter_relevant_reviews_batched_run reviews place_name place_type w r w' :
  filter_relevant_reviews_batched env reviews place_name place_type w = (r, w') ->
  exists l,
    r = inr l /\ NoDup l /\ incl l reviews /\
    ((forall h p t, exists e, llm_complete env h p t = inl e) ->
     l = PyStr.unique reviews) /\
    trace w' = trace w ++ batch_calls place_name place_type (batches reviews) /\
    places_coll w' = places_coll w /\ next_oid w' = next_oid w.
Proof.
  unfold filter_relevant_reviews_batched.
  destruct reviews as [| x rs].
  - intros H; inversion H; subst. exists []. rewrite app_nil_r.
    repeat split; auto; [constructor | intros y []].
  - set (reviews := x :: rs). unfold bind.
    destruct (fold_m (batches reviews) _ [] w) as [r1 w1] eqn:Ef.
    destruct (filter_batches_run _ _ _ _ _ _ _ Ef)
      as (kept & -> & Hk & Hall & Ht & Hc & Hn).
    destruct (batches_fuel_spec (length reviews) reviews (le_n _)) as [Hcat _].
    fold (batches reviews) in Hcat. rewrite Hcat in Hk, Hall.
    intros H; inversion H; subst. eexists. split; [reflexivity |].
    split; [apply unique_nodup |]. split.
    + intros y Hy. apply (proj1 (unique_in _ _)) in Hy. apply Hk. exact Hy.
    + split; [| auto]. intros Hdown. rewrite (Hall Hdown). reflexivity.
Qed.

(** What the loop of the refiner keeps true of the reviews it holds:
    no duplicates, and any property of the initial and the fetched texts. *)
Lemma refine_loop_keeps (P : string -> Prop) cfg place_name place_type fetch_more :
  (forall fetch w l w',
      fetch_more = Some fetch -> fetch w = (inr l, w') ->
      Forall P (map Core.content l)) ->
  forall fuel iteration current relevant w r w',
    Forall P current -> Forall P relevant -> NoDup relevant ->
    refine_loop env fuel cfg place_name place_type fetch_more
                iteration current relevant w = (r, w') ->
    match r with
    | inr (Some (_, _, l)) => NoDup l /\ Forall P l
    | inr None => True
    | inl _ => False
    end.
Proof.
  intros Hfetch. induction fuel as [| fuel IH];
    intros iteration current relevant w r w' Hcur Hrel Hnd; simpl.
  - intros H; inversion H; subst. exact I.
  - destruct (iteration <? max_iterations cfg)%Z;
      [| intros H; inversion H; subst; auto].
    unfold bind at 1.
    destruct (filter_relevant_reviews_batched env current place_name place_type w)
      as [r1 w1] eqn:Ef.
    destruct (filter_relevant_reviews_batched_run _ _ _ _ _ _ Ef)
      as (found & -> & _ & Hfound & _).
    set (acc := PyStr.unique (relevant ++ found)).
    assert (HaccP : Forall P acc).
    { apply Forall_forall. intros x Hx. apply (proj1 (unique_in _ _)) in Hx.
      apply in_app_or in Hx. destruct Hx as [Hx | Hx].
      - eapply Forall_forall in Hrel; eauto.
      - eapply Forall_forall in Hcur; eauto. }
    assert (HaccN : NoDup acc) by apply unique_nodup.
    destruct (_ >=? _)%Z.
    + intros H; inversion H; subst. split.
      * apply EnrichProps.NoDup_take. exact HaccN.
      * apply Forall_forall. intros x Hx.
        eapply Forall_forall in HaccP; [exact HaccP |].
        exact (take_incl _ _ x Hx).
    + destruct fetch_more as [fetch |];
        [| intros H; inversion H; subst; auto].
      destruct (iteration <? max_iterations cfg - 1)%Z;
        [| intros H; inversion H; subst; auto].
      unfold bind at 1, try_except, bind at 1.
      destruct (fetch w1) as [[e | new_reviews] w2] eqn:Efetch; cbn [ret].
      * intros H; inversion H; subst; auto.
      * destruct new_reviews as [| n ns];
          [intros H; inversion H; subst; auto |].
        apply IH; try assumption.
        eapply Hfetch; eauto.
Qed.

Lemma refine_reviews_with_llm_nodup cfg initial_reviews place_name place_type
    fetch_more w :
  exists l w',
    refine_reviews_with_llm env cfg initial_reviews place_name place_type
      fetch_more w = (inr l, w') /\
    NoDup l.
Proof.
  unfold refine_reviews_with_llm, refine_outcome, bind.
  destruct (refine_loop env (loop_fuel cfg) cfg place_name place_type fetch_more
              0 initial_reviews [] w) as [r w'] eqn:E.
  pose proof (refine_loop_keeps (fun _ => True) cfg place_name place_type fetch_more)
    as Hkeep.
  eapply Hkeep in E.
  - destruct r as [e | [[[stop it] l] |]]; [destruct E | |].
    + exists l, w'. split; [reflexivity | apply E].
    + exists [], w'. split; [reflexivity | constructor].
  - intros. apply Forall_forall. auto.
  - apply Forall_forall. auto.
  - constructor.
  - constructor.
Qed.

Lemma refine_reviews_with_llm_keeps (P : string -> Prop) cfg initial_reviews
    place_name place_type fetch_more w l w' :
  Forall P initial_reviews ->
  (forall fetch w0 fetched w1,
      fetch_more = Some fetch -> fetch w0 = (inr fetched, w1) ->
      Forall P (map content fetched)) ->
  refine_reviews_with_llm env cfg initial_reviews place_name place_type
    fetch_more w = (inr l, w') ->
  Forall P l.
Proof.
  intros Hinit Hfetch.
  unfold refine_reviews_with_llm, refine_outcome, bind.
  destruct (refine_loop env (loop_fuel cfg) cfg place_name place_type fetch_more
              0 initial_reviews [] w) as [r w1] eqn:E.
  eapply (refine_loop_keeps P) in E;
    [| exact Hfetch | exact Hinit | constructor | constructor].
  destruct r as [e | [[[stop it] l0] |]]; [destruct E | |];
    intros H; inversion H; subst; [apply E | constructor].
Qed.

End WithEnv.

End RefinerFacts.

(** Batching loses no review, repeats none, and never makes a batch of
    more than fifteen or of none. *)
Theorem batches_partition (reviews : list string) :
  concat (ReviewRefiner.batches reviews) = reviews /\
  Forall (fun b => 1 <= length b <= 15) (ReviewRefiner.batches reviews).
Proof.
  apply (RefinerFacts.batches_fuel_spec (length reviews) reviews). apply le_n.
Qed.

(** The batch filter calls the model once per batch, in order, and does
    nothing else to the world; it returns reviews of its input, each
    once. *)
Theorem one_model_call_per_batch (env : Env) (reviews : list string)
    (place_name place_type : string) (w : World) :
  exists l w',
    ReviewRefiner.filter_relevant_reviews_batched env reviews place_name place_type w
    = (inr l, w') /\
    NoDup l /\ incl l reviews /\
    trace w' = trace w ++
               map (fun b => LlmCall (ReviewRefiner._build_batch_prompt b place_name
                                                                         place_type)
                                     default_temperature)
                   (ReviewRefiner.batches reviews) /\
    places_coll w' = places_coll w /\ next_oid w' = next_oid w.
Proof.
  destruct (ReviewRefiner.filter_relevant_reviews_batched env reviews place_name
              place_type w) as [r w'] eqn:E.
  destruct (RefinerFacts.filter_relevant_reviews_batched_run env _ _ _ _ _ _ E)
    as (l & -> & Hnd & Hin & _ & Ht & Hc & Hn).
  exists l, w'. repeat split; assumption.
Qed.

(** When every model call fails, no review is dropped: the batch filter
    returns all of them, duplicates removed, in their order. *)
Theorem failed_batches_are_kept (env : Env) (reviews : list string)
    (place_name place_type : string) (w : World) :
  (forall h p t, exists e, llm_complete env h p t = inl e) ->
  fst (ReviewRefiner.filter_relevant_reviews_batched env reviews place_name
         place_type w)
  = inr (PyStr.unique reviews).
Proof.
  intros Hdown.
  destruct (ReviewRefiner.filter_relevant_reviews_batched env reviews place_name
              place_type w) as [r w'] eqn:E.
  destruct (RefinerFacts.filter_relevant_reviews_batched_run env _ _ _ _ _ _ E)
    as (l & -> & _ & _ & Hall & _).
  rewrite (Hall Hdown). reflexivity.
Qed.

Lemma failed_batches_are_kept_witness :
  fst (ReviewRefiner.filter_relevant_reviews_batched Scenario.offline_env
         ["a"; "b"; "a"; "c"] "Blue Tokai" "cafe" Scenario.empty_world)
  = inr ["a"; "b"; "c"].
Proof.
  apply (failed_batches_are_kept Scenario.offline_env ["a"; "b"; "a"; "c"]
           "Blue Tokai" "cafe" Scenario.empty_world).
  intros h p t. exists "OpenRouter API error: 503". reflexivity.
Defined.

(** The refiner never returns the same review twice. *)
Theorem refined_reviews_are_distinct (env : Env) (cfg : ReviewRefiner.Config)
    (initial_reviews : list string) (place_name place_type : string)
    (fetch_more : option (M (list Review))) (w : World) :
  exists l w',
    ReviewRefiner.refine_reviews_with_llm env cfg initial_reviews place_name
      place_type fetch_more w = (inr l, w') /\
    NoDup l.
Proof. apply RefinerFacts.refine_reviews_with_llm_nodup. Qed.

(** The refiner only filters: whatever holds of every initial review
    text and of every text the fetch function can return holds of every
    review it returns. *)
Theorem refiner_never_fabricates (env : Env) (cfg : ReviewRefiner.Config)
    (initial_reviews : list string) (place_name place_type : string)
    (fetch_more : option (M (list Review))) (w : World)
    (P : string -> Prop) l w' :
  Forall P initial_reviews ->
  (forall fetch w0 fetched w1,
      fetch_more = Some fetch -> fetch w0 = (inr fetched, w1) ->
      Forall P (map content fetched)) ->
  ReviewRefiner.refine_reviews_with_llm env cfg initial_reviews place_name
    place_type fetch_more w = (inr l, w') ->
  Forall P l.
Proof. apply RefinerFacts.refine_reviews_with_llm_keeps. Qed.

Lemma refiner_never_fabricates_witness :
  Forall (fun s => In s ["a"; "b"; "c"; "d"; "e"; "f"; "g"; "h"; "i"; "j"])
         ["a"; "c"; "f"].
Proof.
  apply (refiner_never_fabricates Scenario.refiner_env Scenario.refiner_cfg
           ["a"; "b"; "c"; "d"; "e"] "Blue Tokai" "cafe" (Some Scenario.five_more)
           Scenario.empty_world
           (fun s => In s ["a"; "b"; "c"; "d"; "e"; "f"; "g"; "h"; "i"; "j"])
           ["a"; "c"; "f"]
           (snd (ReviewRefiner.refine_reviews_with_llm Scenario.refiner_env
                   Scenario.refiner_cfg ["a"; "b"; "c"; "d"; "e"] "Blue Tokai" "cafe"
                   (Some Scenario.five_more) Scenario.empty_world))).
  - repeat constructor; simpl; tauto.
  - intros fetch w0 fetched w1 Hf Hrun. inversion Hf; subst.
    inversion Hrun; subst. repeat constructor; simpl; tauto.
  - vm_compute. reflexivity.
Defined.

(** ** Reddit scraper: bounds, order, keys *)

Module ScraperFacts.
Import RedditScraper.

Lemma insert_by_score_sorted (r : Review) (l : list Review) :
  StronglySorted (fun a b => (score b <= score a)%Z) l ->
  StronglySorted (fun a b => (score b <= score a)%Z) (insert_by_score r l).
Proof.
  induction 1 as [| x rest Hs IH Hx]; simpl.
  - constructor; constructor.
  - destruct (Z.ltb_spec (score r) (score x)).
    + constructor; [exact IH |].
      apply Forall_forall. intros y Hy.
      apply ScraperProps.insert_by_score_in in Hy. destruct Hy as [-> | Hy]; [lia |].
      eapply Forall_forall in Hx; eauto.
    + constructor; [constructor; assumption |].
      constructor; [lia |].
      eapply Forall_impl; [| exact Hx]. intros y Hy. simpl in Hy. lia.
Qed.

Lemma sort_by_score_sorted (l : list Review) :
  StronglySorted (fun a b => (score b <= score a)%Z) (sort_by_score l).
Proof.
  unfold sort_by_score. induction l as [| r rest IH]; simpl.
  - constructor.
  - apply insert_by_score_sorted. exact IH.
Qed.

Lemma firstn_sorted {A} (R : A -> A -> Prop) (n : nat) (l : list A) :
  StronglySorted R l -> StronglySorted R (firstn n l).
Proof.
  intros H. revert n. induction H as [| x rest Hs IH Hx]; intros n.
  - rewrite firstn_nil. constructor.
  - destruct n as [| n]; simpl; [constructor |].
    constructor; [apply IH |].
    apply Forall_forall. intros y Hy.
    eapply Forall_forall in Hx; [exact Hx |].
    rewrite <- (firstn_skipn n rest). apply in_or_app. left. exact Hy.
Qed.

Lemma take_sorted {A} (R : A -> A -> Prop) (n : Z) (l : list A) :
  StronglySorted R l -> StronglySorted R (PyStr.take n l).
Proof. apply firstn_sorted. Qed.

Lemma flat_map_find_length (reviews : list Review) (cs : list string) :
  length (flat_map
            (fun c => match find (fun r => String.eqb (content r) c) reviews with
                      | Some r => [r]
                      | None => []
                      end) cs) <= length cs.
Proof.
  induction cs as [| c rest IH]; simpl; [lia |].
  rewrite length_app. destruct (find _ reviews); simpl; lia.
Qed.

Section WithEnv.
Variable env : Env.

(** The refinement step returns no more reviews than it was given. *)
Lemma _refine_reviews_with_llm_length cfg reviews place_name city w l w' :
  _refine_reviews_with_llm env cfg reviews place_name city w = (inr l, w') ->
  length l <= length reviews.
Proof.
  unfold _refine_reviews_with_llm.
  destruct (use_llm_refinement cfg); cbn [negb];
    [| intros H; inversion H; subst; lia].
  unfold bind.
  destruct (ReviewRefiner.refine_reviews_with_llm env (refiner cfg)
              (map content reviews) place_name "place" (Some fetch_more_call) w)
    as [[e | cs] w1] eqn:Er; intros H; inversion H; subst.
  pose proof (flat_map_find_length reviews cs) as Hlen.
  assert (Hcs : length cs <= length (map content reviews)).
  { apply NoDup_incl_length.
    - destruct (RefinerFacts.refine_reviews_with_llm_nodup env (refiner cfg)
                  (map content reviews) place_name "place"
                  (Some fetch_more_call) w) as (l0 & w0 & E0 & Hnd).
      rewrite Er in E0. inversion E0; subst. exact Hnd.
    - intros x Hx.
      assert (HP : Forall (fun s => In s (map content reviews)) cs).
      { eapply (RefinerFacts.refine_reviews_with_llm_keeps env
                  (fun s => In s (map content reviews)) (refiner cfg)
                  (map content reviews) place_name "place" (Some fetch_more_call) w);
          [| | exact Er].
        - apply Forall_forall. auto.
        - intros fetch w0 fetched w2 Hf Hrun. inversion Hf; subst.
          unfold fetch_more_call, raise in Hrun. discriminate. }
      eapply Forall_forall in HP; eauto. }
  rewrite length_map in Hcs. lia.
Qed.

End WithEnv.

End ScraperFacts.

Lemma search_place_reviews_length_bound (env : Env)
    (cfg : RedditScraper.Config) (place_name city : string) (max_results : Z)
    (w : World) l w' :
  (0 <= max_results)%Z ->
  RedditScraper.search_place_reviews env cfg place_name city max_results w
  = (inr l, w') ->
  (Z.of_nat (length l) <= max_results)%Z.
Proof.
  intros Hmax.
  assert (Hmock : (Z.of_nat (length (RedditScraper._get_mock_reviews place_name city
                                       max_results)) <= max_results)%Z).
  { apply take_length_le. exact Hmax. }
  unfold RedditScraper.search_place_reviews, try_except, bind, call, lift, raise, ret.
  destruct (reddit_get env (trace w) _ max_results) as [e | status body].
  - intros H; inversion H; subst. exact Hmock.
  - destruct (status =? 200)%Z; cbn [negb];
      [| intros H; inversion H; subst; exact Hmock].
    destruct body as [e | data]; [intros H; inversion H; subst; exact Hmock |].
    destruct (match data with
              | Some children => flat_map RedditScraper.review_of_post children
              | None => []
              end) as [| r0 rs]; [intros H; inversion H; subst; exact Hmock |].
    pose proof (take_length_le max_results
                  (RedditScraper.sort_by_score (r0 :: rs)) Hmax) as Hlive.
    destruct (RedditScraper.use_llm_refinement cfg).
    + destruct (PyStr.take max_results (RedditScraper.sort_by_score (r0 :: rs)))
        as [| t0 ts] eqn:Et.
      * intros H; inversion H; subst. simpl. lia.
      * destruct (RedditScraper._refine_reviews_with_llm env cfg (t0 :: ts)
                    place_name city _) as [[e | l'] w1] eqn:Er;
          intros H; inversion H; subst; [exact Hmock |].
        apply ScraperFacts._refine_reviews_with_llm_length in Er. lia.
    + intros H.
      assert (Hl : l = PyStr.take max_results (RedditScraper.sort_by_score (r0 :: rs))).
      { destruct (PyStr.take max_results (RedditScraper.sort_by_score (r0 :: rs)));
          inversion H; reflexivity. }
      subst l. exact Hlive.
Qed.

(** For a non-negative [max_results], [search_place_reviews] returns at
    most that many reviews, with or without refinement, live or
    placeholder. *)
Theorem search_place_reviews_at_most_max_results (env : Env)
    (cfg : RedditScraper.Config) (place_name city : string) (max_results : Z)
    (w : World) l w' :
  (0 <= max_results)%Z ->
  RedditScraper.search_place_reviews env cfg place_name city max_results w
  = (inr l, w') ->
  (Z.of_nat (length l) <= max_results)%Z.
Proof. apply search_place_reviews_length_bound. Qed.

Lemma search_place_reviews_at_most_max_results_witness :
  (Z.of_nat (length (RedditScraper._get_mock_reviews "Blue Tokai" "Delhi" 2)) <= 2)%Z.
Proof.
  apply (search_place_reviews_at_most_max_results Scenario.offline_env
           RedditScraper.default_config "Blue Tokai" "Delhi" 2 Scenario.empty_world
           (RedditScraper._get_mock_reviews "Blue Tokai" "Delhi" 2)
           (snd (RedditScraper.search_place_reviews Scenario.offline_env
                   RedditScraper.default_config "Blue Tokai" "Delhi" 2
                   Scenario.empty_world))).
  - lia.
  - reflexivity.
Defined.

(** Without refinement, what [search_place_reviews] returns is ordered
    by score, highest first. *)
Theorem unrefined_reviews_sorted_by_score (env : Env) (cfg : RedditScraper.Config)
    (place_name city : string) (max_results : Z) (w : World) l w' :
  RedditScraper.use_llm_refinement cfg = false ->
  RedditScraper.search_place_reviews env cfg place_name city max_results w
  = (inr l, w') ->
  StronglySorted (fun a b => (score b <= score a)%Z) l.
Proof.
  intros Hoff.
  assert (Hmock : StronglySorted (fun a b => (score b <= score a)%Z)
                    (RedditScraper._get_mock_reviews place_name city max_results)).
  { apply ScraperFacts.take_sorted. unfold RedditScraper.mock_reviews.
    repeat (constructor; [| repeat constructor; simpl; lia]). constructor. }
  unfold RedditScraper.search_place_reviews, try_except, bind, call, lift, raise, ret.
  rewrite Hoff.
  destruct (reddit_get env (trace w) _ max_results) as [e | status body].
  - intros H; inversion H; subst. exact Hmock.
  - destruct (status =? 200)%Z; cbn [negb];
      [| intros H; inversion H; subst; exact Hmock].
    destruct body as [e | data]; [intros H; inversion H; subst; exact Hmock |].
    destruct (match data with
              | Some children => flat_map RedditScraper.review_of_post children
              | None => []
              end) as [| r0 rs]; intros H; inversion H; subst; [exact Hmock |].
    apply ScraperFacts.take_sorted.
    exact (ScraperFacts.sort_by_score_sorted (r0 :: rs)).
Qed.

Lemma unrefined_reviews_sorted_by_score_witness :
  let env := Scenario.make_env Scenario.llm_down Scenario.reddit_three_posts
               Scenario.provider_none in
  let run := RedditScraper.search_place_reviews env RedditScraper.default_config
               "Blue Tokai" "Delhi" 5 Scenario.empty_world in
  fst run = inr (RedditScraper.review_of_post Scenario.popular_post ++
                 RedditScraper.review_of_post Scenario.long_post ++
                 RedditScraper.review_of_post Scenario.ignored_post) /\
  map score (RedditScraper.review_of_post Scenario.popular_post ++
             RedditScraper.review_of_post Scenario.long_post ++
             RedditScraper.review_of_post Scenario.ignored_post) = [40; 12; 3]%Z /\
  StronglySorted (fun a b => (score b <= score a)%Z)
    (RedditScraper.review_of_post Scenario.popular_post ++
     RedditScraper.review_of_post Scenario.long_post ++
     RedditScraper.review_of_post Scenario.ignored_post).
Proof.
  intros env run.
  split; [vm_compute; reflexivity |]. split; [reflexivity |].
  apply (unrefined_reviews_sorted_by_score env RedditScraper.default_config
           "Blue Tokai" "Delhi" 5 Scenario.empty_world _ (snd run)).
  - reflexivity.
  - vm_compute. reflexivity.
Defined.

(** As long as the place name and the city together have at most 842
    characters, every review [search_place_reviews] returns has a text
    of at most 1000 characters. *)
Theorem review_texts_capped_for_short_names (env : Env) (cfg : RedditScraper.Config)
    (place_name city : string) (max_results : Z) (w : World) l w' :
  String.length place_name + String.length city <= 842 ->
  RedditScraper.search_place_reviews env cfg place_name city max_results w
  = (inr l, w') ->
  Forall (fun r => String.length (content r) <= 1000) l.
Proof.
  intros Hshort Hrun. apply Forall_forall. intros r Hr.
  destruct (search_place_reviews_content_cap env cfg place_name city max_results
              w l w' Hrun r Hr) as [Hcap | Hmock]; [exact Hcap |].
  eapply mock_reviews_cap; eauto.
Qed.

Lemma review_texts_capped_for_short_names_witness :
  Forall (fun r => String.length (content r) <= 1000)
         (RedditScraper.mock_reviews "Blue Tokai" "Delhi").
Proof.
  apply (review_texts_capped_for_short_names Scenario.offline_env
           RedditScraper.default_config "Blue Tokai" "Delhi" 5 Scenario.empty_world
           (RedditScraper.mock_reviews "Blue Tokai" "Delhi")
           (snd (RedditScraper.search_place_reviews Scenario.offline_env
                   RedditScraper.default_config "Blue Tokai" "Delhi" 5
                   Scenario.empty_world))).
  - simpl. lia.
  - reflexivity.
Defined.

(** When the response has usable posts (and the posts are 7-bit text),
    only reviews built from them are returned: no placeholder is mixed
    in, and nothing is raised. *)
Theorem live_reviews_come_from_posts (env : Env) (cfg : RedditScraper.Config)
    (place_name city : string) (max_results : Z) (w : World) :
  RedditScraper.ascii_posts
    (reddit_get env (trace w) (RedditScraper.search_query_of place_name city)
       max_results) = true ->
  RedditScraper.usable_reviews
    (reddit_get env (trace w) (RedditScraper.search_query_of place_name city)
       max_results) <> [] ->
  exists l,
    fst (RedditScraper.search_place_reviews env cfg place_name city max_results w)
    = inr l /\
    incl l (RedditScraper.usable_reviews
              (reddit_get env (trace w)
                 (RedditScraper.search_query_of place_name city) max_results)).
Proof. intros _. apply ScraperProps.search_place_reviews_live. Qed.

Lemma live_reviews_come_from_posts_witness :
  let env := Scenario.make_env Scenario.llm_down Scenario.reddit_three_posts
               Scenario.provider_none in
  exists l,
    fst (RedditScraper.search_place_reviews env RedditScraper.default_config
           "Blue Tokai" "Delhi" 2 Scenario.empty_world)
    = inr l /\
    incl l (RedditScraper.usable_reviews
              (reddit_get env (trace Scenario.empty_world)
                 (RedditScraper.search_query_of "Blue Tokai" "Delhi") 2)).
Proof.
  intros env.
  apply (live_reviews_come_from_posts env RedditScraper.default_config
           "Blue Tokai" "Delhi" 2 Scenario.empty_world).
  - reflexivity.
  - vm_compute. discriminate.
Defined.

(** ** Scraping a list of places *)

Module ScrapeFacts.

Lemma dict_set_keys {V} (k : string) (v : V) (d : list (string * V)) (k' : string) :
  In k' (map fst (dict_set k v d)) <-> k' = k \/ In k' (map fst d).
Proof.
  induction d as [| [k0 v0] r IH]; simpl.
  - intuition.
  - destruct (String.eqb_spec k k0) as [-> | Hne]; simpl.
    + intuition.
    + rewrite IH. intuition.
Qed.

Lemma dict_set_nodup {V} (k : string) (v : V) (d : list (string * V)) :
  NoDup (map fst d) -> NoDup (map fst (dict_set k v d)).
Proof.
  induction d as [| [k0 v0] r IH]; simpl; intros Hnd.
  - constructor; [intros [] | constructor].
  - inversion Hnd as [| x l Hnin Hnd']; subst.
    destruct (String.eqb_spec k k0) as [-> | Hne]; simpl.
    + constructor; assumption.
    + constructor; [| apply IH; exact Hnd'].
      rewrite dict_set_keys. intros [E | Hin]; [congruence | contradiction].
Qed.

Lemma dict_set_forall {V} (Q : string * V -> Prop) (k : string) (v : V)
    (d : list (string * V)) :
  Forall Q d -> Q (k, v) -> Forall Q (dict_set k v d).
Proof.
  intros Hd Hq. induction Hd as [| [k0 v0] r Hx Hr IH]; simpl.
  - constructor; [exact Hq | constructor].
  - destruct (String.eqb k k0); constructor; assumption.
Qed.

Lemma dict_get_set_same {V} (k : string) (v : V) (d : list (string * V)) :
  dict_get k (dict_set k v d) = Some v.
Proof.
  induction d as [| [k0 v0] r IH]; simpl.
  - rewrite String.eqb_refl. reflexivity.
  - destruct (String.eqb k k0) eqn:E; simpl; [rewrite String.eqb_refl | rewrite E];
      auto.
Qed.

Lemma dict_get_set_other {V} (k k' : string) (v : V) (d : list (string * V)) :
  k' <> k -> dict_get k' (dict_set k v d) = dict_get k' d.
Proof.
  intros Hne. induction d as [| [k0 v0] r IH]; simpl.
  - destruct (String.eqb_spec k' k); [contradiction | reflexivity].
  - destruct (String.eqb_spec k k0) as [-> | Hk]; simpl.
    + destruct (String.eqb_spec k' k0); [contradiction | reflexivity].
    + destruct (String.eqb k' k0); [reflexivity | exact IH].
Qed.

Section WithEnv.
Variable env : Env.

Lemma scrape_fold cfg city (places : list RawPlace) :
  forall acc w,
    NoDup (map fst acc) ->
    Forall (fun kv : string * list Review => length (snd kv) <= 5) acc ->
    exists results w',
      fold_m places
        (fun results place =>
           let place_name := match rp_name place with Some n => n | None => "" end in
           if String.eqb place_name "" then ret results
           else
             reviews <- RedditScraper.search_place_reviews env cfg place_name city 5 ;;
             sleep 1 ;;;
             ret (dict_set place_name reviews results)) acc w
      = (inr results, w') /\
      NoDup (map fst results) /\
      Forall (fun kv : string * list Review => length (snd kv) <= 5) results /\
      forall n, In n (map fst results) <->
                In n (map fst acc) \/ (n <> "" /\ In n (map RedditScraper.named places)).
Proof.
  induction places as [| place rest IH]; intros acc w Hnd Hlen.
  - exists acc, w. simpl. repeat split; auto; tauto.
  - cbn [fold_m]. unfold bind at 1.
    fold (RedditScraper.named place).
    destruct (String.eqb_spec (RedditScraper.named place) "") as [E | Hne].
    + unfold ret at 1.
      destruct (IH acc w Hnd Hlen) as (results & w' & Hrun & Hn & Hl & Hk).
      exists results, w'. split; [exact Hrun |]. repeat split; auto.
      * intros Hin. apply Hk in Hin. simpl. tauto.
      * intros [Hin | [Hn0 [Hp | Hin]]]; apply Hk; auto. congruence.
    + unfold bind at 1.
      destruct (ScraperProps.search_place_reviews_never_raises env cfg (RedditScraper.named place)
                  city 5 w) as (reviews & w1 & Es).
      rewrite Es. unfold bind at 1, sleep, call, ret at 1.
      pose proof (search_place_reviews_length_bound env cfg (RedditScraper.named place) city 5 w
                    reviews w1 ltac:(lia) Es) as Hfive.
      match goal with
      | |- context [fold_m rest ?body (dict_set ?k ?v acc) ?w2] =>
          destruct (IH (dict_set k v acc) w2) as (results & w' & Hrun & Hn & Hl & Hk)
      end.
      * apply dict_set_nodup. exact Hnd.
      * apply dict_set_forall; [exact Hlen | simpl; lia].
      * exists results, w'. split; [exact Hrun |]. repeat split; auto.
        -- intros Hin. apply Hk in Hin. rewrite dict_set_keys in Hin. simpl.
           destruct Hin as [[-> | Hin] | [Hn0 Hin]]; auto.
        -- intros Hin. apply Hk. rewrite dict_set_keys. simpl in Hin.
           destruct Hin as [Hin | [Hn0 [<- | Hin]]]; auto.
Qed.

End WithEnv.

End ScrapeFacts.

(** [scrape_multiple_places] never raises and returns exactly one entry
    per distinct non-empty place name, each with at most five reviews;
    places without a name are passed over. *)
Theorem scrape_multiple_places_one_entry_per_name (env : Env)
    (cfg : RedditScraper.Config) (places : list RawPlace) (city : string) (w : World) :
  exists results w',
    RedditScraper.scrape_multiple_places env cfg places city w = (inr results, w') /\
    NoDup (map fst results) /\
    Forall (fun kv => length (snd kv) <= 5) results /\
    forall n, In n (map fst results) <->
              n <> "" /\ In (Some n) (map rp_name places).
Proof.
  destruct (ScrapeFacts.scrape_fold env cfg city places [] w) as
    (results & w' & Hrun & Hn & Hl & Hk); [constructor | constructor |].
  exists results, w'. split; [exact Hrun |]. repeat split; auto.
  - apply Hk in H. destruct H as [[] | [Hn0 _]]. exact Hn0.
  - apply Hk in H. destruct H as [[] | [Hn0 Hin]].
    apply in_map_iff in Hin. destruct Hin as (p & Hp & Hin).
    apply in_map_iff. exists p. split; [| exact Hin].
    unfold RedditScraper.named in Hp. destruct (rp_name p); congruence.
  - intros [Hn0 Hin]. apply Hk. right. split; [exact Hn0 |].
    apply in_map_iff in Hin. destruct Hin as (p & Hp & Hin).
    apply in_map_iff. exists p. split; [| exact Hin].
    unfold RedditScraper.named. rewrite Hp. reflexivity.
Qed.

(** ** Fetching more reviews *)

Module FetchFacts.
Import RedditScraper.

Lemma stake_short (n : Z) (s : string) :
  (0 <= n)%Z -> (Z.of_nat (String.length (PyStr.stake n s)) < n)%Z ->
  PyStr.stake n s = s.
Proof.
  intros Hn. unfold PyStr.stake, PyStr.take.
  rewrite ScraperProps.length_string_of_list, length_firstn, clip_nonneg by exact Hn.
  intros Hlt. rewrite firstn_all2 by lia. apply string_of_list_ascii_of_string.
Qed.

(** The invariant of the list collected by [_fetch_more_reviews]. *)
Lemma add_post_keeps (all_reviews : list Review) (p : Post) :
  Forall (fun r => String.length (content r) <= 1000) all_reviews ->
  NoDup (filter (fun c => (String.length c <? 1000)%nat) (map content all_reviews)) ->
  Forall (fun r => String.length (content r) <= 1000) (add_post all_reviews p) /\
  NoDup (filter (fun c => (String.length c <? 1000)%nat)
                (map content (add_post all_reviews p))).
Proof.
  intros Hcap Hnd. unfold add_post.
  destruct (negb _ && _); [| split; assumption].
  destruct (existsb _ all_reviews) eqn:Eseen; [split; assumption |].
  pose proof (ScraperProps.stake_length 1000 (post_text p) ltac:(lia)) as Hlen.
  split.
  - apply Forall_app. split; [exact Hcap |]. constructor; [| constructor].
    cbn [content]. lia.
  - rewrite map_app, filter_app. cbn [map filter content].
    destruct (Nat.ltb_spec (String.length (PyStr.stake 1000 (post_text p))) 1000)
      as [Hshort | Hlong]; [| rewrite app_nil_r; exact Hnd].
    rewrite (stake_short 1000 (post_text p)) by lia.
    apply NoDup_app; [exact Hnd | constructor; [intros [] | constructor] |].
    intros x Hx [<- | []]. apply filter_In in Hx. destruct Hx as [Hx _].
    apply in_map_iff in Hx. destruct Hx as (r & Hr & Hin).
    assert (existsb (fun r => String.eqb (content r) (post_text p)) all_reviews = true).
    { apply existsb_exists. exists r. split; [exact Hin |].
      rewrite Hr. apply String.eqb_refl. }
    congruence.
Qed.

Lemma add_posts_keep (children : list Post) :
  forall all_reviews,
    Forall (fun r => String.length (content r) <= 1000) all_reviews ->
    NoDup (filter (fun c => (String.length c <? 1000)%nat) (map content all_reviews)) ->
    Forall (fun r => String.length (content r) <= 1000)
           (fold_left add_post children all_reviews) /\
    NoDup (filter (fun c => (String.length c <? 1000)%nat)
                  (map content (fold_left add_post children all_reviews))).
Proof.
  induction children as [| p rest IH]; intros all_reviews Hcap Hnd; simpl.
  - split; assumption.
  - destruct (add_post_keeps all_reviews p Hcap Hnd) as [Hc Hn]. apply IH; assumption.
Qed.

Section WithEnv.
Variable env : Env.

Lemma fetch_fold_keeps max_results (queries : list string) :
  forall acc w r w',
    Forall (fun r => String.length (content r) <= 1000) acc ->
    NoDup (filter (fun c => (String.length c <? 1000)%nat) (map content acc)) ->
    fold_m queries
      (fun all_reviews search_query =>
         response <- call (RedditGet search_query max_results)
                          (fun h => reddit_get env h search_query max_results) ;;
         collected <-
           match response with
           | TransportError e => raise e
           | HttpResponse status body =>
               if (status =? 200)%Z then
                 data <- lift body ;;
                 ret (match data with
                      | Some children => fold_left add_post children all_reviews
                      | None => all_reviews
                      end)
               else ret all_reviews
           end ;;
         sleep 1 ;;;
         ret collected) acc w = (inr r, w') ->
    Forall (fun r => String.length (content r) <= 1000) r /\
    NoDup (filter (fun c => (String.length c <? 1000)%nat) (map content r)).
Proof.
  induction queries as [| q rest IH]; intros acc w r w' Hcap Hnd.
  - simpl. intros H; inversion H; subst. split; assumption.
  - cbn [fold_m]. unfold bind at 1 2, call at 1.
    destruct (reddit_get env (trace w) q max_results) as [e | status body].
    + unfold raise, bind. discriminate.
    + destruct (status =? 200)%Z.
      * destruct body as [e | data]; unfold lift, bind at 1, raise, ret at 1;
          [unfold bind; discriminate |].
        unfold bind at 1, ret at 1, bind at 1, sleep, call, ret at 1.
        apply IH; destruct data as [children |]; try assumption;
          apply add_posts_keep; assumption.
      * unfold bind at 1, ret at 1, bind at 1, sleep, call, ret at 1.
        apply IH; assumption.
Qed.

End WithEnv.

End FetchFacts.

(** [_fetch_more_reviews] never raises; every text it returns has at
    most 1000 characters, and no text shorter than 1000 characters is
    returned twice. *)
Theorem fetched_reviews_capped_and_distinct (env : Env) (place_name city : string)
    (max_results : Z) (w : World) :
  exists l w',
    RedditScraper._fetch_more_reviews env place_name city max_results w = (inr l, w') /\
    Forall (fun r => String.length (content r) <= 1000) l /\
    NoDup (filter (fun c => (String.length c <? 1000)%nat) (map content l)).
Proof.
  unfold RedditScraper._fetch_more_reviews, try_except.
  match goal with
  | |- context [fold_m ?qs ?body [] w] =>
      destruct (fold_m qs body [] w) as [[e | l] w1] eqn:E
  end.
  - exists [], w1. split; [reflexivity |]. split; constructor.
  - exists l, w1. split; [reflexivity |].
    eapply FetchFacts.fetch_fold_keeps; [constructor | constructor | exact E].
Qed.

(** ** Place store: single insertion, and what a bulk insertion returns *)

Module StoreFacts.
Import PlaceController.

Lemma count_fsq_single (f g : string) (d : PlaceDoc) :
  fsq_id (original d) = Some g ->
  count_fsq f [d] = if String.eqb g f then 1 else 0.
Proof.
  intros Hd. unfold count_fsq. simpl. rewrite Hd.
  destruct (String.eqb g f); reflexivity.
Qed.

Lemma ids_of_assign_ids (n : nat) (l : list PlaceDoc) :
  map Some (map str_id (map ObjectId (seq n (length l))))
  = map (fun d => option_map str_id (doc_id d)) (assign_ids n l).
Proof.
  revert n. induction l as [| x r IH]; intros n; [reflexivity |].
  cbn [length seq map assign_ids doc_id option_map str_id]. rewrite IH. reflexivity.
Qed.

Section WithEnv.
Variable env : Env.

(** The ways [add_place] can end: nothing stored; the place stored and
    its [_id] returned; or the insert raising, with the place written or
    not. *)
Lemma add_place_cases (place_data : PlaceData) (w : World) r w' :
  add_place env place_data w = (r, w') ->
  (places_coll w' = places_coll w /\ (r = inr None \/ exists e, r = inl e)) \/
  (exists f created updated,
      truthy (fsq_id (pd_original place_data)) = Some f /\
      count_fsq f (places_coll w) = 0 /\
      ((r = inr (Some (ObjectId (next_oid w))) /\
        places_coll w'
        = places_coll w ++
          assign_ids (next_oid w) [place_doc_for f place_data created updated])
       \/
       (exists e k,
           r = inl e /\
           places_coll w'
           = places_coll w ++
             firstn k (assign_ids (next_oid w)
                         [place_doc_for f place_data created updated])))).
Proof.
  unfold add_place.
  destruct (truthy (fsq_id (pd_original place_data))) as [f |] eqn:Ef.
  - unfold bind at 1, find_one_by_fsq_id, db_read.
    destruct (db_available env) eqn:Edb; cbn [negb].
    + destruct (db_fault env (trace w)) as [e |] eqn:Efault.
      * intros H; inversion H; subst. left. split; [reflexivity | right; eauto].
      * destruct (find _ (places_coll w)) as [found |] eqn:Efind.
        -- unfold ret. intros H; inversion H; subst. left. split; [reflexivity | auto].
        -- unfold now, call, bind at 1 2, insert_one, bind, insert_many.
           cbn [trace places_coll next_oid record_event]. rewrite Edb. cbn [negb].
           destruct (db_fault env (_ ++ [ClockRead])) as [e |].
           ++ intros H; inversion H; subst. right.
              eexists f, _, _. split; [reflexivity |].
              split; [apply StoreProps.find_none_count; exact Efind |].
              right. eexists e, _. split; reflexivity.
           ++ unfold ret. intros H; inversion H; subst. right.
              eexists f, _, _. split; [reflexivity |].
              split; [apply StoreProps.find_none_count; exact Efind |].
              left. split; reflexivity.
    + intros H; inversion H; subst. left. split; [reflexivity | right; eauto].
  - intros H; inversion H; subst. left. split; [reflexivity | auto].
Qed.

Lemma assign_ids_has_id (n : nat) (l : list PlaceDoc) :
  Forall (fun d => doc_id d <> None) (assign_ids n l).
Proof.
  revert n. induction l as [| x r IH]; intros n; cbn [assign_ids]; constructor;
    [discriminate | apply IH].
Qed.

Lemma forall_firstn {A} (P : A -> Prop) (k : nat) (l : list A) :
  Forall P l -> Forall P (firstn k l).
Proof.
  intros H. apply Forall_forall. intros x Hx.
  exact (proj1 (Forall_forall P l) H x (StoreProps.in_firstn _ _ _ Hx)).
Qed.

(** What a bulk insertion returns and adds. *)
Lemma bulk_insert_places_result (places_data : list PlaceData) (w : World) r w' :
  bulk_insert_places env places_data w = (r, w') ->
  exists added,
    places_coll w' = places_coll w ++ added /\
    (forall d, In d added -> fresh_for (places_coll w) d) /\
    Forall (fun d => doc_id d <> None) added /\
    (forall ids, r = inr ids ->
       map Some ids = map (fun d => option_map str_id (doc_id d)) added).
Proof.
  unfold bulk_insert_places, bind, collect_docs.
  destruct (fold_m places_data (collect_step env) [] w) as [[e | docs] w1] eqn:Erun;
    pose proof (StoreProps.collect_docs_spec env places_data [] w _ _ Erun)
      as (Hc & Hn & Hdocs).
  - intros H; inversion H; subst. exists []. rewrite app_nil_r.
    repeat split; auto; try discriminate. intros d [].
  - destruct docs as [| d0 ds].
    + intros H; inversion H; subst. exists []. rewrite app_nil_r.
      repeat split; auto; try discriminate.
      * intros d [].
      * intros ids Hi. inversion Hi. reflexivity.
    + assert (Hfresh : forall d, In d (assign_ids (next_oid w1) (d0 :: ds)) ->
                                 fresh_for (places_coll w) d).
      { intros d Hin. apply StoreProps.assign_ids_original in Hin.
        destruct Hin as (d' & Hd' & Ho).
        destruct (Hdocs _ eq_refl d' Hd') as [[] | (f & Hf & Hne & Hcnt)].
        exists f. rewrite Ho. auto. }
      unfold insert_many.
      destruct (db_available env); cbn [negb].
      * destruct (db_fault env (trace w1)); intros H; inversion H; subst;
          cbn [places_coll]; rewrite Hc.
        -- eexists. split; [reflexivity |]. split; [| split; [| discriminate]].
           ++ intros d Hin. apply Hfresh. exact (StoreProps.in_firstn _ _ _ Hin).
           ++ exact (forall_firstn _ _ _ (assign_ids_has_id (next_oid w1) (d0 :: ds))).
        -- exists (assign_ids (next_oid w1) (d0 :: ds)).
           split; [reflexivity |]. split; [exact Hfresh |].
           split; [apply assign_ids_has_id |].
           intros ids Hi. inversion Hi; subst.
           exact (ids_of_assign_ids (next_oid w1) (d0 :: ds)).
      * intros H; inversion H; subst. exists []. rewrite app_nil_r.
        repeat split; auto; try discriminate. intros d [].
Qed.

End WithEnv.

End StoreFacts.

(** [bulk_insert_places] only appends, however it ends: the stored
    documents stay as they are and in place, every appended document has
    an [_id] and a non-empty identifier the store did not have, and when
    the call returns, the returned identifiers are the [_id]s of the
    appended documents, in order.  (When the insert raises, the
    documents the store wrote before the failure are the ones
    appended.) *)
Theorem bulk_insert_places_only_appends (env : Env) (places_data : list PlaceData)
    (w : World) r w' :
  PlaceController.bulk_insert_places env places_data w = (r, w') ->
  exists added,
    places_coll w' = places_coll w ++ added /\
    (forall d, In d added -> PlaceController.fresh_for (places_coll w) d) /\
    Forall (fun d => doc_id d <> None) added /\
    (forall ids, r = inr ids ->
       map Some ids
       = map (fun d => option_map PlaceController.str_id (doc_id d)) added).
Proof. apply StoreFacts.bulk_insert_places_result. Qed.

Lemma bulk_insert_places_only_appends_witness :
  let run := PlaceController.bulk_insert_places Scenario.partial_insert_env
               [Scenario.cafe_data; Scenario.bar_data] Scenario.two_places in
  exists added,
    places_coll (snd run) = places_coll Scenario.two_places ++ added /\
    (forall d, In d added ->
       PlaceController.fresh_for (places_coll Scenario.two_places) d) /\
    Forall (fun d => doc_id d <> None) added /\
    (forall ids, fst run = inr ids ->
       map Some ids
       = map (fun d => option_map PlaceController.str_id (doc_id d)) added).
Proof.
  intros run.
  apply (bulk_insert_places_only_appends Scenario.partial_insert_env
           [Scenario.cafe_data; Scenario.bar_data] Scenario.two_places
           (fst run) (snd run)).
  vm_compute. reflexivity.
Defined.

(** An insert that fails on its second document has stored the first. *)
Example bulk_insert_places_partial_write :
  let run := PlaceController.bulk_insert_places Scenario.partial_insert_env
               [Scenario.cafe_data; Scenario.bar_data] Scenario.two_places in
  fst run = inl "batch op errors occurred" /\
  PlaceController.doc_ids (places_coll (snd run)) = ["p0"; "p1"; "tomtom_cafe_0"].
Proof. vm_compute. split; reflexivity. Qed.

(** [add_place] keeps the store at one place per external identifier,
    whatever it is given. *)
Theorem add_place_keeps_one_per_id (env : Env) (place_data : PlaceData)
    (w : World) r w' :
  PlaceController.add_place env place_data w = (r, w') ->
  (forall f, PlaceController.count_fsq f (places_coll w) <= 1) ->
  forall f, PlaceController.count_fsq f (places_coll w') <= 1.
Proof.
  intros Hrun Huniq g.
  assert (Hnew : forall f created updated,
             PlaceController.count_fsq f (places_coll w) = 0 ->
             PlaceController.count_fsq g (places_coll w) +
             PlaceController.count_fsq g
               (PlaceController.assign_ids (next_oid w)
                  [PlaceController.place_doc_for f place_data created updated]) <= 1).
  { intros f created updated Hzero.
    rewrite StoreProps.count_fsq_assign_ids.
    rewrite (StoreFacts.count_fsq_single g f) by reflexivity.
    destruct (String.eqb_spec f g) as [-> | Hne]; [rewrite Hzero; lia |].
    pose proof (Huniq g). lia. }
  destruct (StoreFacts.add_place_cases env place_data w r w' Hrun)
    as [[Hc _] | (f & created & updated & Hf & Hzero &
                  [[_ Hc] | (e & k & _ & Hc)])];
    rewrite Hc.
  - apply Huniq.
  - rewrite StoreProps.count_fsq_app. apply (Hnew f created updated Hzero).
  - rewrite StoreProps.count_fsq_app.
    eapply Nat.le_trans; [| apply (Hnew f created updated Hzero)].
    apply Nat.add_le_mono_l, StoreProps.count_fsq_firstn.
Qed.

Lemma add_place_keeps_one_per_id_witness :
  PlaceController.count_fsq "tomtom_cafe_0"
    (places_coll (snd (PlaceController.add_place Scenario.offline_env
                         Scenario.cafe_data
                         (snd (PlaceController.add_place Scenario.offline_env
                                 Scenario.cafe_data Scenario.empty_world)))))
  <= 1.
Proof.
  refine (add_place_keeps_one_per_id Scenario.offline_env Scenario.cafe_data
            (snd (PlaceController.add_place Scenario.offline_env Scenario.cafe_data
                    Scenario.empty_world))
            (fst (PlaceController.add_place Scenario.offline_env Scenario.cafe_data
                    (snd (PlaceController.add_place Scenario.offline_env
                            Scenario.cafe_data Scenario.empty_world))))
            _ _ _ "tomtom_cafe_0").
  - vm_compute. reflexivity.
  - intros f. apply StoreProps.count_fsq_nodup. vm_compute.
    constructor; [intros [] | constructor].
Defined.

(** A place that [add_place] reports as inserted is the one a lookup by
    its identifier finds afterwards, with the fields it was given. *)
Theorem add_place_then_find (env : Env) (place_data : PlaceData) (w : World)
    (id : DocId) w' :
  PlaceController.add_place env place_data w = (inr (Some id), w') ->
  db_fault env (trace w') = None ->
  exists f d w'',
    fsq_id (pd_original place_data) = Some f /\
    PlaceController.find_one_by_fsq_id env f w' = (inr (Some d), w'') /\
    doc_id d = Some id /\
    fsq_id (original d) = Some f /\
    name (original d) = name (pd_original place_data) /\
    Core.city (original d) = Core.city (pd_original place_data) /\
    Core.category (original d) = Core.category (pd_original place_data) /\
    processed d = pd_processed place_data /\
    reviews d = pd_reviews place_data.
Proof.
  intros Hrun Hok.
  assert (Hdb : db_available env = true).
  { revert Hrun. unfold PlaceController.add_place.
    destruct (PlaceController.truthy _); [| discriminate].
    unfold bind at 1, PlaceController.find_one_by_fsq_id, PlaceController.db_read.
    destruct (db_available env); [reflexivity | discriminate]. }
  destruct (StoreFacts.add_place_cases env place_data w _ w' Hrun)
    as [[_ [H | (e & H)]] | (f & created & updated & Hf & Hzero &
                             [[Hid Hc] | (e & k & H & _)])];
    try discriminate.
  inversion Hid; subst id.
  apply StoreProps.truthy_some in Hf. destruct Hf as [Hf _].
  exists f. eexists. eexists. split; [exact Hf |].
  unfold PlaceController.find_one_by_fsq_id, PlaceController.db_read.
  rewrite Hdb, Hok, Hc. cbn [negb].
  assert (Hfind : forall coll,
             PlaceController.count_fsq f coll = 0 ->
             forall tl, find (fun d => match fsq_id (original d) with
                                       | Some g => String.eqb g f
                                       | None => false
                                       end) (coll ++ tl)
                        = find (fun d => match fsq_id (original d) with
                                         | Some g => String.eqb g f
                                         | None => false
                                         end) tl).
  { unfold PlaceController.count_fsq. induction coll as [| d r IH]; intros Hz tl;
      [reflexivity |].
    simpl in *. destruct (match fsq_id (original d) with
                          | Some g => String.eqb g f
                          | None => false
                          end); [discriminate | apply IH; exact Hz]. }
  rewrite (Hfind _ Hzero). cbn. rewrite String.eqb_refl.
  split; [reflexivity |]. repeat split.
Qed.

Lemma add_place_then_find_witness :
  exists f d w'',
    fsq_id (pd_original Scenario.cafe_data) = Some f /\
    PlaceController.find_one_by_fsq_id Scenario.offline_env f
      (snd (PlaceController.add_place Scenario.offline_env Scenario.cafe_data
              Scenario.two_places))
    = (inr (Some d), w'') /\
    doc_id d = Some (ObjectId 2) /\
    fsq_id (original d) = Some f /\
    name (original d) = name (pd_original Scenario.cafe_data) /\
    Core.city (original d) = Core.city (pd_original Scenario.cafe_data) /\
    Core.category (original d) = Core.category (pd_original Scenario.cafe_data) /\
    processed d = pd_processed Scenario.cafe_data /\
    reviews d = pd_reviews Scenario.cafe_data.
Proof.
  apply (add_place_then_find Scenario.offline_env Scenario.cafe_data
           Scenario.two_places (ObjectId 2)).
  - reflexivity.
  - reflexivity.
Defined.

Lemma bulk_insert_places_unique_when_batch_distinct_witness :
  PlaceController.count_fsq "tomtom_cafe_0"
    (places_coll (snd (PlaceController.bulk_insert_places Scenario.offline_env
                         [Scenario.cafe_data] Scenario.two_places)))
  <= 1.
Proof.
  refine (bulk_insert_places_unique_when_batch_distinct Scenario.offline_env
            [Scenario.cafe_data] Scenario.two_places
            (fst (PlaceController.bulk_insert_places Scenario.offline_env
                    [Scenario.cafe_data] Scenario.two_places))
            _ _ _ _ "tomtom_cafe_0").
  - reflexivity.
  - repeat constructor. intros [].
  - intros f. apply StoreProps.count_fsq_nodup. vm_compute.
    constructor; [intros [H | []]; discriminate |].
    constructor; [intros [] | constructor].
Defined.

(** ** Fallback search: the provider branch and the degraded outcome *)

Module FallbackFacts.
Import FallbackService.

Lemma fold_left_dict_set {V} (g : string -> V) (keys : list string) :
  forall (acc : list (string * V)) (n : string),
    dict_get n (fold_left (fun d k => dict_set k (g k) d) keys acc)
    = if in_dec string_dec n keys then Some (g n) else dict_get n acc.
Proof.
  induction keys as [| k rest IH]; intros acc n; [reflexivity |].
  cbn [fold_left]. rewrite IH.
  destruct (in_dec string_dec n rest) as [Hin | Hnin];
    destruct (in_dec string_dec n (k :: rest)) as [Hin' | Hnin'];
    try reflexivity.
  - exfalso. apply Hnin'. right. exact Hin.
  - destruct Hin' as [-> | Hin']; [apply ScrapeFacts.dict_get_set_same | contradiction].
  - apply ScrapeFacts.dict_get_set_other. intros ->. apply Hnin'. left. reflexivity.
Qed.

Lemma dict_set_fresh {V} (k : string) (v : V) (d : list (string * V)) :
  ~ In k (map fst d) -> map fst (dict_set k v d) = map fst d ++ [k].
Proof.
  induction d as [| [k0 v0] r IH]; intros Hnin; [reflexivity |].
  cbn [dict_set]. destruct (String.eqb_spec k k0) as [-> | Hne].
  - exfalso. apply Hnin. left. reflexivity.
  - cbn [map fst app]. rewrite IH; [reflexivity |].
    intros Hin. apply Hnin. right. exact Hin.
Qed.

Lemma fold_left_dict_set_keys {V} (g : string -> V) (keys : list string) :
  forall acc : list (string * V),
    NoDup keys ->
    (forall k, In k keys -> ~ In k (map fst acc)) ->
    map fst (fold_left (fun d k => dict_set k (g k) d) keys acc)
    = map fst acc ++ keys.
Proof.
  induction keys as [| k rest IH]; intros acc Hnd Hfresh.
  - cbn [fold_left]. rewrite app_nil_r. reflexivity.
  - inversion Hnd as [| x l Hnin Hnd']; subst.
    cbn [fold_left]. rewrite IH.
    + rewrite dict_set_fresh by (apply Hfresh; left; reflexivity).
      rewrite <- app_assoc. reflexivity.
    + exact Hnd'.
    + intros k' Hk' Hin. apply ScrapeFacts.dict_set_keys in Hin.
      destruct Hin as [-> | Hin]; [contradiction |].
      apply (Hfresh k'); [right; exact Hk' | exact Hin].
Qed.

Section WithEnv.
Variable env : Env.

(** The documents built for the candidates: one per candidate, in
    order, each carrying the name of its candidate and no [_id]. *)
Lemma transform_fold reddit_reviews processed_data (tomtom_places : list RawPlace) :
  forall acc w r w',
    fold_m tomtom_places
      (fun acc place =>
         created <- now env ;;
         updated <- now env ;;
         ret (acc ++ [place_doc_of place reddit_reviews processed_data created updated]))
      acc w = (r, w') ->
    exists news,
      r = inr (acc ++ news) /\
      map (fun d => name (original d)) news
      = map (fun p => Some (RedditScraper.named p)) tomtom_places /\
      Forall (fun d => doc_id d = None) news.
Proof.
  induction tomtom_places as [| p rest IH]; intros acc w r w' Hrun.
  - simpl in Hrun. inversion Hrun; subst. exists []. rewrite app_nil_r.
    repeat split. constructor.
  - cbn [fold_m] in Hrun. unfold bind at 1 2 3, now, call, ret at 1 in Hrun.
    apply IH in Hrun. destruct Hrun as (news & -> & Hnames & Hids).
    eexists (_ :: news). rewrite <- app_assoc. split; [reflexivity |].
    split; [cbn [map]; rewrite Hnames; reflexivity |].
    constructor; [reflexivity | exact Hids].
Qed.

Lemma _transform_and_store_places_with_llm_run tomtom_places reddit_reviews
    processed_data w docs w' :
  _transform_and_store_places_with_llm env tomtom_places reddit_reviews
    processed_data w = (inr docs, w') ->
  map (fun d => name (original d)) docs
  = map (fun p => Some (RedditScraper.named p)) tomtom_places /\
  Forall (fun d => doc_id d = None) docs.
Proof.
  unfold _transform_and_store_places_with_llm. unfold bind at 1.
  match goal with
  | |- context [fold_m tomtom_places ?body [] w] =>
      destruct (fold_m tomtom_places body [] w) as [r1 w1] eqn:Ef
  end.
  destruct (transform_fold _ _ _ _ _ _ _ Ef) as (news & -> & Hnames & Hids).
  cbn [app]. destruct news as [| d0 ds].
  - intros H; inversion H; subst. split; [exact Hnames | constructor].
  - unfold bind.
    destruct (PlaceController.bulk_insert_places env _ w1) as [[e | ids] w2];
      intros H; inversion H; subst. split; assumption.
Qed.

(** The result of the provider branch. *)
Lemma provider_branch city category vibe_tags min_results w r w' :
  search_places_with_fallback env city category vibe_tags min_results w
  = (inr r, w') ->
  result_source r = Some "database_and_tomtom" ->
  exists existing w1 candidates w2 news,
    _search_existing_places env city category vibe_tags w = (inr existing, w1) /\
    _fetch_tomtom_places env city category (min_results - len existing) w1
    = (inr candidates, w2) /\
    candidates <> [] /\
    (len existing < min_results)%Z /\
    result_places r = existing ++ news /\
    map (fun d => name (original d)) news
    = map (fun p => Some (RedditScraper.named p)) candidates /\
    Forall (fun d => doc_id d = None) news /\
    tomtom_fetched r = Some (len candidates) /\
    count r = (len existing + len candidates)%Z /\
    fallback_used r = Some true /\ success r = true.
Proof.
  unfold search_places_with_fallback, try_except, bind.
  destruct (_search_existing_places env city category vibe_tags w)
    as [[e | existing] w1]; [intros H; inversion H; subst; discriminate |].
  destruct (Z.geb_spec (len existing) min_results) as [Hge | Hlt];
    [intros H; inversion H; subst; discriminate |].
  destruct (_fetch_tomtom_places env city category _ w1)
    as [[e | candidates] w2] eqn:Efetch; [intros H; inversion H; subst; discriminate |].
  destruct candidates as [| p ps]; [intros H; inversion H; subst; discriminate |].
  destruct (RedditScraper.scrape_multiple_places env _ _ city w2)
    as [[e | reddit_reviews] w3]; [intros H; inversion H; subst; discriminate |].
  destruct (LLMProcessor.process_multiple_places env reddit_reviews city w3)
    as [[e | processed_data] w4]; [intros H; inversion H; subst; discriminate |].
  destruct (log_processed processed_data w4)
    as [[e | []] w5]; [intros H; inversion H; subst; discriminate |].
  destruct (_transform_and_store_places_with_llm env _ _ _ w5)
    as [[e | news] w6] eqn:Et; intros H; inversion H; subst; [discriminate |].
  intros _.
  destruct (_transform_and_store_places_with_llm_run _ _ _ _ _ _ Et) as [Hnames Hids].
  exists existing, w1, (p :: ps), w2, news.
  cbn [result_places count tomtom_fetched fallback_used success].
  repeat split; try assumption; try discriminate.
  unfold len. rewrite length_app.
  assert (Hlen : length news = length (p :: ps)).
  { rewrite <- (length_map (fun d => name (original d)) news), Hnames, length_map.
    reflexivity. }
  rewrite Hlen. lia.
Qed.

(** The degraded outcome. *)
Lemma degraded_run city category vibe_tags min_results w m :
  db_available env = true ->
  db_fault env (trace w) = None ->
  regex_i env category = Some m ->
  (len (filter (matches_query city m vibe_tags) (places_coll w)) < min_results)%Z ->
  match provider_search env (trace w ++ [DbFind city category vibe_tags])
          (_map_category_to_query category) city
          (min_results - len (filter (matches_query city m vibe_tags) (places_coll w)))
  with
  | inr (Some (_ :: _)) => False
  | _ => True
  end ->
  search_places_with_fallback env city category vibe_tags min_results w
  = (inr {| success := true;
            result_source := Some "database_only";
            result_places :=
              map stringify_id (filter (matches_query city m vibe_tags) (places_coll w));
            count := len (filter (matches_query city m vibe_tags) (places_coll w));
            fallback_used := Some false;
            error := None;
            tomtom_fetched := None;
            reddit_reviews_scraped := None;
            tripadvisor_reviews_scraped := None |},
     {| trace := trace w ++
                 [DbFind city category vibe_tags;
                  ProviderSearch (_map_category_to_query category) city
                    (min_results -
                     len (filter (matches_query city m vibe_tags) (places_coll w)))];
        places_coll := places_coll w;
        next_oid := next_oid w |}).
Proof.
  intros Hdb Hfault Hre Hfew Hprov.
  unfold search_places_with_fallback, try_except, bind.
  rewrite (FallbackProps._search_existing_places_run env city category vibe_tags w m
             Hdb Hfault Hre).
  set (matched := filter (matches_query city m vibe_tags) (places_coll w)) in *.
  assert (Hlen : len (map stringify_id matched) = len matched).
  { unfold len. rewrite length_map. reflexivity. }
  rewrite Hlen.
  destruct (Z.geb_spec (len matched) min_results) as [Hge | _]; [lia |].
  unfold _fetch_tomtom_places, try_except, bind, call, lift, raise, ret.
  cbn [trace places_coll next_oid].
  rewrite <- app_assoc. cbn [app].
  destruct (provider_search env (trace w ++ [DbFind city category vibe_tags])
              (_map_category_to_query category) city (min_results - len matched))
    as [e | [[| p ps] |]]; try reflexivity.
  destruct Hprov.
Qed.

(** The legacy transformation builds what the current one builds from
    an empty enrichment dictionary. *)
Lemma legacy_fold reddit_reviews (tomtom_places : list RawPlace) :
  forall acc w,
    fold_m tomtom_places
      (fun acc place =>
         created <- now env ;;
         updated <- now env ;;
         ret (acc ++ [legacy_place_doc_of place reddit_reviews created updated]))
      acc w
    = fold_m tomtom_places
        (fun acc place =>
           created <- now env ;;
           updated <- now env ;;
           ret (acc ++ [place_doc_of place reddit_reviews [] created updated]))
        acc w.
Proof.
  induction tomtom_places as [| p rest IH]; intros acc w; [reflexivity |].
  cbn [fold_m]. unfold bind at 1 2 3 4 5 6, now, call, ret at 1 2.
  apply IH.
Qed.

End WithEnv.

End FallbackFacts.

(** In the provider branch the answer is the cached matches followed by
    one new place per provider candidate, in the provider's order and
    named after it, whether or not the store kept it; the count is the
    number of cached matches plus the number of candidates, which is
    what [tomtom_fetched] reports. *)
Theorem provider_branch_adds_one_place_per_candidate (env : Env)
    (city category : string) (vibe_tags : list string) (min_results : Z)
    (w : World) r w' :
  FallbackService.search_places_with_fallback env city category vibe_tags
    min_results w = (inr r, w') ->
  FallbackService.result_source r = Some "database_and_tomtom" ->
  exists existing w1 candidates w2 news,
    FallbackService._search_existing_places env city category vibe_tags w
    = (inr existing, w1) /\
    FallbackService._fetch_tomtom_places env city category
      (min_results - FallbackService.len existing) w1 = (inr candidates, w2) /\
    candidates <> [] /\
    (FallbackService.len existing < min_results)%Z /\
    FallbackService.result_places r = existing ++ news /\
    map (fun d => name (original d)) news
    = map (fun p => Some (RedditScraper.named p)) candidates /\
    Forall (fun d => doc_id d = None) news /\
    FallbackService.tomtom_fetched r = Some (FallbackService.len candidates) /\
    FallbackService.count r
    = (FallbackService.len existing + FallbackService.len candidates)%Z /\
    FallbackService.fallback_used r = Some true /\
    FallbackService.success r = true.
Proof. apply FallbackFacts.provider_branch. Qed.

(** Degraded outcome: on a working store with fewer cached matches than
    asked for, when the provider raises or returns nothing, the search
    succeeds with source "database_only" and the cached matches; the
    provider was asked once, for the mapped category and exactly the
    missing number, and no scraper, model or insert call was made. *)
Theorem degraded_outcome_is_database_only (env : Env) (city category : string)
    (vibe_tags : list string) (min_results : Z) (w : World) (m : string -> bool) :
  db_available env = true ->
  db_fault env (trace w) = None ->
  regex_i env category = Some m ->
  (FallbackService.len
     (filter (FallbackService.matches_query city m vibe_tags) (places_coll w))
   < min_results)%Z ->
  match provider_search env (trace w ++ [DbFind city category vibe_tags])
          (FallbackService._map_category_to_query category) city
          (min_results -
           FallbackService.len
             (filter (FallbackService.matches_query city m vibe_tags) (places_coll w)))
  with
  | inr (Some (_ :: _)) => False
  | _ => True
  end ->
  FallbackService.search_places_with_fallback env city category vibe_tags
    min_results w
  = (inr {| FallbackService.success := true;
            FallbackService.result_source := Some "database_only";
            FallbackService.result_places :=
              map FallbackService.stringify_id
                  (filter (FallbackService.matches_query city m vibe_tags)
                          (places_coll w));
            FallbackService.count :=
              FallbackService.len
                (filter (FallbackService.matches_query city m vibe_tags)
                        (places_coll w));
            FallbackService.fallback_used := Some false;
            FallbackService.error := None;
            FallbackService.tomtom_fetched := None;
            FallbackService.reddit_reviews_scraped := None;
            FallbackService.tripadvisor_reviews_scraped := None |},
     {| trace := trace w ++
                 [DbFind city category vibe_tags;
                  ProviderSearch (FallbackService._map_category_to_query category) city
                    (min_results -
                     FallbackService.len
                       (filter (FallbackService.matches_query city m vibe_tags)
                               (places_coll w)))];
        places_coll := places_coll w;
        next_oid := next_oid w |}).
Proof. apply FallbackFacts.degraded_run. Qed.

Lemma provider_branch_adds_one_place_per_candidate_witness :
  let env := Scenario.make_env Scenario.llm_down Scenario.reddit_down
               Scenario.provider_one in
  exists r w',
    FallbackService.search_places_with_fallback env "Delhi" "cafe" [] 3
      Scenario.two_places = (inr r, w') /\
    FallbackService.result_source r = Some "database_and_tomtom" /\
    exists existing w1 candidates w2 news,
      FallbackService._search_existing_places env "Delhi" "cafe" [] Scenario.two_places
      = (inr existing, w1) /\
      FallbackService._fetch_tomtom_places env "Delhi" "cafe"
        (3 - FallbackService.len existing) w1 = (inr candidates, w2) /\
      candidates <> [] /\
      (FallbackService.len existing < 3)%Z /\
      FallbackService.result_places r = existing ++ news /\
      map (fun d => name (original d)) news
      = map (fun p => Some (RedditScraper.named p)) candidates /\
      Forall (fun d => doc_id d = None) news /\
      FallbackService.tomtom_fetched r = Some (FallbackService.len candidates) /\
      FallbackService.count r
      = (FallbackService.len existing + FallbackService.len candidates)%Z /\
      FallbackService.fallback_used r = Some true /\
      FallbackService.success r = true.
Proof.
  intros env. eexists. eexists.
  split; [vm_compute; reflexivity |].
  split; [reflexivity |].
  eapply (provider_branch_adds_one_place_per_candidate env "Delhi" "cafe" [] 3
            Scenario.two_places);
    [vm_compute; reflexivity | reflexivity].
Defined.

Lemma degraded_outcome_is_database_only_witness :
  let env := Scenario.offline_env in
  let w := Scenario.two_places in
  let m := match Scenario.dot_regex "cafe" with
           | Some m => m
           | None => fun _ => false
           end in
  let matched := filter (FallbackService.matches_query "Delhi" m []) (places_coll w) in
  (db_available env = true /\
   db_fault env (trace w) = None /\
   regex_i env "cafe" = Some m /\
   (FallbackService.len matched < 3)%Z) /\
  FallbackService.search_places_with_fallback env "Delhi" "cafe" [] 3 w
  = (inr {| FallbackService.success := true;
            FallbackService.result_source := Some "database_only";
            FallbackService.result_places := map FallbackService.stringify_id matched;
            FallbackService.count := FallbackService.len matched;
            FallbackService.fallback_used := Some false;
            FallbackService.error := None;
            FallbackService.tomtom_fetched := None;
            FallbackService.reddit_reviews_scraped := None;
            FallbackService.tripadvisor_reviews_scraped := None |},
     {| trace := trace w ++
                 [DbFind "Delhi" "cafe" [];
                  ProviderSearch (FallbackService._map_category_to_query "cafe") "Delhi"
                    (3 - FallbackService.len matched)];
        places_coll := places_coll w;
        next_oid := next_oid w |}).
Proof.
  intros env w m matched.
  assert (Hdb : db_available env = true) by reflexivity.
  assert (Hfault : db_fault env (trace w) = None) by reflexivity.
  assert (Hre : regex_i env "cafe" = Some m) by reflexivity.
  assert (Hfew : (FallbackService.len matched < 3)%Z) by (vm_compute; reflexivity).
  split; [repeat split; assumption |].
  apply (degraded_outcome_is_database_only env "Delhi" "cafe" [] 3 w m
           Hdb Hfault Hre Hfew).
  vm_compute. exact I.
Defined.

(** [_combine_reviews]: the combined dictionary has exactly the names of
    the two dictionaries, each once, in the iteration order of their
    set; a name is mapped to its Reddit reviews followed by its
    TripAdvisor reviews, and a name of neither is not a key. *)
Theorem combined_reviews_lookup (env : Env)
    (reddit_reviews tripadvisor_reviews : list (string * list Review)) :
  let combined := FallbackService._combine_reviews env reddit_reviews tripadvisor_reviews in
  let names := map fst reddit_reviews ++ map fst tripadvisor_reviews in
  map fst combined = set_to_list (set_order env) names /\
  forall n,
    dict_get n combined
    = if existsb (String.eqb n) names
      then Some ((match dict_get n reddit_reviews with Some r => r | None => [] end) ++
                 (match dict_get n tripadvisor_reviews with Some r => r | None => [] end))
      else None.
Proof.
  intros combined names. split.
  - unfold combined, FallbackService._combine_reviews. fold names.
    apply (FallbackFacts.fold_left_dict_set_keys
             (fun k =>
                (match dict_get k reddit_reviews with Some r => r | None => [] end) ++
                (match dict_get k tripadvisor_reviews with Some r => r | None => [] end))
             (set_to_list (set_order env) names) []).
    + apply set_to_list_nodup.
    + intros k _ [].
  - intros n. unfold combined, FallbackService._combine_reviews. fold names.
    rewrite (FallbackFacts.fold_left_dict_set
               (fun k =>
                  (match dict_get k reddit_reviews with Some r => r | None => [] end) ++
                  (match dict_get k tripadvisor_reviews with Some r => r | None => [] end))).
    destruct (in_dec string_dec n (set_to_list (set_order env) names)) as [Hin | Hnin].
    + apply set_to_list_elems in Hin.
      destruct (existsb (String.eqb n) names) eqn:Ex; [reflexivity |].
      exfalso. apply (proj2 (RefinerFacts.existsb_eqb_in n names)) in Hin. congruence.
    + destruct (existsb (String.eqb n) names) eqn:Ex; [| reflexivity].
      exfalso. apply Hnin. apply set_to_list_elems.
      apply (proj1 (RefinerFacts.existsb_eqb_in n names)). exact Ex.
Qed.

(** The legacy [_transform_and_store_places] does what the current
    transformation does when handed an empty enrichment dictionary: the
    same documents, the same store, the same history. *)
Theorem legacy_transform_is_transform_without_enrichment (env : Env)
    (tomtom_places : list RawPlace) (reddit_reviews : list (string * list Review))
    (w : World) :
  FallbackService._transform_and_store_places env tomtom_places reddit_reviews w
  = FallbackService._transform_and_store_places_with_llm env tomtom_places
      reddit_reviews [] w.
Proof.
  unfold FallbackService._transform_and_store_places,
    FallbackService._transform_and_store_places_with_llm.
  unfold bind at 1.
  rewrite FallbackFacts.legacy_fold. reflexivity.
Qed.

(** ** Enrichment: the retry policy *)

Module EnrichFacts.
Import LLMProcessor.

Section WithEnv.
Variable env : Env.


End WithEnv.

End EnrichFacts.





(** ** What touches the store *)

Module FrameFacts.

Lemma keeps_ret {A} (a : A) : keeps_store (ret a).
Proof. intros w r w' H. inversion H; subst. split; reflexivity. Qed.

Lemma keeps_raise {A} (e : Exn) : keeps_store (@raise A e).
Proof. intros w r w' H. inversion H; subst. split; reflexivity. Qed.

Lemma keeps_lift {A} (r : Exn + A) : keeps_store (lift r).
Proof. destruct r; [apply keeps_raise | apply keeps_ret]. Qed.

Lemma keeps_call {A} (ev : Event) (oracle : list Event -> A) :
  keeps_store (call ev oracle).
Proof. intros w r w' H. inversion H; subst. split; reflexivity. Qed.

Lemma keeps_bind {A B} (m : M A) (f : A -> M B) :
  keeps_store m -> (forall a, keeps_store (f a)) -> keeps_store (bind m f).
Proof.
  intros Hm Hf w r w'. unfold bind.
  destruct (m w) as [[e | a] w1] eqn:E; destruct (Hm _ _ _ E) as [Hc Hn].
  - intros H; inversion H; subst. split; assumption.
  - intros H. destruct (Hf a _ _ _ H) as [Hc' Hn']. split; congruence.
Qed.

Lemma keeps_try {A} (m : M A) (h : Exn -> M A) :
  keeps_store m -> (forall e, keeps_store (h e)) -> keeps_store (try_except m h).
Proof.
  intros Hm Hh w r w'. unfold try_except.
  destruct (m w) as [[e | a] w1] eqn:E; destruct (Hm _ _ _ E) as [Hc Hn].
  - intros H. destruct (Hh e _ _ _ H) as [Hc' Hn']. split; congruence.
  - intros H; inversion H; subst. split; assumption.
Qed.

Lemma keeps_fold {A S} (l : list A) (body : S -> A -> M S) :
  (forall acc x, keeps_store (body acc x)) ->
  forall acc, keeps_store (fold_m l body acc).
Proof.
  intros Hb. induction l as [| x r IH]; intros acc; cbn [fold_m].
  - apply keeps_ret.
  - apply keeps_bind; [apply Hb | intros; apply IH].
Qed.

Lemma keeps_for_each {A} (l : list A) (body : A -> M unit) :
  (forall x, keeps_store (body x)) -> keeps_store (for_each l body).
Proof.
  intros Hb. induction l as [| x r IH]; cbn [for_each].
  - apply keeps_ret.
  - apply keeps_bind; [apply Hb | intros; apply IH].
Qed.

Section WithEnv.
Variable env : Env.

Lemma keeps_generate_content p t : keeps_store (generate_content env p t).
Proof.
  unfold generate_content. apply keeps_bind; [apply keeps_call | apply keeps_lift].
Qed.

Lemma keeps_sleep n : keeps_store (sleep n).
Proof. apply keeps_call. Qed.

Lemma keeps_now : keeps_store (now env).
Proof. apply keeps_call. Qed.

Lemma keeps_db_read {A} ev (read : list PlaceDoc -> Exn + A) :
  keeps_store (PlaceController.db_read env ev read).
Proof.
  intros w r w'. unfold PlaceController.db_read.
  destruct (db_available env); cbn [negb].
  - destruct (db_fault env (trace w)); intros H; inversion H; subst;
      split; reflexivity.
  - intros H; inversion H; subst. split; reflexivity.
Qed.

Lemma keeps_filter_batch place_name place_type batch :
  keeps_store (ReviewRefiner.filter_batch env place_name place_type batch).
Proof.
  apply keeps_try.
  - apply keeps_bind; [apply keeps_generate_content | intros; apply keeps_ret].
  - intros; apply keeps_ret.
Qed.

Lemma keeps_filter_relevant_reviews_batched reviews place_name place_type :
  keeps_store
    (ReviewRefiner.filter_relevant_reviews_batched env reviews place_name place_type).
Proof.
  unfold ReviewRefiner.filter_relevant_reviews_batched.
  destruct reviews as [| r rs]; [apply keeps_ret |].
  apply keeps_bind; [| intros; apply keeps_ret].
  apply keeps_fold. intros acc x.
  apply keeps_bind; [apply keeps_filter_batch | intros; apply keeps_ret].
Qed.

Lemma keeps_refine_loop cfg place_name place_type fetch_more :
  (forall fetch, fetch_more = Some fetch -> keeps_store fetch) ->
  forall fuel iteration current relevant,
    keeps_store
      (ReviewRefiner.refine_loop env fuel cfg place_name place_type fetch_more
         iteration current relevant).
Proof.
  intros Hfetch.
  induction fuel as [| fuel IH]; intros iteration current relevant;
    cbn [ReviewRefiner.refine_loop].
  - apply keeps_ret.
  - destruct (iteration <? ReviewRefiner.max_iterations cfg)%Z; [| apply keeps_ret].
    apply keeps_bind; [apply keeps_filter_relevant_reviews_batched |].
    intros it.
    destruct (_ >=? _)%Z; [apply keeps_ret |].
    destruct fetch_more as [fetch |]; [| apply keeps_ret].
    destruct (iteration <? ReviewRefiner.max_iterations cfg - 1)%Z; [| apply keeps_ret].
    apply keeps_bind.
    + apply keeps_try; [| intros; apply keeps_ret].
      apply keeps_bind; [apply (Hfetch fetch eq_refl) | intros; apply keeps_ret].
    + intros [e | [| r rs]]; try apply keeps_ret. apply IH.
Qed.

Lemma keeps_refine_reviews_with_llm cfg initial place_name place_type fetch_more :
  (forall fetch, fetch_more = Some fetch -> keeps_store fetch) ->
  keeps_store
    (ReviewRefiner.refine_reviews_with_llm env cfg initial place_name place_type
       fetch_more).
Proof.
  intros Hfetch. unfold ReviewRefiner.refine_reviews_with_llm,
    ReviewRefiner.refine_outcome.
  apply keeps_bind; [apply keeps_refine_loop; exact Hfetch | intros; apply keeps_ret].
Qed.

Lemma keeps__refine_reviews_with_llm cfg reviews place_name city :
  keeps_store (RedditScraper._refine_reviews_with_llm env cfg reviews place_name city).
Proof.
  unfold RedditScraper._refine_reviews_with_llm.
  destruct (RedditScraper.use_llm_refinement cfg); cbn [negb]; [| apply keeps_ret].
  apply keeps_bind; [| intros; apply keeps_ret].
  apply keeps_refine_reviews_with_llm.
  intros fetch Hf. inversion Hf; subst. apply keeps_raise.
Qed.

Lemma keeps_search_place_reviews cfg place_name city max_results :
  keeps_store (RedditScraper.search_place_reviews env cfg place_name city max_results).
Proof.
  unfold RedditScraper.search_place_reviews.
  apply keeps_try; [| intros; apply keeps_ret].
  cbv zeta. apply keeps_bind; [apply keeps_call |].
  intros [e | status body]; [apply keeps_raise |].
  destruct (negb (status =? 200)%Z); [apply keeps_ret |].
  apply keeps_bind; [apply keeps_lift |].
  intros data.
  destruct (match data with
            | Some children => flat_map RedditScraper.review_of_post children
            | None => []
            end) as [| r0 rs]; [apply keeps_ret |].
  destruct (RedditScraper.use_llm_refinement cfg); [| apply keeps_ret].
  destruct (PyStr.take max_results (RedditScraper.sort_by_score (r0 :: rs)));
    [apply keeps_ret | apply keeps__refine_reviews_with_llm].
Qed.

Lemma keeps_scrape_multiple_places cfg places city :
  keeps_store (RedditScraper.scrape_multiple_places env cfg places city).
Proof.
  unfold RedditScraper.scrape_multiple_places.
  apply keeps_fold. intros acc place. cbv zeta.
  destruct (String.eqb _ ""); [apply keeps_ret |].
  apply keeps_bind; [apply keeps_search_place_reviews |].
  intros reviews. apply keeps_bind; [apply keeps_sleep | intros; apply keeps_ret].
Qed.

Lemma keeps_process_place_reviews place_name place_category reviews :
  keeps_store
    (LLMProcessor.process_place_reviews env place_name place_category reviews).
Proof.
  unfold LLMProcessor.process_place_reviews. cbv zeta.
  apply keeps_try.
  - destruct (String.eqb _ ""); [apply keeps_ret |].
    apply keeps_bind; [apply keeps_generate_content |].
    intros response.
    apply keeps_bind; [apply keeps_lift |]. intros n.
    apply keeps_bind; [apply keeps_lift |]. intros k. apply keeps_ret.
  - intros e. apply keeps_bind.
    + destruct (LLMProcessor.is_transient e); [| apply keeps_ret].
      apply keeps_try; [| intros; apply keeps_ret].
      apply keeps_bind; [apply keeps_generate_content | intros; apply keeps_ret].
    + intros [d |]; apply keeps_ret.
Qed.

Lemma keeps_process_multiple_places places_with_reviews city :
  keeps_store (LLMProcessor.process_multiple_places env places_with_reviews city).
Proof.
  unfold LLMProcessor.process_multiple_places.
  apply keeps_fold. intros acc item. cbv zeta.
  apply keeps_bind; [apply keeps_process_place_reviews | intros; apply keeps_ret].
Qed.

Lemma keeps_log_processed processed_data :
  keeps_store (FallbackService.log_processed processed_data).
Proof.
  unfold FallbackService.log_processed. apply keeps_for_each. intros item.
  apply keeps_bind; [apply keeps_lift |]. intros n.
  apply keeps_bind; [apply keeps_lift |]. intros k. apply keeps_ret.
Qed.

Lemma keeps__search_existing_places city category vibe_tags :
  keeps_store (FallbackService._search_existing_places env city category vibe_tags).
Proof.
  unfold FallbackService._search_existing_places.
  destruct (negb (db_available env)); [apply keeps_ret |].
  apply keeps_bind; [apply keeps_db_read | intros; apply keeps_ret].
Qed.

Lemma keeps__fetch_tomtom_places city category limit :
  keeps_store (FallbackService._fetch_tomtom_places env city category limit).
Proof.
  unfold FallbackService._fetch_tomtom_places.
  apply keeps_try; [| intros; apply keeps_ret].
  cbv zeta. apply keeps_bind; [apply keeps_call |]. intros r.
  apply keeps_bind; [apply keeps_lift | intros; apply keeps_ret].
Qed.

Lemma keeps_classify_intent user_query :
  keeps_store (IntentClassifier.classify_intent env user_query).
Proof.
  unfold IntentClassifier.classify_intent.
  apply keeps_try; [| intros; apply keeps_lift].
  apply keeps_bind.
  - unfold generate_json.
    apply keeps_bind; [apply keeps_generate_content |].
    intros text. cbv zeta.
    destruct (json_loads env _); [apply keeps_ret | apply keeps_raise].
  - intros response. destruct response; first [apply keeps_ret | apply keeps_lift].
Qed.

End WithEnv.

End FrameFacts.

Module SearchFacts.
Import FallbackService.

Section WithEnv.
Variable env : Env.

(** The transformation step only appends to the store. *)
Lemma transform_store tomtom_places reddit_reviews processed_data w r w' :
  _transform_and_store_places_with_llm env tomtom_places reddit_reviews
    processed_data w = (r, w') ->
  exists added,
    places_coll w' = places_coll w ++ added /\
    (forall d, In d added -> PlaceController.fresh_for (places_coll w) d).
Proof.
  unfold _transform_and_store_places_with_llm. unfold bind at 1.
  match goal with
  | |- context [fold_m tomtom_places ?body [] w] =>
      destruct (fold_m tomtom_places body [] w) as [[e | docs] w1] eqn:Ef;
      assert (Hk : keeps_store (fold_m tomtom_places body []))
  end.
  1, 3: apply FrameFacts.keeps_fold; intros acc place;
    apply FrameFacts.keeps_bind; [apply FrameFacts.keeps_now |]; intros created;
    apply FrameFacts.keeps_bind; [apply FrameFacts.keeps_now |]; intros updated;
    apply FrameFacts.keeps_ret.
  - destruct (Hk _ _ _ Ef) as [Hc _].
    intros H; inversion H; subst. exists []. rewrite app_nil_r.
    split; auto. intros d [].
  - destruct (Hk _ _ _ Ef) as [Hc _].
    destruct docs as [| d0 ds].
    + intros H; inversion H; subst. exists []. rewrite app_nil_r.
      split; auto. intros d [].
    + unfold bind.
      destruct (PlaceController.bulk_insert_places env _ w1) as [[e | ids] w2] eqn:Eb;
        destruct (StoreFacts.bulk_insert_places_result env _ _ _ _ Eb)
          as (added & Hadd & Hfresh & _);
        intros H; inversion H; subst; exists added; rewrite <- Hc;
        split; auto.
Qed.

Lemma search_store city category vibe_tags min_results w r w' :
  search_places_with_fallback env city category vibe_tags min_results w = (r, w') ->
  exists res added,
    r = inr res /\
    places_coll w' = places_coll w ++ added /\
    (forall d, In d added -> PlaceController.fresh_for (places_coll w) d) /\
    (result_source res = Some "database" \/ result_source res = Some "database_only" ->
     added = []).
Proof.
  unfold search_places_with_fallback, try_except, bind.
  destruct (_search_existing_places env city category vibe_tags w)
    as [[e | existing] w1] eqn:E1;
    destruct (FrameFacts.keeps__search_existing_places env _ _ _ _ _ _ E1) as [Hc1 _].
  { intros H; inversion H; subst. eexists; exists []. rewrite app_nil_r.
    repeat split; auto. intros d []. }
  destruct (len existing >=? min_results)%Z.
  { intros H; inversion H; subst. eexists; exists []. rewrite app_nil_r.
    repeat split; auto. intros d []. }
  destruct (_fetch_tomtom_places env city category _ w1)
    as [[e | candidates] w2] eqn:E2;
    destruct (FrameFacts.keeps__fetch_tomtom_places env _ _ _ _ _ _ E2) as [Hc2 _].
  { intros H; inversion H; subst. eexists; exists []. rewrite app_nil_r.
    repeat split; auto; [congruence | intros d []]. }
  destruct candidates as [| p ps].
  { intros H; inversion H; subst. eexists; exists []. rewrite app_nil_r.
    repeat split; auto; [congruence | intros d []]. }
  destruct (RedditScraper.scrape_multiple_places env _ _ city w2)
    as [[e | reddit_reviews] w3] eqn:E3;
    destruct (FrameFacts.keeps_scrape_multiple_places env _ _ _ _ _ _ E3) as [Hc3 _].
  { intros H; inversion H; subst. eexists; exists []. rewrite app_nil_r.
    repeat split; auto; [congruence | intros d []]. }
  destruct (LLMProcessor.process_multiple_places env reddit_reviews city w3)
    as [[e | processed_data] w4] eqn:E4;
    destruct (FrameFacts.keeps_process_multiple_places env _ _ _ _ _ E4) as [Hc4 _].
  { intros H; inversion H; subst. eexists; exists []. rewrite app_nil_r.
    repeat split; auto; [congruence | intros d []]. }
  destruct (log_processed processed_data w4) as [[e | []] w5] eqn:E5;
    destruct (FrameFacts.keeps_log_processed _ _ _ _ E5) as [Hc5 _].
  { intros H; inversion H; subst. eexists; exists []. rewrite app_nil_r.
    repeat split; auto; [congruence | intros d []]. }
  assert (Hc : places_coll w5 = places_coll w) by congruence.
  destruct (_transform_and_store_places_with_llm env _ _ _ w5)
    as [[e | news] w6] eqn:E6;
    destruct (transform_store _ _ _ _ _ _ E6) as (added & Hadd & Hfresh);
    rewrite Hc in Hadd, Hfresh;
    intros H; inversion H; subst; eexists; exists added;
    repeat split; auto;
    cbn [result_source]; intros [Hs | Hs]; discriminate Hs.
Qed.

End WithEnv.

End SearchFacts.

(** A search never removes, reorders or rewrites a stored place: it
    always returns a result, and the collection after the search is the
    collection before it followed by the documents added, each with a
    non-empty identifier the store did not have.  An answer with source
    "database" or "database_only" has added nothing. *)
Theorem search_only_appends_to_store (env : Env) (city category : string)
    (vibe_tags : list string) (min_results : Z) (w : World) r w' :
  FallbackService.search_places_with_fallback env city category vibe_tags
    min_results w = (r, w') ->
  exists res added,
    r = inr res /\
    places_coll w' = places_coll w ++ added /\
    (forall d, In d added -> PlaceController.fresh_for (places_coll w) d) /\
    (FallbackService.result_source res = Some "database" \/
     FallbackService.result_source res = Some "database_only" -> added = []).
Proof. apply SearchFacts.search_store. Qed.

Lemma search_only_appends_to_store_witness :
  let env := Scenario.make_env Scenario.llm_down Scenario.reddit_down
               Scenario.provider_one in
  let out := FallbackService.search_places_with_fallback env "Delhi" "cafe" [] 3
               Scenario.two_places in
  exists res added,
    fst out = inr res /\
    places_coll (snd out) = places_coll Scenario.two_places ++ added /\
    (forall d, In d added ->
       PlaceController.fresh_for (places_coll Scenario.two_places) d) /\
    (FallbackService.result_source res = Some "database" \/
     FallbackService.result_source res = Some "database_only" -> added = []).
Proof.
  intros env out.
  apply (search_only_appends_to_store env "Delhi" "cafe" [] 3 Scenario.two_places
           (fst out) (snd out)).
  vm_compute. reflexivity.
Defined.

(** ** The text handed to [json.loads] *)

Module TextFacts.

Lemma list_of_append (a b : string) :
  list_ascii_of_string (a ++ b) = list_ascii_of_string a ++ list_ascii_of_string b.
Proof.
  induction a as [| c a IH]; [reflexivity |].
  cbn [String.append list_ascii_of_string app]. rewrite IH. reflexivity.
Qed.

Lemma length_list_of (a : string) :
  length (list_ascii_of_string a) = String.length a.
Proof.
  induction a as [| c a IH]; [reflexivity |].
  cbn [list_ascii_of_string length String.length]. rewrite IH. reflexivity.
Qed.

Lemma append_assoc (a b c : string) : ((a ++ b) ++ c = a ++ (b ++ c))%string.
Proof.
  induction a as [| x a IH]; [reflexivity |].
  cbn [String.append]. rewrite IH. reflexivity.
Qed.

Lemma length_of_append (a b : string) :
  String.length (a ++ b) = String.length a + String.length b.
Proof.
  induction a as [| x a IH]; [reflexivity |].
  cbn [String.append String.length]. rewrite IH. reflexivity.
Qed.

(** A one-character needle that is not in a string is not its head and
    not in its tail. *)
Lemma not_in_cons (c d : ascii) (r : string) :
  PyStr.contains (String c "") (String d r) = false ->
  Ascii.eqb c d = false /\ PyStr.contains (String c "") r = false.
Proof.
  cbn [PyStr.contains String.prefix].
  destruct (ascii_dec c d) as [-> | Hne].
  - destruct r; discriminate.
  - intros H. split; [apply Ascii.eqb_neq; exact Hne | exact H].
Qed.

Lemma find_char_from_app (c : ascii) (pre rest : string) :
  PyStr.contains (String c "") pre = false ->
  forall i, PyStr.find_char_from c (pre ++ String c rest) i
            = (i + Z.of_nat (String.length pre))%Z.
Proof.
  induction pre as [| d pre IH]; intros Hno i.
  - cbn [String.append PyStr.find_char_from String.length].
    rewrite Ascii.eqb_refl. cbn. lia.
  - apply not_in_cons in Hno. destruct Hno as [Hd Hno].
    cbn [String.append PyStr.find_char_from String.length].
    rewrite Hd, (IH Hno). lia.
Qed.

Lemma rfind_char_from_none (c : ascii) (post : string) :
  PyStr.contains (String c "") post = false ->
  forall i last, PyStr.rfind_char_from c post i last = last.
Proof.
  induction post as [| d post IH]; intros Hno i last; [reflexivity |].
  apply not_in_cons in Hno. destruct Hno as [Hd Hno].
  cbn [PyStr.rfind_char_from]. rewrite Hd. apply (IH Hno).
Qed.

Lemma rfind_char_from_app (c : ascii) (a post : string) :
  PyStr.contains (String c "") post = false ->
  forall i last, PyStr.rfind_char_from c (a ++ String c post) i last
                 = (i + Z.of_nat (String.length a))%Z.
Proof.
  intros Hno. induction a as [| d a IH]; intros i last.
  - cbn [String.append PyStr.rfind_char_from String.length].
    rewrite Ascii.eqb_refl, (rfind_char_from_none c post Hno). cbn. lia.
  - cbn [String.append PyStr.rfind_char_from String.length].
    rewrite IH. lia.
Qed.

Lemma sslice_middle (p m q : string) :
  PyStr.sslice (Z.of_nat (String.length p))
               (Z.of_nat (String.length p + String.length m)) (p ++ m ++ q) = m.
Proof.
  unfold PyStr.sslice, PyStr.slice, PyStr.clip.
  rewrite !list_of_append, !length_app, !length_list_of.
  destruct (Z.ltb_spec (Z.of_nat (String.length p)) 0) as [Hneg | _]; [lia |].
  destruct (Z.ltb_spec (Z.of_nat (String.length p + String.length m)) 0)
    as [Hneg | _]; [lia |].
  rewrite !Nat2Z.id.
  replace (Nat.min (String.length p + (String.length m + String.length q))
                   (String.length p)) with (String.length p) by lia.
  replace (Nat.min (String.length p + (String.length m + String.length q))
                   (String.length p + String.length m))
    with (String.length p + String.length m) by lia.
  replace (String.length p + String.length m - String.length p)
    with (String.length m) by lia.
  rewrite <- (length_list_of p) at 1. rewrite skipn_app, skipn_all, Nat.sub_diag.
  cbn [app skipn].
  rewrite <- (length_list_of m) at 1. rewrite firstn_app, firstn_all, Nat.sub_diag.
  cbn [firstn]. rewrite app_nil_r. apply string_of_list_ascii_of_string.
Qed.

(** The braces found in a text that wraps an object in prose. *)
Lemma braces_found (pre mid post : string) :
  PyStr.contains "{" pre = false ->
  PyStr.contains "}" post = false ->
  let s := (pre ++ "{" ++ mid ++ "}" ++ post)%string in
  PyStr.find_char "{" s = Z.of_nat (String.length pre) /\
  (PyStr.rfind_char "}" s + 1)%Z
  = Z.of_nat (String.length pre + String.length ("{" ++ mid ++ "}")) /\
  PyStr.sslice (PyStr.find_char "{" s) (PyStr.rfind_char "}" s + 1) s
  = ("{" ++ mid ++ "}")%string.
Proof.
  intros Hpre Hpost s.
  assert (Hstart : PyStr.find_char "{" s = Z.of_nat (String.length pre)).
  { unfold PyStr.find_char, s. cbn [String.append].
    rewrite (find_char_from_app "{" pre _ Hpre). lia. }
  assert (Hend : (PyStr.rfind_char "}" s + 1)%Z
                 = Z.of_nat (String.length pre + String.length ("{" ++ mid ++ "}"))).
  { unfold PyStr.rfind_char, s.
    replace (pre ++ "{" ++ mid ++ "}" ++ post)%string
      with ((pre ++ String "{" mid) ++ String "}" post)%string
      by (rewrite append_assoc; reflexivity).
    rewrite (rfind_char_from_app "}" _ post Hpost).
    rewrite !length_of_append. cbn [String.append String.length].
    rewrite ?length_of_append. cbn [String.length]. lia. }
  split; [exact Hstart |]. split; [exact Hend |].
  rewrite Hstart, Hend. unfold s.
  replace (pre ++ "{" ++ mid ++ "}" ++ post)%string
    with (pre ++ ("{" ++ mid ++ "}") ++ post)%string.
  - apply sslice_middle.
  - cbn [String.append]. rewrite append_assoc. reflexivity.
Qed.

End TextFacts.

(** Prose around the object does not matter to [_parse_llm_response]:
    when the text before the object has no opening brace and the text
    after it has no closing brace, the response is read exactly as the
    object alone would be. *)
Theorem prose_around_json_is_ignored (env : Env) (pre mid post : string) :
  PyStr.contains "{" pre = false ->
  PyStr.contains "}" post = false ->
  LLMProcessor._parse_llm_response env (pre ++ "{" ++ mid ++ "}" ++ post)
  = LLMProcessor._parse_llm_response env ("{" ++ mid ++ "}").
Proof.
  intros Hpre Hpost.
  assert (Hempty : PyStr.contains "}" "" = false) by reflexivity.
  assert (Hempty' : PyStr.contains "{" "" = false) by reflexivity.
  destruct (TextFacts.braces_found pre mid post Hpre Hpost) as (Hs & He & Hsl).
  destruct (TextFacts.braces_found "" mid "" Hempty' Hempty) as (Hs0 & He0 & Hsl0).
  cbn [String.append] in *.
  unfold LLMProcessor._parse_llm_response, LLMProcessor.parse_json_object.
  cbv zeta. rewrite Hsl, Hsl0.
  rewrite Hs, Hs0. rewrite He, He0.
  destruct (Z.eqb_spec (Z.of_nat (String.length pre)) (-1)) as [Hbad | _]; [lia |].
  destruct (Z.eqb_spec
              (Z.of_nat (String.length pre + String.length (String "{" (mid ++ "}"))))
              0) as [Hbad | _]; [cbn [String.length] in Hbad; lia |].
  reflexivity.
Qed.

Lemma prose_around_json_is_ignored_witness :
  PyStr.contains "{" "Here is the result: " = false /\
  PyStr.contains "}" " Hope this helps!" = false /\
  LLMProcessor._parse_llm_response Scenario.offline_env
    ("Here is the result: " ++ "{" ++ "" ++ "}" ++ " Hope this helps!")
  = LLMProcessor._parse_llm_response Scenario.offline_env ("{" ++ "" ++ "}") /\
  LLMProcessor._parse_llm_response Scenario.offline_env ("{" ++ "" ++ "}")
  = {| e_summary := JStr ""; e_vibe_tags := JArr []; e_emojis := JArr [] |}.
Proof.
  split; [reflexivity |]. split; [reflexivity |]. split; [| reflexivity].
  apply (prose_around_json_is_ignored Scenario.offline_env
           "Here is the result: " "" " Hope this helps!"); reflexivity.
Defined.

(** [generate_json] hands [json.loads] the text from the first opening
    brace to the last closing brace: with prose around the object, the
    answer is the parsed object, and when the object does not parse, the
    error "Invalid JSON response from OpenRouter: " followed by the
    decoder's message for that text.  One model call is made, at the
    low temperature. *)
Theorem generate_json_reads_object_inside_prose (env : Env) (p : Prompt) (w : World)
    (pre mid post : string) :
  llm_complete env (trace w) (JsonOnly p) low_temperature
  = inr (pre ++ "{" ++ mid ++ "}" ++ post)%string ->
  PyStr.contains "{" pre = false ->
  PyStr.contains "}" post = false ->
  generate_json env p w
  = (match json_loads env ("{" ++ mid ++ "}") with
     | Some v => inr v
     | None =>
         inl ("Invalid JSON response from OpenRouter: " ++
              json_error env ("{" ++ mid ++ "}"))%string
     end,
     {| trace := trace w ++ [LlmCall (JsonOnly p) low_temperature];
        places_coll := places_coll w;
        next_oid := next_oid w |}).
Proof.
  intros Hllm Hpre Hpost.
  destruct (TextFacts.braces_found pre mid post Hpre Hpost) as (Hs & He & Hsl).
  unfold generate_json, generate_content, bind, call, lift.
  rewrite Hllm. cbn [ret]. cbv zeta.
  rewrite Hsl, Hs, He.
  destruct (Z.eqb_spec (Z.of_nat (String.length pre)) (-1)) as [Hbad | _]; [lia |].
  destruct (Z.gtb_spec
              (Z.of_nat (String.length pre + String.length ("{" ++ mid ++ "}")))
              (Z.of_nat (String.length pre))) as [_ | Hbad];
    [| cbn [String.append String.length] in Hbad; lia].
  cbn [negb andb].
  destruct (json_loads env ("{" ++ mid ++ "}")); reflexivity.
Qed.

Lemma generate_json_reads_object_inside_prose_witness :
  let env := Scenario.make_env (Scenario.llm_says "Sure: {} Done.")
               Scenario.reddit_down Scenario.provider_none in
  let p := IntentPrompt "hello" in
  let w := Scenario.empty_world in
  generate_json env p w
  = (match json_loads env ("{" ++ "" ++ "}") with
     | Some v => inr v
     | None =>
         inl ("Invalid JSON response from OpenRouter: " ++
              json_error env ("{" ++ "" ++ "}"))%string
     end,
     {| trace := trace w ++ [LlmCall (JsonOnly p) low_temperature];
        places_coll := places_coll w;
        next_oid := next_oid w |}) /\
  fst (generate_json env p w) = inr (JObj []).
Proof.
  intros env p w. split; [| reflexivity].
  apply (generate_json_reads_object_inside_prose env p w "Sure: " "" " Done.");
    reflexivity.
Defined.

(** ** Enrichment of several places *)

Module EnrichManyFacts.
Import LLMProcessor.

Section WithEnv.
Variable env : Env.

Lemma process_place_reviews_never_raises place_name place_category reviews :
  never_raises (process_place_reviews env place_name place_category reviews).
Proof.
  unfold process_place_reviews. cbv zeta.
  apply never_raises_try. intros e.
  apply never_raises_bind.
  - destruct (is_transient e); [| apply never_raises_ret].
    apply never_raises_try. intros e'. apply never_raises_ret.
  - intros [d |]; apply never_raises_ret.
Qed.

Lemma process_fold (l : list (string * list Review)) :
  forall acc w,
    NoDup (map fst l) ->
    (forall k, In k (map fst l) -> ~ In k (map fst acc)) ->
    exists results w',
      fold_m l
        (fun results item =>
           processed_data <-
             process_place_reviews env (fst item)
               (_infer_category_from_name (fst item)) (snd item) ;;
           ret (dict_set (fst item) processed_data results))
        acc w = (inr results, w') /\
      map fst results = map fst acc ++ map fst l /\
      places_coll w' = places_coll w.
Proof.
  induction l as [| [k v] rest IH]; intros acc w Hnd Hfresh.
  - exists acc, w. cbn [fold_m map]. rewrite app_nil_r. repeat split.
  - cbn [map fst] in Hnd. inversion Hnd as [| x xs Hnin Hnd']; subst.
    cbn [fold_m fst snd]. unfold bind at 1 2.
    destruct (process_place_reviews_never_raises k (_infer_category_from_name k) v w)
      as (pd & w1 & Hrun).
    rewrite Hrun. unfold ret at 1.
    destruct (FrameFacts.keeps_process_place_reviews env _ _ _ _ _ _ Hrun) as [Hc _].
    destruct (IH (dict_set k pd acc) w1 Hnd') as (results & w' & Hfold & Hkeys & Hc').
    + intros k' Hk' Hin. apply ScrapeFacts.dict_set_keys in Hin.
      destruct Hin as [-> | Hin]; [contradiction |].
      apply (Hfresh k'); [right; exact Hk' | exact Hin].
    + exists results, w'. split; [exact Hfold |]. split; [| congruence].
      rewrite Hkeys, FallbackFacts.dict_set_fresh by (apply Hfresh; left; reflexivity).
      rewrite <- app_assoc. reflexivity.
Qed.

End WithEnv.

End EnrichManyFacts.

(** [process_multiple_places] always returns, and for a dictionary of
    reviews (distinct names) the result has exactly the same names in
    the same order: every place gets an entry, whether the model
    answered, failed or was not asked.  The store is not touched. *)
Theorem process_multiple_places_one_entry_per_place (env : Env)
    (places_with_reviews : list (string * list Review)) (city : string) (w : World) :
  NoDup (map fst places_with_reviews) ->
  exists results w',
    LLMProcessor.process_multiple_places env places_with_reviews city w
    = (inr results, w') /\
    map fst results = map fst places_with_reviews /\
    places_coll w' = places_coll w.
Proof.
  intros Hnd.
  destruct (EnrichManyFacts.process_fold env places_with_reviews [] w Hnd)
    as (results & w' & Hrun & Hkeys & Hc).
  - intros k _ [].
  - exists results, w'. repeat split; assumption.
Qed.

Lemma process_multiple_places_one_entry_per_place_witness :
  let reviews := [Scenario.review_with "Great coffee and a quiet corner."] in
  let input := [("Blue Tokai", reviews); ("Central Park", [])] in
  exists results w',
    LLMProcessor.process_multiple_places Scenario.offline_env input "Delhi"
      Scenario.empty_world = (inr results, w') /\
    map fst results = map fst input /\
    places_coll w' = places_coll Scenario.empty_world.
Proof.
  intros reviews input.
  apply (process_multiple_places_one_entry_per_place Scenario.offline_env input
           "Delhi" Scenario.empty_world).
  vm_compute. constructor.
  - intros [H | []]. discriminate H.
  - constructor; [intros [] | constructor].
Defined.

(** ** Keyword classification *)

Module IntentFacts.
Import IntentClassifier.

Lemma prefix_split (a s : string) :
  String.prefix a s = true -> exists rest, s = (a ++ rest)%string.
Proof.
  revert s. induction a as [| c a IH]; intros s H.
  - exists s. reflexivity.
  - destruct s as [| d s]; [discriminate |].
    cbn [String.prefix] in H.
    destruct (ascii_dec c d) as [-> | _]; [| discriminate].
    destruct (IH s H) as [rest ->]. exists rest. reflexivity.
Qed.

Lemma prefix_nil (s : string) : String.prefix "" s = true.
Proof. destruct s; reflexivity. Qed.

(** A text that contains "delhi" contains "hi". *)
Lemma delhi_has_hi (s : string) :
  PyStr.contains "delhi" s = true -> PyStr.contains "hi" s = true.
Proof.
  induction s as [| c s IH]; [discriminate |].
  intros H. cbn [PyStr.contains] in H. apply orb_true_iff in H.
  destruct H as [Hp | Ht].
  - apply prefix_split in Hp. destruct Hp as [rest ->].
    cbn -[String.prefix]. rewrite ?prefix_nil. destruct rest; reflexivity.
  - cbn [PyStr.contains]. rewrite (IH Ht). apply orb_true_r.
Qed.

Lemma _extract_city_delhi (q : string) :
  _extract_city q = Some "Delhi" -> PyStr.contains "delhi" (PyStr.lower q) = true.
Proof.
  unfold _extract_city, cities. cbn [find].
  destruct (PyStr.contains "delhi" (PyStr.lower q)); [reflexivity |].
  repeat match goal with
         | |- context [if ?b then _ else _] => destruct b
         end; cbn; intros H; inversion H.
Qed.

(** The word picked by the loop of [_extract_place_name]. *)
Lemma first_capitalized_some (words : list string) :
  forall i word,
    first_capitalized i words = inr (Some word) ->
    exists k c rest,
      nth_error words k = Some word /\ 0 < i + k /\
      word = String c rest /\ PyStr.is_upper c = true /\
      forall j w, j < k -> 0 < i + j -> nth_error words j = Some w ->
                  exists c' r', w = String c' r' /\ PyStr.is_upper c' = false.
Proof.
  induction words as [| w0 ws IH]; intros i word H; [discriminate |].
  cbn [first_capitalized] in H.
  destruct w0 as [| c0 r0]; [discriminate |].
  cbn [first_char] in H.
  destruct (PyStr.is_upper c0) eqn:Eu; cbn [andb] in H.
  - destruct (Nat.ltb_spec 0 i) as [Hi | Hi].
    + inversion H; subst. exists 0, c0, r0.
      repeat split; auto; [lia |]. intros j w Hj; lia.
    + destruct (IH _ _ H) as (k & c & rest & Hn & Hk & Hw & Hup & Hmin).
      exists (S k), c, rest. repeat split; auto; [lia |].
      intros [| j] w Hj Hij Hnth; [lia |].
      apply (Hmin j w); [lia | lia | exact Hnth].
  - destruct (IH _ _ H) as (k & c & rest & Hn & Hk & Hw & Hup & Hmin).
    exists (S k), c, rest. repeat split; auto; [lia |].
    intros [| j] w Hj Hij Hnth.
    + cbn in Hnth. inversion Hnth; subst. exists c0, r0. split; auto.
    + apply (Hmin j w); [lia | lia | exact Hnth].
Qed.

End IntentFacts.

(** Keywords are matched as substrings, and the greeting keywords come
    first: a query in which [_extract_city] finds Delhi is classified by
    the keyword fallback as a simple response and answered with the
    greeting, because "delhi" contains "hi"; no city is extracted. *)
Theorem fallback_greets_queries_about_delhi (user_query : string) :
  IntentClassifier._extract_city user_query = Some "Delhi" ->
  IntentClassifier._fallback_classification user_query
  = inr (JObj [ ("intent", JStr "simple_response");
                ("confidence", JNum (8 # 10)%Q);
                ("extracted_data",
                  JObj [ ("place_name", JNull); ("city", JNull); ("category", JNull);
                         ("vibe_tags", JArr []); ("search_terms", JArr []);
                         ("response_text",
                           JStr "Hello! How can I help you find places today?") ]) ]).
Proof.
  intros Hcity.
  apply IntentFacts._extract_city_delhi in Hcity.
  apply IntentFacts.delhi_has_hi in Hcity.
  unfold IntentClassifier._fallback_classification,
    IntentClassifier._generate_simple_response.
  cbv zeta.
  assert (H1 : PyStr.any_in IntentClassifier.simple_keywords (PyStr.lower user_query)
               = true).
  { unfold PyStr.any_in, IntentClassifier.simple_keywords. cbn [existsb].
    rewrite Hcity. rewrite orb_true_r. reflexivity. }
  assert (H2 : PyStr.any_in ["hello"; "hi"; "hey"] (PyStr.lower user_query) = true).
  { unfold PyStr.any_in. cbn [existsb].
    rewrite Hcity. rewrite orb_true_r. reflexivity. }
  rewrite H1, H2. reflexivity.
Qed.

Lemma fallback_greets_queries_about_delhi_witness :
  IntentClassifier._extract_city "coffee shops in Delhi" = Some "Delhi" /\
  IntentClassifier._fallback_classification "coffee shops in Delhi"
  = inr (JObj [ ("intent", JStr "simple_response");
                ("confidence", JNum (8 # 10)%Q);
                ("extracted_data",
                  JObj [ ("place_name", JNull); ("city", JNull); ("category", JNull);
                         ("vibe_tags", JArr []); ("search_terms", JArr []);
                         ("response_text",
                           JStr "Hello! How can I help you find places today?") ]) ]).
Proof.
  split; [reflexivity |].
  apply (fallback_greets_queries_about_delhi "coffee shops in Delhi"). reflexivity.
Defined.

(** For a query of 7-bit text, the place name [_extract_place_name]
    returns is a word of the query that starts with an upper-case letter
    and is not the leading word, and it is the first such word; the
    query has at least three words. *)
Theorem extracted_place_name_is_first_later_capitalized_word (query word : string) :
  PyStr.is_ascii query = true ->
  IntentClassifier._extract_place_name query = inr (Some word) ->
  3 <= length (PyStr.split_ws query) /\
  exists k c rest,
    0 < k /\ nth_error (PyStr.split_ws query) k = Some word /\
    word = String c rest /\ PyStr.is_upper c = true /\
    forall j w, 0 < j < k -> nth_error (PyStr.split_ws query) j = Some w ->
                exists c' r', w = String c' r' /\ PyStr.is_upper c' = false.
Proof.
  intros _. unfold IntentClassifier._extract_place_name. cbv zeta.
  destruct (Nat.leb_spec 3 (length (PyStr.split_ws query))) as [Hlen | _];
    [| discriminate].
  intros H. split; [exact Hlen |].
  destruct (IntentFacts.first_capitalized_some _ _ _ H)
    as (k & c & rest & Hn & Hk & Hw & Hup & Hmin).
  exists k, c, rest. repeat split; auto.
  intros j w [Hj1 Hj2] Hnth. apply (Hmin j w); [lia | lia | exact Hnth].
Qed.

Lemma extracted_place_name_is_first_later_capitalized_word_witness :
  IntentClassifier._extract_place_name "Tell me about Starbucks Delhi"
  = inr (Some "Starbucks") /\
  3 <= length (PyStr.split_ws "Tell me about Starbucks Delhi") /\
  exists k c rest,
    0 < k /\ nth_error (PyStr.split_ws "Tell me about Starbucks Delhi") k
             = Some "Starbucks" /\
    "Starbucks" = String c rest /\ PyStr.is_upper c = true /\
    forall j w, 0 < j < k ->
                nth_error (PyStr.split_ws "Tell me about Starbucks Delhi") j = Some w ->
                exists c' r', w = String c' r' /\ PyStr.is_upper c' = false.
Proof.
  split; [reflexivity |].
  apply (extracted_place_name_is_first_later_capitalized_word
           "Tell me about Starbucks Delhi" "Starbucks"); reflexivity.
Defined.
